(** * Interface-counter polling scripts (SNMP / NETCONF): a shallow embedding

    The development embeds the counter-normalisation and rate-derivation
    logic of the polling scripts under [configs/]:

    - [if-stats-snmp-v2.py], [if-stats-snmp-v3.py], [if-stats-snmp-full.py],
      [stats-if-snmp.py] (SNMP family, class [SNMPMonitorEasy]);
    - [if-stats-netconf-v2.py], [if-stats-netconf.py] (NETCONF family,
      class [AristaNETCONFMonitor]).

    Modelling conventions.
    - A Python [int] is a [Z], converted from and to decimal text whatever
      its length (the interpreter's configurable limit on the number of
      digits of such a conversion is not modelled).
    - A Python [float] is an IEEE 754 binary64 number, taken from the
      library's [SpecFloat] (signed zeros, infinities, NaN, round to nearest
      even): the subtraction of two readings of the clock, the division of a
      counter difference by the elapsed time and the product [ts * 1e9] round
      as the interpreter rounds them, an [int] too large for a float raises
      [OverflowError] when it is converted, and [int(x)] truncates toward
      zero, raising on an infinity or a NaN.
    - A reading of [time.time()] is a float within [2^63] nanoseconds of the
      epoch, the range of the interpreter's clock ([Py.time]): its count of
      nanoseconds [int(ts * 1e9)] and its [datetime] are defined. The library
      calls that format the [datetime] of a reading are parameters.
    - A Python [str] is a [string] whose characters are code points below
      256.
    - A Python [dict] with string keys is an insertion-ordered association
      list ([Dict]), because [json.dump] writes the keys in insertion order.
    - A call that can raise returns a [result]; calls on the device session
      are answered by an oracle and recorded in a log of requests.
    - What is typed at a prompt ([input]) is an argument of the function
      that reads it.
    - Console output ([print]) is not modelled; a conversion or a formatting
      made for it that can raise is.
    - Opening a connection ([Session(...)], [manager.connect]), the listing
      of the server capabilities and the configuration test of
      [if-stats-netconf.py] are outside the model, and so are the two
      connection checks [check-netconf-openconfig.py] and
      [test-netconf-huawei.py], which only print what the device returns. *)

From Stdlib Require Import ZArith QArith String Ascii List Bool Lia.
From Stdlib Require Import Floats.SpecFloat.
From Stdlib Require Import Decimal DecimalString DecimalZ DecimalN DecimalPos DecimalFacts.
Import ListNotations.

Local Open Scope string_scope.
Local Open Scope Z_scope.

(** ** Python primitives *)

Module Py.

(** Exceptions that the modelled code can meet. [EasySNMPError] is the base
    class of the SNMP library's own errors; [OtherError] stands for any
    other subclass of [Exception]. *)
Inductive exn : Type :=
| KeyError
| ValueError
| TypeError
| IndexError
| ZeroDivisionError
| OverflowError
| EasySNMPError
| OtherError.

(** The outcome of a call: a value, or a raised exception. *)
Inductive result (A : Type) : Type :=
| Ok (a : A)
| Raise (e : exn).
Arguments Ok {A} a.
Arguments Raise {A} e.

Definition rbind {A B : Type} (r : result A) (k : A -> result B) : result B :=
  match r with
  | Ok a => k a
  | Raise e => Raise e
  end.

Definition raises {A : Type} (r : result A) : Prop :=
  exists e, r = Raise e.

Definition is_ok {A : Type} (r : result A) : bool :=
  match r with
  | Ok _ => true
  | Raise _ => false
  end.

(** A value stored in a statistics dictionary: a string, or [None] (the
    [nodeValue] of a DOM node that is not a text node). *)
Inductive value : Type :=
| VStr (s : string)
| VNone.

Definition value_eqb (a b : value) : bool :=
  match a, b with
  | VStr s, VStr t => String.eqb s t
  | VNone, VNone => true
  | _, _ => false
  end.

(** *** White space

    [str.strip()] and [int] do not strip the same characters: below 256,
    [strip] removes the characters for which [isspace] holds (9-13, 28-32,
    133 and 160); [int] does not skip the four separators 28-31. *)
Definition is_space (c : ascii) : bool :=
  let n := N_of_ascii c in
  ((9 <=? n) && (n <=? 13) || (28 <=? n) && (n <=? 32)
   || (n =? 133) || (n =? 160))%N.

Definition is_int_space (c : ascii) : bool :=
  let n := N_of_ascii c in
  ((9 <=? n) && (n <=? 13) || (n =? 32) || (n =? 133) || (n =? 160))%N.

Fixpoint lstrip_with (sp : ascii -> bool) (s : string) : string :=
  match s with
  | EmptyString => EmptyString
  | String c r => if sp c then lstrip_with sp r else s
  end.

Fixpoint rstrip_with (sp : ascii -> bool) (s : string) : string :=
  match s with
  | EmptyString => EmptyString
  | String c r =>
      match rstrip_with sp r with
      | EmptyString => if sp c then EmptyString else String c EmptyString
      | r' => String c r'
      end
  end.

(** [s.strip()] *)
Definition lstrip (s : string) : string := lstrip_with is_space s.
Definition rstrip (s : string) : string := rstrip_with is_space s.
Definition strip (s : string) : string := rstrip (lstrip s).

(** *** [int(s)] on a string *)

(** What [int] reads once the white space it accepts at both ends is
    removed. *)
Definition int_strip (s : string) : string :=
  rstrip_with is_int_space (lstrip_with is_int_space s).

(** Underscores are accepted between two digits only; [drop_underscores]
    removes them, or fails where one is misplaced. *)
Fixpoint drop_underscores (after_digit : bool) (s : string) : option string :=
  match s with
  | EmptyString => if after_digit then Some EmptyString else None
  | String c r =>
      if Ascii.eqb c "_"
      then (if after_digit then drop_underscores false r else None)
      else option_map (String c) (drop_underscores true r)
  end.

Definition parse_digits (s : string) : option Z :=
  match drop_underscores false s with
  | Some t => option_map Z.of_uint (NilZero.uint_of_string t)
  | None => None
  end.

Definition parse_int (s : string) : option Z :=
  match int_strip s with
  | String "+" r => parse_digits r
  | String "-" r => option_map Z.opp (parse_digits r)
  | t => parse_digits t
  end.

(** [int(s)] for a string [s]: the integer, or [ValueError]. *)
Definition int_of_str (s : string) : result Z :=
  match parse_int s with
  | Some z => Ok z
  | None => Raise ValueError
  end.

(** [int(v)] for a dictionary value: [int(None)] raises [TypeError]. *)
Definition int (v : value) : result Z :=
  match v with
  | VStr s => int_of_str s
  | VNone => Raise TypeError
  end.

(** [str(n)] for an integer [n]. *)
Definition str (n : Z) : string := NilZero.string_of_int (Z.to_int n).

(** *** Floats: IEEE 754 binary64 *)

Definition float : Type := spec_float.

Definition prec : Z := 53.
Definition emax : Z := 1024.

(** The float nearest to [m * 2^e], ties to even, an infinity beyond the
    largest float: the way to write a float here ([dyadic 5 0] is [5.0],
    [dyadic 1 (-1)] is [0.5]). *)
Definition dyadic (m e : Z) : float := binary_normalize prec emax m e false.

Definition zero : float := S754_zero false.

(** The conversion of an [int] operand of a float operation: the nearest
    float, or [OverflowError] ("int too large to convert to float"). *)
Definition float_of_int (n : Z) : result float :=
  match dyadic n 0 with
  | S754_infinity _ => Raise OverflowError
  | x => Ok x
  end.

(** [x - y] and [x * y] on floats: they round, and do not raise. *)
Definition sub (x y : float) : float := SFsub prec emax x y.
Definition mul (x y : float) : float := SFmul prec emax x y.

(** [n / x] for an integer [n] and a float [x] (true division): [n] is
    converted first; a quotient beyond the largest float is an infinity, not
    an exception. *)
Definition truediv (n : Z) (x : float) : result float :=
  rbind (float_of_int n) (fun y =>
    if SFeqb x zero then Raise ZeroDivisionError else Ok (SFdiv prec emax y x)).

(** [int(x)] for a float [x]: truncation toward zero; [OverflowError] on an
    infinity, [ValueError] on a NaN. *)
Definition int_of_float (x : float) : result Z :=
  match x with
  | S754_zero _ => Ok 0
  | S754_finite s m e =>
      Ok (if 0 <=? e then cond_Zopp s (Zpos m * 2 ^ e)
          else Z.quot (cond_Zopp s (Zpos m)) (2 ^ (- e)))
  | S754_infinity _ => Raise OverflowError
  | S754_nan => Raise ValueError
  end.

(** [x > 0] for a float [x]: false on a NaN. *)
Definition gt0 (x : float) : bool := SFltb zero x.

(** [x <= 0] for a float [x]. *)
Definition le0 (x : float) : bool := SFleb x zero.

(** Truth value of a float: [0.0] and [-0.0] are falsy, a NaN is truthy. *)
Definition float_truthy (x : float) : bool := negb (SFeqb x zero).

(** Truth value of an optional float ([None] is falsy). *)
Definition opt_float_truthy (x : option float) : bool :=
  match x with
  | Some q => float_truthy q
  | None => false
  end.

(** [1e9]; the integer [1000000000] converts to the same float. *)
Definition e9 : float := dyadic 1000000000 0.

(** A number that is an [int] or a [float]. *)
Inductive num : Type :=
| Int (n : Z)
| Float (x : float).

Definition num_truthy (d : num) : bool :=
  match d with
  | Int n => negb (n =? 0)
  | Float x => float_truthy x
  end.

(** [x >= n] for a float [x] and an integer [n]: the two values are compared
    exactly, the integer is not rounded to a float. *)
Definition ge_int (x : float) (n : Z) : bool :=
  match x with
  | S754_zero _ => n <=? 0
  | S754_finite s m e =>
      if 0 <=? e then n <=? cond_Zopp s (Zpos m * 2 ^ e)
      else n * 2 ^ (- e) <=? cond_Zopp s (Zpos m)
  | S754_infinity s => negb s
  | S754_nan => false
  end.

(** [x >= d] for a float [x]. *)
Definition ge (x : float) (d : num) : bool :=
  match d with
  | Int n => ge_int x n
  | Float y => SFleb y x
  end.

(** *** Readings of the clock *)

(** What [time.time()] returns. The interpreter keeps the time of the system
    clock as a count of nanoseconds in 64 bits, so a reading lies within
    [2^63] nanoseconds of the epoch (the years 1677 to 2262); in that range
    the [datetime] of the reading exists and [int(ts * 1e9)] is defined. *)
Definition is_reading (x : float) : bool :=
  ge_int x (- 9223372037) && negb (ge_int x 9223372037)
  && is_ok (int_of_float (mul x e9)).

Record time : Type := {
  seconds : float;
  in_range : is_reading seconds = true
}.

(** The reading that is the float [x], when [x] is in range. *)
Definition time_of (x : float) : option time :=
  match is_reading x as b return is_reading x = b -> option time with
  | true => fun H => Some {| seconds := x; in_range := H |}
  | false => fun _ => None
  end eq_refl.

(** [int(ts * 1e9)] for a reading [ts] of the clock. *)
Definition nanos (ts : time) : Z :=
  match int_of_float (mul (seconds ts) e9) with
  | Ok n => n
  | Raise _ => 0
  end.

(** *** Methods of [str] *)

(** [c.lower()] for one character: the capital letters below 256 are
    [A]-[Z] and the accented capitals 192-222, the multiplication sign 215
    apart. *)
Definition lower_char (c : ascii) : ascii :=
  let n := N_of_ascii c in
  if ((65 <=? n) && (n <=? 90) || (192 <=? n) && (n <=? 214)
      || (216 <=? n) && (n <=? 222))%N
  then ascii_of_N (n + 32) else c.

Fixpoint lower (s : string) : string :=
  match s with
  | EmptyString => EmptyString
  | String c r => String (lower_char c) (lower r)
  end.

(** [p in s]: [p] occurs in [s] as a substring. *)
Fixpoint contains (p s : string) : bool :=
  String.prefix p s
  || match s with
     | EmptyString => false
     | String _ r => contains p r
     end.

(** [s.split(sep)] for a separator of one character. *)
Fixpoint split (sep : ascii) (s : string) : list string :=
  match s with
  | EmptyString => [EmptyString]
  | String c r =>
      if Ascii.eqb c sep then EmptyString :: split sep r
      else match split sep r with
           | p :: ps => String c p :: ps
           | [] => [String c EmptyString]
           end
  end.

(** [s.isdigit()]: below 256 the digits are [0]-[9] and the superscripts
    one, two and three, which [int] does not accept. *)
Definition isdigit_char (c : ascii) : bool :=
  let n := N_of_ascii c in
  ((48 <=? n) && (n <=? 57) || (n =? 178) || (n =? 179) || (n =? 185))%N.

Fixpoint all_chars (p : ascii -> bool) (s : string) : bool :=
  match s with
  | EmptyString => true
  | String c r => p c && all_chars p r
  end.

Definition isdigit (s : string) : bool :=
  match s with
  | EmptyString => false
  | String _ _ => all_chars isdigit_char s
  end.

(** Truth value of a string: the empty one is falsy. *)
Definition str_truthy (s : string) : bool :=
  match s with
  | EmptyString => false
  | String _ _ => true
  end.

End Py.

(** ** Dictionaries with string keys, in insertion order *)

Module Dict.

Definition t (V : Type) : Type := list (string * V).

Definition empty {V : Type} : t V := [].

(** [d.get(k)]: the value bound to [k], if any. *)
Fixpoint get {V : Type} (d : t V) (k : string) : option V :=
  match d with
  | [] => None
  | (k', v) :: r => if String.eqb k' k then Some v else get r k
  end.

(** [d[k] = v]: replaces the value in place when [k] is bound, appends the
    binding otherwise. *)
Fixpoint set {V : Type} (d : t V) (k : string) (v : V) : t V :=
  match d with
  | [] => [(k, v)]
  | (k', v') :: r =>
      if String.eqb k' k then (k', v) :: r else (k', v') :: set r k v
  end.

(** A dictionary literal [{k1: v1, ...}]: the bindings are set in order, a
    repeated key keeping its first position and its last value. *)
Definition literal {V : Type} (l : list (string * V)) : t V :=
  fold_left (fun d kv => set d (fst kv) (snd kv)) l empty.

(** [d.copy()]: the values are immutable, so the copy is the same map. *)
Definition copy {V : Type} (d : t V) : t V := d.

(** Truth value of a dictionary: the empty one is falsy. *)
Definition truthy {V : Type} (d : t V) : bool :=
  match d with
  | [] => false
  | _ :: _ => true
  end.

(** [d[k]]: raises [KeyError] when [k] is not bound. *)
Definition item {V : Type} (d : t V) (k : string) : Py.result V :=
  match get d k with
  | Some v => Py.Ok v
  | None => Py.Raise Py.KeyError
  end.

(** [int(d[k])]. *)
Definition int_item (d : t Py.value) (k : string) : Py.result Z :=
  Py.rbind (item d k) Py.int.

(** [int(d.get(k, 0))]: the default is the integer [0]. *)
Definition int_get (d : t Py.value) (k : string) : Py.result Z :=
  match get d k with
  | Some v => Py.int v
  | None => Py.Ok 0
  end.

End Dict.

Definition stats_dict : Type := Dict.t Py.value.

(** ** Effects: an exception monad over a world [W] *)

Module Eff.

Definition M (W A : Type) : Type := W -> Py.result A * W.

Definition ret {W A : Type} (a : A) : M W A := fun w => (Py.Ok a, w).

Definition raise {W A : Type} (e : Py.exn) : M W A := fun w => (Py.Raise e, w).

Definition bind {W A B : Type} (m : M W A) (k : A -> M W B) : M W B :=
  fun w =>
    match m w with
    | (Py.Ok a, w') => k a w'
    | (Py.Raise e, w') => (Py.Raise e, w')
    end.

(** A pure computation that can raise, run inside the monad. *)
Definition lift {W A : Type} (r : Py.result A) : M W A := fun w => (r, w).

(** [try: m  except <handled>: h]: the handler sees the exception and the
    world as the failed body left it. *)
Definition try_except {W A : Type} (m : M W A) (h : Py.exn -> M W A) : M W A :=
  fun w =>
    match m w with
    | (Py.Ok a, w') => (Py.Ok a, w')
    | (Py.Raise e, w') => h e w'
    end.

(** How a run of a monitor loop ends: by the keyboard interrupt that the loop
    catches, taken here between two passes, or by an exception that a pass
    raises and the loop does not catch. *)
Inductive ending : Type :=
| Interrupted
| Raised (e : Py.exn).

(** What a run leaves: how it ended, the polling state, the output file and
    the world. *)
Record run (S F W : Type) : Type := {
  run_end : ending;
  run_state : S;
  run_file : F;
  run_world : W
}.
Arguments run_end {S F W} r.
Arguments run_state {S F W} r.
Arguments run_file {S F W} r.
Arguments run_world {S F W} r.

(** How a run of a loop that can be given a duration ends: by the [break] of
    the duration test, or as above. *)
Inductive stop : Type :=
| DurationReached
| Stopped (e : ending).

Record timed_run (S F W : Type) : Type := {
  timed_stop : stop;
  timed_state : S;
  timed_file : F;
  timed_world : W
}.
Arguments timed_stop {S F W} _.
Arguments timed_state {S F W} _.
Arguments timed_file {S F W} _.
Arguments timed_world {S F W} _.

(** [duration and (current_time - start_time) >= duration], for a duration
    that is [None] or a number. *)
Definition due (duration : option Py.num) (start_time current_time : Py.float) : bool :=
  match duration with
  | Some d => Py.num_truthy d && Py.ge (Py.sub current_time start_time) d
  | None => false
  end.

End Eff.

Declare Scope eff_scope.
Delimit Scope eff_scope with eff.
Notation "x <- m ;; k" := (Eff.bind m (fun x => k))
  (at level 61, m at next level, right associativity) : eff_scope.
Notation "x <~ r ;; k" := (Py.rbind r (fun x => k))
  (at level 61, r at next level, right associativity) : eff_scope.
Local Open Scope eff_scope.

(** ** JSON documents, as [json.dump] receives them *)

Module Json.

#[warnings="-register-all"]
Inductive t : Type :=
| JNull
| JBool (b : bool)
| JInt (n : Z)
| JStr (s : string)
| JArr (l : list t)
| JObj (l : list (string * t)).

Definition of_value (v : Py.value) : t :=
  match v with
  | Py.VStr s => JStr s
  | Py.VNone => JNull
  end.

(** A statistics or rate dictionary as a JSON object, keys in insertion
    order. *)
Definition of_stats (d : stats_dict) : t :=
  JObj (map (fun kv => (fst kv, of_value (snd kv))) d).

(** [obj[k]] on a parsed object. *)
Definition field (j : t) (k : string) : option t :=
  match j with
  | JObj l => Dict.get l k
  | _ => None
  end.

(** [arr[i]] on a parsed array. *)
Definition index (j : t) (i : nat) : option t :=
  match j with
  | JArr l => nth_error l i
  | _ => None
  end.

(** *** [json.dumps]: the text written for a document

    Default separators ([", "] and [": "]); [ensure_ascii] is the keyword
    argument of that name (true by default). *)

Definition dq : ascii := "034"%char.
Definition bs : ascii := "092"%char.

Definition hex_digit (n : N) : ascii :=
  if (n <? 10)%N then ascii_of_N (48 + n) else ascii_of_N (87 + n).

Definition escape_char (ensure_ascii : bool) (c : ascii) : string :=
  let n := N_of_ascii c in
  if (n =? 34)%N then String bs (String dq EmptyString)
  else if (n =? 92)%N then String bs (String bs EmptyString)
  else if (n =? 8)%N then String bs "b"
  else if (n =? 12)%N then String bs "f"
  else if (n =? 10)%N then String bs "n"
  else if (n =? 13)%N then String bs "r"
  else if (n =? 9)%N then String bs "t"
  else if (n <? 32)%N || (ensure_ascii && (126 <? n)%N)
  then String bs (String "u" (String "0" (String "0"
         (String (hex_digit (n / 16)) (String (hex_digit (n mod 16)) EmptyString)))))
  else String c EmptyString.

Fixpoint escape (ensure_ascii : bool) (s : string) : string :=
  match s with
  | EmptyString => EmptyString
  | String c r => escape_char ensure_ascii c ++ escape ensure_ascii r
  end.

Definition dumps_string (ensure_ascii : bool) (s : string) : string :=
  String dq (escape ensure_ascii s ++ String dq EmptyString).

Fixpoint join (sep : string) (l : list string) : string :=
  match l with
  | [] => EmptyString
  | [x] => x
  | x :: r => x ++ sep ++ join sep r
  end.

Fixpoint dumps (ensure_ascii : bool) (j : t) : string :=
  match j with
  | JNull => "null"
  | JBool true => "true"
  | JBool false => "false"
  | JInt n => Py.str n
  | JStr s => dumps_string ensure_ascii s
  | JArr l => "[" ++ join ", " (map (dumps ensure_ascii) l) ++ "]"
  | JObj l =>
      "{" ++ join ", "
               (map (fun kv => let (k, v) := kv : string * t in
                               dumps_string ensure_ascii k ++ ": "
                               ++ dumps ensure_ascii v) l)
          ++ "}"
  end.

(** *** A generic JSON reader

    It accepts the JSON grammar with integer numbers (a number with a
    fraction or an exponent is outside the modelled values and is refused),
    and strings whose characters and [\u] escapes stay below 256. *)

Definition is_ws (c : ascii) : bool :=
  let n := N_of_ascii c in
  ((n =? 32) || (n =? 9) || (n =? 10) || (n =? 13))%N.

Fixpoint skip_ws (s : string) : string :=
  match s with
  | EmptyString => EmptyString
  | String c r => if is_ws c then skip_ws r else s
  end.

Definition hex_value (c : ascii) : option N :=
  let n := N_of_ascii c in
  if (48 <=? n)%N && (n <=? 57)%N then Some (n - 48)%N
  else if (97 <=? n)%N && (n <=? 102)%N then Some (n - 87)%N
  else if (65 <=? n)%N && (n <=? 70)%N then Some (n - 55)%N
  else None.

Definition hex4 (a b c d : ascii) : option ascii :=
  match hex_value a, hex_value b, hex_value c, hex_value d with
  | Some x, Some y, Some z, Some w =>
      let n := (((x * 16 + y) * 16 + z) * 16 + w)%N in
      if (n <? 256)%N then Some (ascii_of_N n) else None
  | _, _, _, _ => None
  end.

Definition cons_char (c : ascii) (r : option (string * string))
  : option (string * string) :=
  match r with
  | Some (s, rest) => Some (String c s, rest)
  | None => None
  end.

(** The characters of a string literal after its opening quote, up to the
    closing quote: the decoded string and the text that follows. *)
Fixpoint read_string (s : string) : option (string * string) :=
  match s with
  | EmptyString => None
  | String c r =>
      let n := N_of_ascii c in
      if (n =? 34)%N then Some (EmptyString, r)
      else if (n =? 92)%N then
        match r with
        | EmptyString => None
        | String e r2 =>
            let m := N_of_ascii e in
            if (m =? 34)%N then cons_char dq (read_string r2)
            else if (m =? 92)%N then cons_char bs (read_string r2)
            else if (m =? 47)%N then cons_char "/" (read_string r2)
            else if (m =? 98)%N then cons_char "008" (read_string r2)
            else if (m =? 102)%N then cons_char "012" (read_string r2)
            else if (m =? 110)%N then cons_char "010" (read_string r2)
            else if (m =? 114)%N then cons_char "013" (read_string r2)
            else if (m =? 116)%N then cons_char "009" (read_string r2)
            else if (m =? 117)%N then
              match r2 with
              | String h1 (String h2 (String h3 (String h4 r6))) =>
                  match hex4 h1 h2 h3 h4 with
                  | Some x => cons_char x (read_string r6)
                  | None => None
                  end
              | _ => None
              end
            else None
        end
      else if (n <? 32)%N then None
      else cons_char c (read_string r)
  end.

Definition is_digit (c : ascii) : bool :=
  let n := N_of_ascii c in ((48 <=? n) && (n <=? 57))%N.

(** The longest prefix of digits, and what follows it. *)
Fixpoint span_digits (s : string) : string * string :=
  match s with
  | EmptyString => (EmptyString, EmptyString)
  | String c r =>
      if is_digit c then let (d, rest) := span_digits r in (String c d, rest)
      else (EmptyString, s)
  end.

Definition starts_fraction (s : string) : bool :=
  match s with
  | String c _ =>
      let n := N_of_ascii c in ((n =? 46) || (n =? 101) || (n =? 69))%N
  | EmptyString => false
  end.

(** An unsigned integer: ["0"], or digits that do not start with [0]. *)
Definition read_nat (s : string) : option (Z * string) :=
  let (d, rest) := span_digits s in
  if starts_fraction rest then None
  else
    match d with
    | EmptyString => None
    | String "0" (String _ _) => None
    | _ => match NilEmpty.uint_of_string d with
           | Some u => Some (Z.of_uint u, rest)
           | None => None
           end
    end.

Definition read_number (s : string) : option (Z * string) :=
  match s with
  | String "-" r =>
      match read_nat r with
      | Some (n, rest) => Some (- n, rest)
      | None => None
      end
  | _ => read_nat s
  end.

(** [expect w s]: [s] without its prefix [w]. *)
Fixpoint expect (w s : string) : option string :=
  match w with
  | EmptyString => Some s
  | String c w' =>
      match s with
      | String c' s' => if Ascii.eqb c c' then expect w' s' else None
      | EmptyString => None
      end
  end.

(** [peek_is n s]: when the first character of [s] after white space has
    code [n], the text after that character. *)
Definition peek_is (n : N) (s : string) : option string :=
  match skip_ws s with
  | String c r => if (N_of_ascii c =? n)%N then Some r else None
  | EmptyString => None
  end.

Fixpoint read_value (fuel : nat) (s : string) : option (t * string) :=
  match fuel with
  | O => None
  | S fuel' =>
      match skip_ws s with
      | EmptyString => None
      | String c r =>
          let n := N_of_ascii c in
          if (n =? 34)%N then
            match read_string r with
            | Some (x, rest) => Some (JStr x, rest)
            | None => None
            end
          else if (n =? 91)%N then
            match peek_is 93 r with
            | Some rest => Some (JArr [], rest)
            | None =>
                match read_elements fuel' r with
                | Some (l, rest) => Some (JArr l, rest)
                | None => None
                end
            end
          else if (n =? 123)%N then
            match peek_is 125 r with
            | Some rest => Some (JObj [], rest)
            | None =>
                match read_members fuel' r with
                | Some (l, rest) => Some (JObj l, rest)
                | None => None
                end
            end
          else if (n =? 110)%N then
            option_map (fun rest => (JNull, rest)) (expect "ull" r)
          else if (n =? 116)%N then
            option_map (fun rest => (JBool true, rest)) (expect "rue" r)
          else if (n =? 102)%N then
            option_map (fun rest => (JBool false, rest)) (expect "alse" r)
          else
            match read_number (String c r) with
            | Some (z, rest) => Some (JInt z, rest)
            | None => None
            end
      end
  end

with read_elements (fuel : nat) (s : string) : option (list t * string) :=
  match fuel with
  | O => None
  | S fuel' =>
      match read_value fuel' s with
      | Some (v, r) =>
          match peek_is 44 r with
          | Some r' =>
              match read_elements fuel' r' with
              | Some (vs, rest) => Some (v :: vs, rest)
              | None => None
              end
          | None =>
              match peek_is 93 r with
              | Some rest => Some ([v], rest)
              | None => None
              end
          end
      | None => None
      end
  end

with read_members (fuel : nat) (s : string) : option (list (string * t) * string) :=
  match fuel with
  | O => None
  | S fuel' =>
      match peek_is 34 s with
      | Some r =>
          match read_string r with
          | Some (k, r1) =>
              match peek_is 58 r1 with
              | Some r2 =>
                  match read_value fuel' r2 with
                  | Some (v, r3) =>
                      match peek_is 44 r3 with
                      | Some r4 =>
                          match read_members fuel' r4 with
                          | Some (kvs, rest) => Some ((k, v) :: kvs, rest)
                          | None => None
                          end
                      | None =>
                          match peek_is 125 r3 with
                          | Some rest => Some ([(k, v)], rest)
                          | None => None
                          end
                      end
                  | None => None
                  end
              | None => None
              end
          | None => None
          end
      | None => None
      end
  end.

(** [loads]: the document read from a text, with only white space after it. *)
Definition loads (s : string) : option t :=
  match read_value (S (String.length s)) s with
  | Some (j, rest) =>
      match skip_ws rest with
      | EmptyString => Some j
      | _ => None
      end
  | None => None
  end.

End Json.

(** ** The SNMP session *)

Module Snmp.

(** What [session.get(oid)] does: it raises, or returns a variable whose
    [value] is a string ([Some]), or returns a falsy result ([None]). *)
Definition session : Type := string -> Py.result (option string).

(** The world of an SNMP fetch: the OIDs requested so far, oldest first. *)
Definition log : Type := list string.

Definition session_get (s : session) (oid : string) : Eff.M log (option string) :=
  fun l => (s oid, (l ++ [oid])%list).

(** The per-interface polling state kept on the monitor object. *)
Record poll_state : Type := {
  prev_stats : stats_dict;
  prev_timestamp : option Py.float
}.

Definition initial_state : poll_state :=
  {| prev_stats := Dict.empty; prev_timestamp := None |}.

(** [{'in-bps': '0', 'out-bps': '0'}] *)
Definition zero_rate : stats_dict :=
  Dict.literal [("in-bps", Py.VStr "0"); ("out-bps", Py.VStr "0")].

(** [str(int((diff * 8) / delta_t))] *)
Definition bps (diff : Z) (delta_t : Py.float) : Py.result string :=
  x <~ Py.truediv (diff * 8) delta_t ;;
  n <~ Py.int_of_float x ;;
  Py.Ok (Py.str n).

(** The output file: the objects handed to [json.dump], each followed by a
    newline, oldest first. *)
Definition file : Type := list Json.t.

Definition dump_line (f : file) (j : Json.t) : file := (f ++ [j])%list.

End Snmp.

(** ** [if-stats-snmp-v2.py] *)

Module SnmpV2.

Import Snmp.

Definition TARGET : string := "172.100.100.5".
Definition INTERFACE_NAME : string := "Ethernet0/1".
Definition INTERFACE_INDEX : Z := 2.

Section Monitor.

(** [self.session], [self.target], [self.interface_index] and the library
    call [datetime.fromtimestamp(ts, timezone.utc).isoformat()]. *)
Variable sess : session.
Variable target : string.
Variable interface_index : Z.
Variable isoformat : Py.time -> string.

Definition get_snmp_value (oid_base : string) : Eff.M log string :=
  Eff.try_except
    (let oid := oid_base ++ "." ++ Py.str interface_index in
     result <- session_get sess oid ;;
     match result with
     | Some v =>
         if negb (String.eqb v "NOSUCHINSTANCE") then Eff.ret v else Eff.ret "0"
     | None => Eff.ret "0"
     end)
    (fun _ => Eff.ret "0").

(** [stats[key] = self.get_snmp_value(oid_base)] *)
Definition fetch_into (stats : stats_dict) (key oid_base : string)
  : Eff.M log stats_dict :=
  v <- get_snmp_value oid_base ;;
  Eff.ret (Dict.set stats key (Py.VStr v)).

(** [int(stats.get(a, 0)) + int(stats.get(b, 0)) + int(stats.get(c, 0))] *)
Definition total (stats : stats_dict) (a b c : string) : Py.result Z :=
  x <~ Dict.int_get stats a ;;
  y <~ Dict.int_get stats b ;;
  z <~ Dict.int_get stats c ;;
  Py.Ok (x + y + z).

Definition get_interface_stats : Eff.M log stats_dict :=
  let stats := Dict.empty in
  hc_in_octets <- get_snmp_value ".1.3.6.1.2.1.31.1.1.1.6" ;;
  hc_out_octets <- get_snmp_value ".1.3.6.1.2.1.31.1.1.1.10" ;;
  stats <-
    (if negb (String.eqb hc_in_octets "0") || negb (String.eqb hc_out_octets "0")
     then
       let stats := Dict.set stats "in-octets" (Py.VStr hc_in_octets) in
       let stats := Dict.set stats "out-octets" (Py.VStr hc_out_octets) in
       stats <- fetch_into stats "in-unicast-packets" ".1.3.6.1.2.1.31.1.1.1.7" ;;
       stats <- fetch_into stats "in-multicast-packets" ".1.3.6.1.2.1.31.1.1.1.8" ;;
       stats <- fetch_into stats "in-broadcast-packets" ".1.3.6.1.2.1.31.1.1.1.9" ;;
       stats <- fetch_into stats "out-unicast-packets" ".1.3.6.1.2.1.31.1.1.1.11" ;;
       stats <- fetch_into stats "out-multicast-packets" ".1.3.6.1.2.1.31.1.1.1.12" ;;
       fetch_into stats "out-broadcast-packets" ".1.3.6.1.2.1.31.1.1.1.13"
     else
       stats <- fetch_into stats "in-octets" ".1.3.6.1.2.1.2.2.1.10" ;;
       stats <- fetch_into stats "out-octets" ".1.3.6.1.2.1.2.2.1.16" ;;
       stats <- fetch_into stats "in-unicast-packets" ".1.3.6.1.2.1.2.2.1.11" ;;
       stats <- fetch_into stats "in-multicast-packets" ".1.3.6.1.2.1.2.2.1.12" ;;
       stats <- fetch_into stats "in-broadcast-packets" ".1.3.6.1.2.1.2.2.1.13" ;;
       stats <- fetch_into stats "out-unicast-packets" ".1.3.6.1.2.1.2.2.1.17" ;;
       stats <- fetch_into stats "out-multicast-packets" ".1.3.6.1.2.1.2.2.1.18" ;;
       fetch_into stats "out-broadcast-packets" ".1.3.6.1.2.1.2.2.1.19") ;;
  in_total <- Eff.lift (total stats "in-unicast-packets" "in-multicast-packets"
                          "in-broadcast-packets") ;;
  let stats := Dict.set stats "in-packets" (Py.VStr (Py.str in_total)) in
  out_total <- Eff.lift (total stats "out-unicast-packets" "out-multicast-packets"
                           "out-broadcast-packets") ;;
  let stats := Dict.set stats "out-packets" (Py.VStr (Py.str out_total)) in
  Eff.ret stats.

(** [calculate_traffic_rate]: the rate dictionary and the new polling state.
    When an exception is raised the assignments to [self.prev_stats] and
    [self.prev_timestamp] are not reached. *)
Definition calculate_traffic_rate (self : poll_state) (current_stats : stats_dict)
    (current_time : Py.float) : Py.result (stats_dict * poll_state) :=
  let rate := zero_rate in
  rate <~
    (if Dict.truthy (prev_stats self) && Py.opt_float_truthy (prev_timestamp self)
     then
       match prev_timestamp self with
       | Some pt =>
           let delta_t := Py.sub current_time pt in
           if Py.gt0 delta_t then
             a <~ Dict.int_item current_stats "in-octets" ;;
             b <~ Dict.int_item (prev_stats self) "in-octets" ;;
             let in_diff := a - b in
             c <~ Dict.int_item current_stats "out-octets" ;;
             d <~ Dict.int_item (prev_stats self) "out-octets" ;;
             let out_diff := c - d in
             in_bps <~ bps in_diff delta_t ;;
             let rate := Dict.set rate "in-bps" (Py.VStr in_bps) in
             out_bps <~ bps out_diff delta_t ;;
             let rate := Dict.set rate "out-bps" (Py.VStr out_bps) in
             Py.Ok rate
           else Py.Ok rate
       | None => Py.Ok rate
       end
     else Py.Ok rate) ;;
  Py.Ok (rate, {| prev_stats := Dict.copy current_stats;
                  prev_timestamp := Some current_time |}).

Definition format_output (stats_type : string) (data : stats_dict) (timestamp : Py.time)
  : Json.t :=
  Json.JObj [
    ("source", Json.JStr target);
    ("subscription-name", Json.JStr "snmp-if-stats");
    ("timestamp", Json.JInt (Py.nanos timestamp));
    ("time", Json.JStr (isoformat timestamp));
    ("updates", Json.JArr [
       Json.JObj [
         ("Path", Json.JStr ("IF-MIB:interface[index=" ++ Py.str interface_index
                             ++ "]/" ++ stats_type));
         ("values", Json.JObj [
            ("IF-MIB:interface/" ++ stats_type, Json.of_stats data)])]])].

(** One pass through the body of the [while True] loop of [monitor]; [now] is
    the reading of [time.time()] at its start. Only [KeyboardInterrupt] is
    caught by the loop, so an exception raised in the body leaves [monitor]. *)
Definition monitor_cycle (now : Py.time) (self : poll_state) (f : file)
  : Eff.M log (poll_state * file) :=
  stats <- get_interface_stats ;;
  rs <- Eff.lift (calculate_traffic_rate self stats (Py.seconds now)) ;;
  let '(rate, self) := rs in
  let f := dump_line f (format_output "statistics" stats now) in
  let f := dump_line f (format_output "traffic-rate" rate now) in
  Eff.ret (self, f).

End Monitor.

(** The [while True] loop of [monitor], run until it ends: each tick gives
    what the session answers during one pass and the reading of the clock at
    its start. A pass raises, if it does, before it writes anything: the run
    then ends with the state and the file as the pass found them. *)
Fixpoint monitor_loop (target : string) (interface_index : Z)
    (isoformat : Py.time -> string)
    (ticks : list (session * Py.time)) (self : poll_state) (f : file) (l : log)
  : Eff.run poll_state file log :=
  match ticks with
  | [] => {| Eff.run_end := Eff.Interrupted; Eff.run_state := self;
             Eff.run_file := f; Eff.run_world := l |}
  | (sess, now) :: rest =>
      match monitor_cycle sess target interface_index isoformat now self f l with
      | (Py.Ok (self', f'), l') =>
          monitor_loop target interface_index isoformat rest self' f' l'
      | (Py.Raise e, l') =>
          {| Eff.run_end := Eff.Raised e; Eff.run_state := self;
             Eff.run_file := f; Eff.run_world := l' |}
      end
  end.

(** [monitor]: the state is the one [__init__] sets and the output file is
    opened empty. *)
Definition monitor (isoformat : Py.time -> string) (ticks : list (session * Py.time))
  : Eff.run poll_state file log :=
  monitor_loop TARGET INTERFACE_INDEX isoformat ticks initial_state [] [].

End SnmpV2.

(** ** [if-stats-snmp-v3.py] *)

Module SnmpV3.

Import Snmp.

Definition TARGET : string := "172.100.100.5".
Definition INTERFACE_INDEX : Z := 2.

Section Monitor.

Variable sess : session.
Variable target : string.
Variable interface_index : Z.
Variable isoformat : Py.time -> string.

(** Only [EasySNMPError] is handled here: any other exception leaves the
    function. *)
Definition get_snmp_value (oid_base : string) : Eff.M log string :=
  Eff.try_except
    (let oid := oid_base ++ "." ++ Py.str interface_index in
     result <- session_get sess oid ;;
     match result with
     | Some v =>
         if negb (String.eqb v "NOSUCHINSTANCE" || String.eqb v "NOSUCHOBJECT")
         then Eff.ret v else Eff.ret "0"
     | None => Eff.ret "0"
     end)
    (fun e =>
       match e with
       | Py.EasySNMPError => Eff.ret "0"
       | _ => Eff.raise e
       end).

Definition fetch_into (stats : stats_dict) (key oid_base : string)
  : Eff.M log stats_dict :=
  v <- get_snmp_value oid_base ;;
  Eff.ret (Dict.set stats key (Py.VStr v)).

Definition total (stats : stats_dict) (a b c : string) : Py.result Z :=
  x <~ Dict.int_get stats a ;;
  y <~ Dict.int_get stats b ;;
  z <~ Dict.int_get stats c ;;
  Py.Ok (x + y + z).

Definition get_interface_stats : Eff.M log stats_dict :=
  let stats := Dict.empty in
  hc_in <- get_snmp_value ".1.3.6.1.2.1.31.1.1.1.6" ;;
  hc_out <- get_snmp_value ".1.3.6.1.2.1.31.1.1.1.10" ;;
  stats <-
    (if negb (String.eqb hc_in "0") || negb (String.eqb hc_out "0")
     then
       let stats := Dict.set stats "in-octets" (Py.VStr hc_in) in
       let stats := Dict.set stats "out-octets" (Py.VStr hc_out) in
       stats <- fetch_into stats "in-unicast-packets" ".1.3.6.1.2.1.31.1.1.1.7" ;;
       stats <- fetch_into stats "in-multicast-packets" ".1.3.6.1.2.1.31.1.1.1.8" ;;
       stats <- fetch_into stats "in-broadcast-packets" ".1.3.6.1.2.1.31.1.1.1.9" ;;
       stats <- fetch_into stats "out-unicast-packets" ".1.3.6.1.2.1.31.1.1.1.11" ;;
       stats <- fetch_into stats "out-multicast-packets" ".1.3.6.1.2.1.31.1.1.1.12" ;;
       fetch_into stats "out-broadcast-packets" ".1.3.6.1.2.1.31.1.1.1.13"
     else
       stats <- fetch_into stats "in-octets" ".1.3.6.1.2.1.2.2.1.10" ;;
       stats <- fetch_into stats "out-octets" ".1.3.6.1.2.1.2.2.1.16" ;;
       stats <- fetch_into stats "in-unicast-packets" ".1.3.6.1.2.1.2.2.1.11" ;;
       stats <- fetch_into stats "in-multicast-packets" ".1.3.6.1.2.1.2.2.1.12" ;;
       stats <- fetch_into stats "in-broadcast-packets" ".1.3.6.1.2.1.2.2.1.13" ;;
       stats <- fetch_into stats "out-unicast-packets" ".1.3.6.1.2.1.2.2.1.17" ;;
       stats <- fetch_into stats "out-multicast-packets" ".1.3.6.1.2.1.2.2.1.18" ;;
       fetch_into stats "out-broadcast-packets" ".1.3.6.1.2.1.2.2.1.19") ;;
  stats <- fetch_into stats "in-discarded-packets" ".1.3.6.1.2.1.2.2.1.13" ;;
  stats <- fetch_into stats "in-error-packets" ".1.3.6.1.2.1.2.2.1.14" ;;
  stats <- fetch_into stats "out-discarded-packets" ".1.3.6.1.2.1.2.2.1.19" ;;
  stats <- fetch_into stats "out-error-packets" ".1.3.6.1.2.1.2.2.1.20" ;;
  stats <- fetch_into stats "carrier-transitions" ".1.3.6.1.2.1.2.2.1.9" ;;
  in_total <- Eff.lift (total stats "in-unicast-packets" "in-multicast-packets"
                          "in-broadcast-packets") ;;
  let stats := Dict.set stats "in-packets" (Py.VStr (Py.str in_total)) in
  out_total <- Eff.lift (total stats "out-unicast-packets" "out-multicast-packets"
                           "out-broadcast-packets") ;;
  let stats := Dict.set stats "out-packets" (Py.VStr (Py.str out_total)) in
  Eff.ret stats.

Definition calculate_traffic_rate (self : poll_state) (stats : stats_dict)
    (now : Py.float) : Py.result (stats_dict * poll_state) :=
  let rate := zero_rate in
  rate <~
    (if Dict.truthy (prev_stats self) && Py.opt_float_truthy (prev_timestamp self)
     then
       match prev_timestamp self with
       | Some pt =>
           let dt := Py.sub now pt in
           if Py.gt0 dt then
             a <~ Dict.int_item stats "in-octets" ;;
             b <~ Dict.int_item (prev_stats self) "in-octets" ;;
             in_bps <~ bps (a - b) dt ;;
             let rate := Dict.set rate "in-bps" (Py.VStr in_bps) in
             c <~ Dict.int_item stats "out-octets" ;;
             d <~ Dict.int_item (prev_stats self) "out-octets" ;;
             out_bps <~ bps (c - d) dt ;;
             let rate := Dict.set rate "out-bps" (Py.VStr out_bps) in
             Py.Ok rate
           else Py.Ok rate
       | None => Py.Ok rate
       end
     else Py.Ok rate) ;;
  Py.Ok (rate, {| prev_stats := Dict.copy stats; prev_timestamp := Some now |}).

Definition format_output (block : string) (data : stats_dict) (ts : Py.time) : Json.t :=
  Json.JObj [
    ("source", Json.JStr target);
    ("subscription-name", Json.JStr "snmp-if-stats");
    ("timestamp", Json.JInt (Py.nanos ts));
    ("time", Json.JStr (isoformat ts));
    ("updates", Json.JArr [
       Json.JObj [
         ("Path", Json.JStr ("IF-MIB:interface[index=" ++ Py.str interface_index
                             ++ "]/" ++ block));
         ("values", Json.JObj [
            ("IF-MIB:interface/" ++ block, Json.of_stats data)])]])].

(** One pass through the body of the [while True] loop of [monitor]. *)
Definition monitor_cycle (now : Py.time) (self : poll_state) (f : file)
  : Eff.M log (poll_state * file) :=
  stats <- get_interface_stats ;;
  rs <- Eff.lift (calculate_traffic_rate self stats (Py.seconds now)) ;;
  let '(rate, self) := rs in
  let f := dump_line f (format_output "statistics" stats now) in
  let f := dump_line f (format_output "traffic-rate" rate now) in
  Eff.ret (self, f).

End Monitor.

(** The [while True] loop of [monitor], run until it ends. *)
Fixpoint monitor_loop (target : string) (interface_index : Z)
    (isoformat : Py.time -> string)
    (ticks : list (session * Py.time)) (self : poll_state) (f : file) (l : log)
  : Eff.run poll_state file log :=
  match ticks with
  | [] => {| Eff.run_end := Eff.Interrupted; Eff.run_state := self;
             Eff.run_file := f; Eff.run_world := l |}
  | (sess, now) :: rest =>
      match monitor_cycle sess target interface_index isoformat now self f l with
      | (Py.Ok (self', f'), l') =>
          monitor_loop target interface_index isoformat rest self' f' l'
      | (Py.Raise e, l') =>
          {| Eff.run_end := Eff.Raised e; Eff.run_state := self;
             Eff.run_file := f; Eff.run_world := l' |}
      end
  end.

Definition monitor (isoformat : Py.time -> string) (ticks : list (session * Py.time))
  : Eff.run poll_state file log :=
  monitor_loop TARGET INTERFACE_INDEX isoformat ticks initial_state [] [].

End SnmpV3.

(** ** [if-stats-snmp-full.py] *)

Module SnmpFull.

Import Snmp.

(** The inner [try] of [calculate_traffic_rate], with its [except Exception]:
    the rate dictionary as the [try] leaves it. Both quotients are computed
    before either is converted, and ['in-bps'] is stored before the outbound
    quotient is converted: an exception raised by that last conversion leaves
    the inbound rate in the dictionary. *)
Definition rate_body (traffic_rate current_stats prev : stats_dict)
    (time_diff : Py.float) : stats_dict :=
  match
    (a <~ Dict.int_get current_stats "in-octets" ;;
     b <~ Dict.int_get prev "in-octets" ;;
     let in_diff := a - b in
     c <~ Dict.int_get current_stats "out-octets" ;;
     d <~ Dict.int_get prev "out-octets" ;;
     let out_diff := c - d in
     in_bps <~ Py.truediv (in_diff * 8) time_diff ;;
     out_bps <~ Py.truediv (out_diff * 8) time_diff ;;
     Py.Ok (in_bps, out_bps))
  with
  | Py.Raise _ => traffic_rate
  | Py.Ok (in_bps, out_bps) =>
      match Py.int_of_float in_bps with
      | Py.Raise _ => traffic_rate
      | Py.Ok n =>
          let traffic_rate := Dict.set traffic_rate "in-bps" (Py.VStr (Py.str n)) in
          match Py.int_of_float out_bps with
          | Py.Raise _ => traffic_rate
          | Py.Ok m => Dict.set traffic_rate "out-bps" (Py.VStr (Py.str m))
          end
      end
  end.

Definition calculate_traffic_rate (self : poll_state) (current_stats : stats_dict)
    (current_time : Py.float) : stats_dict * poll_state :=
  let traffic_rate := zero_rate in
  let traffic_rate :=
    if Dict.truthy (prev_stats self) && Py.opt_float_truthy (prev_timestamp self)
    then
      match prev_timestamp self with
      | Some pt =>
          let time_diff := Py.sub current_time pt in
          if Py.gt0 time_diff then
            rate_body traffic_rate current_stats (prev_stats self) time_diff
          else traffic_rate
      | None => traffic_rate
      end
    else traffic_rate in
  (traffic_rate, {| prev_stats := Dict.copy current_stats;
                    prev_timestamp := Some current_time |}).

Definition TARGET : string := "172.100.100.5".

(** [self.interface_name], as [__init__] sets it. *)
Definition INTERFACE_NAME : string := "Ethernet0/1".

(** What [session.walk(oid)] does: it raises, or returns the variables found
    below [oid], each with its [oid] and its [value]. *)
Definition walker : Type := string -> Py.result (list (string * string)).

Definition session_walk (w : walker) (oid : string)
  : Eff.M log (list (string * string)) :=
  fun l => (w oid, (l ++ [oid])%list).

Section Discovery.

(** [self.session.walk], [self.interface_name] and what [input(...)] does (the
    line typed, or an exception such as the end of the input). *)
Variable walk : walker.
Variable interface_name : string.
Variable input : Py.result string.

(** The [for] loop of the first two methods: the index at the [return], or
    nothing when the loop runs to its end. The [int] of the first matching
    item can raise; the items after it are then not looked at. *)
Fixpoint search (items : list (string * string)) : Py.result (option Z) :=
  match items with
  | [] => Py.Ok None
  | (oid, value) :: rest =>
      if Py.contains (Py.lower interface_name) (Py.lower value) then
        let oid_parts := Py.split "." oid in
        if 0 <? Z.of_nat (length oid_parts) then
          let index := last oid_parts EmptyString in
          index <~ Py.int_of_str index ;;
          Py.Ok (Some index)
        else search rest
      else search rest
  end.

(** [discover_and_set_interface]: the value it leaves in
    [self.interface_index]. The listing of the third method is console
    output. *)
Definition discover_and_set_interface : Eff.M log Z :=
  found <- Eff.try_except
             (if_descr_oids <- session_walk walk ".1.3.6.1.2.1.2.2.1.2" ;;
              Eff.lift (search if_descr_oids))
             (fun _ => Eff.ret None) ;;
  match found with
  | Some index => Eff.ret index
  | None =>
      found <- Eff.try_except
                 (if_name_oids <- session_walk walk ".1.3.6.1.2.1.31.1.1.1.1" ;;
                  Eff.lift (search if_name_oids))
                 (fun _ => Eff.ret None) ;;
      match found with
      | Some index => Eff.ret index
      | None =>
          Eff.try_except
            (if_indices <- session_walk walk ".1.3.6.1.2.1.2.2.1.1" ;;
             if_descriptions <- session_walk walk ".1.3.6.1.2.1.2.2.1.2" ;;
             if_names <- session_walk walk ".1.3.6.1.2.1.31.1.1.1.1" ;;
             line <- Eff.lift input ;;
             let user_input := Py.strip line in
             if Py.str_truthy user_input && Py.isdigit user_input
             then Eff.lift (Py.int_of_str user_input)
             else Eff.ret 1)
            (fun _ => Eff.ret 1)
      end
  end.

End Discovery.

Section Monitor.

(** [self.session], [self.target], [self.interface_index] and the library
    call [datetime.utcfromtimestamp(ts).strftime(...)]. *)
Variable sess : session.
Variable target : string.
Variable interface_index : Z.
Variable strftime : Py.time -> string.

Definition get_snmp_value (oid_base : string) : Eff.M log string :=
  Eff.try_except
    (let oid := oid_base ++ "." ++ Py.str interface_index in
     result <- session_get sess oid ;;
     match result with
     | Some v =>
         if negb (String.eqb v "NOSUCHINSTANCE") then Eff.ret v else Eff.ret "0"
     | None => Eff.ret "0"
     end)
    (fun _ => Eff.ret "0").

Definition fetch_into (stats : stats_dict) (key oid_base : string)
  : Eff.M log stats_dict :=
  v <- get_snmp_value oid_base ;;
  Eff.ret (Dict.set stats key (Py.VStr v)).

Definition total (stats : stats_dict) (a b c : string) : Py.result Z :=
  x <~ Dict.int_get stats a ;;
  y <~ Dict.int_get stats b ;;
  z <~ Dict.int_get stats c ;;
  Py.Ok (x + y + z).

(** The [try] that computes both totals, with its bare [except]: the first
    total is stored before the second one is computed. *)
Definition with_totals (stats : stats_dict) : stats_dict :=
  match total stats "in-unicast-packets" "in-multicast-packets"
          "in-broadcast-packets" with
  | Py.Ok in_total =>
      let stats := Dict.set stats "in-packets" (Py.VStr (Py.str in_total)) in
      match total stats "out-unicast-packets" "out-multicast-packets"
              "out-broadcast-packets" with
      | Py.Ok out_total => Dict.set stats "out-packets" (Py.VStr (Py.str out_total))
      | Py.Raise _ =>
          Dict.set (Dict.set stats "in-packets" (Py.VStr "0"))
                   "out-packets" (Py.VStr "0")
      end
  | Py.Raise _ =>
      Dict.set (Dict.set stats "in-packets" (Py.VStr "0"))
               "out-packets" (Py.VStr "0")
  end.

Definition get_interface_stats : Eff.M log stats_dict :=
  let stats := Dict.empty in
  hc_in_octets <- get_snmp_value ".1.3.6.1.2.1.31.1.1.1.6" ;;
  hc_out_octets <- get_snmp_value ".1.3.6.1.2.1.31.1.1.1.10" ;;
  stats <-
    (if negb (String.eqb hc_in_octets "0") || negb (String.eqb hc_out_octets "0")
     then
       let stats := Dict.set stats "in-octets" (Py.VStr hc_in_octets) in
       let stats := Dict.set stats "out-octets" (Py.VStr hc_out_octets) in
       stats <- fetch_into stats "in-unicast-packets" ".1.3.6.1.2.1.31.1.1.1.7" ;;
       stats <- fetch_into stats "in-multicast-packets" ".1.3.6.1.2.1.31.1.1.1.8" ;;
       stats <- fetch_into stats "in-broadcast-packets" ".1.3.6.1.2.1.31.1.1.1.9" ;;
       stats <- fetch_into stats "out-unicast-packets" ".1.3.6.1.2.1.31.1.1.1.11" ;;
       stats <- fetch_into stats "out-multicast-packets" ".1.3.6.1.2.1.31.1.1.1.12" ;;
       fetch_into stats "out-broadcast-packets" ".1.3.6.1.2.1.31.1.1.1.13"
     else
       stats <- fetch_into stats "in-octets" ".1.3.6.1.2.1.2.2.1.10" ;;
       stats <- fetch_into stats "out-octets" ".1.3.6.1.2.1.2.2.1.16" ;;
       stats <- fetch_into stats "in-unicast-packets" ".1.3.6.1.2.1.2.2.1.11" ;;
       stats <- fetch_into stats "in-multicast-packets" ".1.3.6.1.2.1.2.2.1.12" ;;
       stats <- fetch_into stats "in-broadcast-packets" ".1.3.6.1.2.1.2.2.1.13" ;;
       stats <- fetch_into stats "out-unicast-packets" ".1.3.6.1.2.1.2.2.1.17" ;;
       stats <- fetch_into stats "out-multicast-packets" ".1.3.6.1.2.1.2.2.1.18" ;;
       fetch_into stats "out-broadcast-packets" ".1.3.6.1.2.1.2.2.1.19") ;;
  stats <- fetch_into stats "in-discarded-packets" ".1.3.6.1.2.1.2.2.1.13" ;;
  stats <- fetch_into stats "in-error-packets" ".1.3.6.1.2.1.2.2.1.14" ;;
  stats <- fetch_into stats "out-discarded-packets" ".1.3.6.1.2.1.2.2.1.19" ;;
  stats <- fetch_into stats "out-error-packets" ".1.3.6.1.2.1.2.2.1.20" ;;
  stats <- fetch_into stats "carrier-transitions" ".1.3.6.1.2.1.2.2.1.32" ;;
  let stats := with_totals stats in
  stats <- fetch_into stats "interface-name" ".1.3.6.1.2.1.31.1.1.1.1" ;;
  stats <- fetch_into stats "interface-description" ".1.3.6.1.2.1.2.2.1.2" ;;
  fetch_into stats "operational-status" ".1.3.6.1.2.1.2.2.1.8".

Definition format_output (stats_type : string) (data : stats_dict) (timestamp : Py.time)
  : Json.t :=
  Json.JObj [
    ("source", Json.JStr target);
    ("subscription-name", Json.JStr "snmp-if-stats");
    ("timestamp", Json.JInt (Py.nanos timestamp));
    ("time", Json.JStr (strftime timestamp));
    ("updates", Json.JArr [
       Json.JObj [
         ("Path", Json.JStr ("IF-MIB:interface[index=" ++ Py.str interface_index
                             ++ "]/" ++ stats_type));
         ("values", Json.JObj [
            ("IF-MIB:interface/" ++ stats_type, Json.of_stats data)])]])].

(** [session.get(oid).value] in [test_connection]: the attribute is missing
    on a falsy result. *)
Definition value_of (oid : string) : Eff.M log string :=
  result <- session_get sess oid ;;
  match result with
  | Some v => Eff.ret v
  | None => Eff.raise Py.OtherError
  end.

Definition test_connection : Eff.M log bool :=
  Eff.try_except
    (sys_descr <- value_of ".1.3.6.1.2.1.1.1.0" ;;
     sys_uptime <- value_of ".1.3.6.1.2.1.1.3.0" ;;
     num_if <- value_of ".1.3.6.1.2.1.2.1.0" ;;
     if_name <- get_snmp_value ".1.3.6.1.2.1.31.1.1.1.1" ;;
     if_descr <- get_snmp_value ".1.3.6.1.2.1.2.2.1.2" ;;
     Eff.ret true)
    (fun _ => Eff.ret false).

(** One pass through the body of the [while True] loop of [monitor]:
    [current_time] is the reading of the clock at its start. The statistics
    record is written before the rate is computed. The pass returns the state,
    the file and whether the duration test breaks the loop; the
    [except Exception] of the loop leaves the state and the file as they are
    and goes on with the next pass. *)
Definition monitor_cycle (start_time : Py.time) (duration : option Py.num)
    (current_time : Py.time) (self : poll_state) (f : file)
  : Eff.M log (poll_state * file * bool) :=
  Eff.try_except
    (stats <- get_interface_stats ;;
     let '(self, f) :=
       if Dict.truthy stats then
         let stats_output := format_output "statistics" stats current_time in
         let f := dump_line f stats_output in
         let '(traffic_rate, self) :=
           calculate_traffic_rate self stats (Py.seconds current_time) in
         let traffic_output := format_output "traffic-rate" traffic_rate current_time in
         (self, dump_line f traffic_output)
       else (self, f) in
     Eff.ret (self, f, Eff.due duration (Py.seconds start_time)
                         (Py.seconds current_time)))
    (fun _ => Eff.ret (self, f, false)).

End Monitor.

(** The [while True] loop of [monitor], run until it ends: each tick gives
    what the session answers during one pass and the reading of the clock at
    its start. *)
Fixpoint monitor_loop (target : string) (interface_index : Z)
    (strftime : Py.time -> string) (start_time : Py.time) (duration : option Py.num)
    (ticks : list (session * Py.time))
    (self : poll_state) (f : file) (l : log) : Eff.timed_run poll_state file log :=
  match ticks with
  | [] => {| Eff.timed_stop := Eff.Stopped Eff.Interrupted; Eff.timed_state := self;
             Eff.timed_file := f; Eff.timed_world := l |}
  | (sess, current_time) :: rest =>
      match monitor_cycle sess target interface_index strftime start_time duration
              current_time self f l with
      | (Py.Ok (self', f', true), l') =>
          {| Eff.timed_stop := Eff.DurationReached; Eff.timed_state := self';
             Eff.timed_file := f'; Eff.timed_world := l' |}
      | (Py.Ok (self', f', false), l') =>
          monitor_loop target interface_index strftime start_time duration rest
            self' f' l'
      | (Py.Raise e, l') =>
          {| Eff.timed_stop := Eff.Stopped (Eff.Raised e); Eff.timed_state := self;
             Eff.timed_file := f; Eff.timed_world := l' |}
      end
  end.

(** [monitor]: nothing is run, and the output file is not opened, when
    [test_connection] fails; [first] is what the session answers during the
    test and [start_time] the reading of the clock after it. *)
Definition monitor (strftime : Py.time -> string) (interface_index : Z) (first : session)
    (start_time : Py.time) (duration : option Py.num) (ticks : list (session * Py.time))
  : option (Eff.timed_run poll_state file log) :=
  match test_connection first interface_index [] with
  | (Py.Ok true, l) =>
      Some (monitor_loop TARGET interface_index strftime start_time duration ticks
              initial_state [] l)
  | _ => None
  end.

End SnmpFull.

(** ** [stats-if-snmp.py] *)

Module StatsIfSnmp.

Import Snmp.

Definition INTERFACE_INDEX : Z := 2.

Section Main.

Variable sess : session.

(** [get_value]: the bare [except] turns every failure, also the attribute
    error on a falsy result, into ["0"]. *)
Definition get_value (oid : string) : Eff.M log string :=
  Eff.try_except
    (result <- session_get sess (oid ++ "." ++ Py.str INTERFACE_INDEX) ;;
     match result with
     | Some v => if negb (String.eqb v "NOSUCHINSTANCE") then Eff.ret v else Eff.ret "0"
     | None => Eff.raise Py.OtherError
     end)
    (fun _ => Eff.ret "0").

(** The rate computed in the loop of [main]: both quotients are computed
    before either is converted. *)
Definition traffic_of (prev_stats : stats_dict) (prev_time : option Py.float)
    (stats : stats_dict) (current_time : Py.float) : Py.result stats_dict :=
  let traffic := zero_rate in
  if Dict.truthy prev_stats && Py.opt_float_truthy prev_time then
    match prev_time with
    | Some pt =>
        let time_diff := Py.sub current_time pt in
        if Py.gt0 time_diff then
          a <~ Dict.int_item stats "in-octets" ;;
          b <~ Dict.int_item prev_stats "in-octets" ;;
          in_bps <~ Py.truediv ((a - b) * 8) time_diff ;;
          c <~ Dict.int_item stats "out-octets" ;;
          d <~ Dict.int_item prev_stats "out-octets" ;;
          out_bps <~ Py.truediv ((c - d) * 8) time_diff ;;
          n <~ Py.int_of_float in_bps ;;
          m <~ Py.int_of_float out_bps ;;
          Py.Ok (Dict.literal
                   [("in-bps", Py.VStr (Py.str n));
                    ("out-bps", Py.VStr (Py.str m))])
        else Py.Ok traffic
    | None => Py.Ok traffic
    end
  else Py.Ok traffic.

(** One pass through the loop of [main]: the rate that is printed (none when
    the [except Exception] branch is taken) and the state kept for the next
    pass, which that branch leaves as it was. *)
Definition main_cycle (current_time : Py.float) (self : poll_state)
  : Eff.M log (option stats_dict * poll_state) :=
  in_octets <- get_value ".1.3.6.1.2.1.31.1.1.1.6" ;;
  out_octets <- get_value ".1.3.6.1.2.1.31.1.1.1.10" ;;
  in_packets <- get_value ".1.3.6.1.2.1.31.1.1.1.7" ;;
  out_packets <- get_value ".1.3.6.1.2.1.31.1.1.1.11" ;;
  let stats := Dict.literal [("in-octets", Py.VStr in_octets);
                             ("out-octets", Py.VStr out_octets);
                             ("in-packets", Py.VStr in_packets);
                             ("out-packets", Py.VStr out_packets)] in
  match traffic_of (prev_stats self) (prev_timestamp self) stats current_time with
  | Py.Ok traffic =>
      Eff.ret (Some traffic, {| prev_stats := Dict.copy stats;
                                prev_timestamp := Some current_time |})
  | Py.Raise _ => Eff.ret (None, self)
  end.

End Main.

(** The [while True] loop of [main], run until the keyboard interrupt: each
    tick gives what the session answers during one pass and the reading of
    the clock at its start. The run leaves the rates printed, pass after pass
    (none for a pass that took the [except Exception] branch), the state and
    the requests sent. *)
Fixpoint main_loop (ticks : list (session * Py.float)) (self : poll_state) (l : log)
  : list (option stats_dict) * poll_state * log :=
  match ticks with
  | [] => ([], self, l)
  | (sess, current_time) :: rest =>
      match main_cycle sess current_time self l with
      | (Py.Ok (traffic, self'), l') =>
          let '(printed, final, l'') := main_loop rest self' l' in
          (traffic :: printed, final, l'')
      | (Py.Raise _, l') =>
          let '(printed, final, l'') := main_loop rest self l' in
          (None :: printed, final, l'')
      end
  end.

Definition main (ticks : list (session * Py.float))
  : list (option stats_dict) * poll_state * log :=
  main_loop ticks initial_state [].

End StatsIfSnmp.

(** ** The XML documents of NETCONF replies, as [xml.dom.minidom] shows them *)

Module Xml.

(** A DOM node: a text node with its data, or an element with its resolved
    namespace, local name and children. *)
#[warnings="-register-all"]
Inductive node : Type :=
| Text (data : string)
| Elem (ns name : string) (children : list node).

Definition childNodes (n : node) : list node :=
  match n with
  | Text _ => []
  | Elem _ _ cs => cs
  end.

Definition firstChild (n : node) : option node := hd_error (childNodes n).

(** [n.nodeValue]: the data of a text node, [None] for an element. *)
Definition nodeValue (n : node) : Py.value :=
  match n with
  | Text d => Py.VStr d
  | Elem _ _ _ => Py.VNone
  end.

Definition is_named (ns name : string) (n : node) : bool :=
  match n with
  | Text _ => false
  | Elem ns' name' _ => String.eqb ns' ns && String.eqb name' name
  end.

(** The elements below [n], in document order. *)
Fixpoint descendants (n : node) : list node :=
  match n with
  | Text _ => []
  | Elem _ _ cs =>
      flat_map (fun c =>
                  match c with
                  | Text _ => []
                  | Elem _ _ _ => c :: descendants c
                  end) cs
  end.

(** [element.getElementsByTagNameNS(ns, name)] *)
Definition getElementsByTagNameNS (n : node) (ns name : string) : list node :=
  filter (is_named ns name) (descendants n).

(** [document.getElementsByTagNameNS(ns, name)], on the document whose root
    element is [root]: the root itself is searched too. *)
Definition doc_getElementsByTagNameNS (root : node) (ns name : string) : list node :=
  filter (is_named ns name) (root :: descendants root).

(** [l[0]] on a node list. *)
Definition first (l : list node) : Py.result node :=
  match l with
  | n :: _ => Py.Ok n
  | [] => Py.Raise Py.IndexError
  end.

(** What the parser makes of [reply.data_xml]: [MD.parseString] raises on a
    malformed text and returns the document otherwise; [has_empty_data] is
    the test ['<data/>' in xml_data] on the raw text. *)
Record text : Type := {
  has_empty_data : bool;
  parseString : Py.result node
}.

End Xml.

(** ** The NETCONF session *)

Module Nc.

Inductive model : Type := OpenConfig | Ietf.

(** What [manager.get(filter=...)] is asked: the YANG model of the subtree
    filter and the interface name in it. *)
Record rpc : Type := { rpc_model : model; rpc_interface : string }.

(** What [manager.get] does for a request: it raises, or returns a reply
    with its [data_xml]. *)
Definition manager : Type := rpc -> Py.result Xml.text.

(** The world of a NETCONF fetch: the requests sent so far, oldest first. *)
Definition log : Type := list rpc.

Definition manager_get (m : manager) (r : rpc) : Eff.M log Xml.text :=
  fun l => (m r, (l ++ [r])%list).

Definition OC_NS : string := "http://openconfig.net/yang/interfaces".
Definition IETF_NS : string := "urn:ietf:params:xml:ns:yang:ietf-interfaces".

Record poll_state : Type := {
  prev_stats : stats_dict;
  prev_time : option Py.float
}.

Definition initial_state : poll_state :=
  {| prev_stats := Dict.empty; prev_time := None |}.

(** Truth value of what an adapter returns: [None] and the empty dictionary
    are falsy. *)
Definition truthy (s : option stats_dict) : bool :=
  match s with
  | Some d => Dict.truthy d
  | None => false
  end.

Definition no_data (interface : string) : stats_dict :=
  Dict.literal [("interface-name", Py.VStr interface);
                ("model", Py.VStr "no-data");
                ("in-octets", Py.VStr "0");
                ("out-octets", Py.VStr "0");
                ("in-packets", Py.VStr "0");
                ("out-packets", Py.VStr "0")].

(** A function body wrapped in [try: ... except Exception: return None]. *)
Definition or_none {A : Type} (r : Py.result (option A)) : option A :=
  match r with
  | Py.Ok a => a
  | Py.Raise _ => None
  end.

Definition file : Type := list Json.t.
Definition dump_line (f : file) (j : Json.t) : file := (f ++ [j])%list.

End Nc.

(** ** [if-stats-netconf-v2.py] *)

Module NetconfV2.

Import Nc.

Definition HOST : string := "172.100.100.7".
Definition INTERFACE_NAME : string := "Ethernet1".

Section Monitor.

Variable mgr : manager.
Variable interface : string.

(** The local function [val] of both parsers, on the element [parent]. *)
Definition val (parent : Xml.node) (ns tag : string) : Py.value :=
  match Xml.getElementsByTagNameNS parent ns tag with
  | e :: _ =>
      match Xml.firstChild e with
      | Some c => Xml.nodeValue c
      | None => Py.VStr "0"
      end
  | [] => Py.VStr "0"
  end.

Definition sum3 (stats : stats_dict) (a b c : string) : Py.result Z :=
  x <~ Dict.int_item stats a ;;
  y <~ Dict.int_item stats b ;;
  z <~ Dict.int_item stats c ;;
  Py.Ok (x + y + z).

Definition parse_openconfig_stats (xml_data : Xml.text) : option stats_dict :=
  or_none
    (dom <~ Xml.parseString xml_data ;;
     let ns := OC_NS in
     iface <~ Xml.first (Xml.doc_getElementsByTagNameNS dom ns "interface") ;;
     counters <~ Xml.first (Xml.getElementsByTagNameNS iface ns "counters") ;;
     let stats := Dict.literal [
       ("interface-name", Py.VStr interface);
       ("model", Py.VStr "openconfig");
       ("in-octets", val counters ns "in-octets");
       ("out-octets", val counters ns "out-octets");
       ("in-unicast-pkts", val counters ns "in-unicast-pkts");
       ("out-unicast-pkts", val counters ns "out-unicast-pkts");
       ("in-multicast-pkts", val counters ns "in-multicast-pkts");
       ("out-multicast-pkts", val counters ns "out-multicast-pkts");
       ("in-broadcast-pkts", val counters ns "in-broadcast-pkts");
       ("out-broadcast-pkts", val counters ns "out-broadcast-pkts");
       ("in-errors", val counters ns "in-errors");
       ("out-errors", val counters ns "out-errors");
       ("in-discards", val counters ns "in-discards");
       ("out-discards", val counters ns "out-discards")] in
     in_total <~ sum3 stats "in-unicast-pkts" "in-multicast-pkts" "in-broadcast-pkts" ;;
     let stats := Dict.set stats "in-packets" (Py.VStr (Py.str in_total)) in
     out_total <~ sum3 stats "out-unicast-pkts" "out-multicast-pkts" "out-broadcast-pkts" ;;
     let stats := Dict.set stats "out-packets" (Py.VStr (Py.str out_total)) in
     Py.Ok (Some stats)).

Definition parse_ietf_stats (xml_data : Xml.text) : option stats_dict :=
  or_none
    (dom <~ Xml.parseString xml_data ;;
     let ns := IETF_NS in
     iface <~ Xml.first (Xml.doc_getElementsByTagNameNS dom ns "interface") ;;
     let stats := Dict.literal [
       ("interface-name", Py.VStr interface);
       ("model", Py.VStr "ietf");
       ("in-octets", val iface ns "in-octets");
       ("out-octets", val iface ns "out-octets");
       ("in-packets", val iface ns "in-unicast-pkts");
       ("out-packets", val iface ns "out-unicast-pkts")] in
     Py.Ok (Some stats)).

Definition get_interface_stats_openconfig : Eff.M log (option stats_dict) :=
  Eff.try_except
    (reply <- manager_get mgr {| rpc_model := OpenConfig; rpc_interface := interface |} ;;
     Eff.ret (parse_openconfig_stats reply))
    (fun _ => Eff.ret None).

Definition get_interface_stats_ietf : Eff.M log (option stats_dict) :=
  Eff.try_except
    (reply <- manager_get mgr {| rpc_model := Ietf; rpc_interface := interface |} ;;
     Eff.ret (parse_ietf_stats reply))
    (fun _ => Eff.ret None).

Definition get_interface_stats : Eff.M log stats_dict :=
  stats <- get_interface_stats_openconfig ;;
  stats <- (if negb (truthy stats) then get_interface_stats_ietf else Eff.ret stats) ;;
  match stats with
  | Some d => if Dict.truthy d then Eff.ret d else Eff.ret (no_data interface)
  | None => Eff.ret (no_data interface)
  end.

(** [calculate_traffic_rate]; [now] is the reading of [time.time()] taken
    inside the function. *)
Definition calculate_traffic_rate (self : poll_state) (stats : stats_dict)
    (now : Py.float) : Py.result (stats_dict * poll_state) :=
  let rate := Snmp.zero_rate in
  rate <~
    (match prev_time self with
     | Some pt =>
         if Py.float_truthy pt then
           let dt := Py.sub now pt in
           if Py.gt0 dt then
             a <~ Dict.int_item stats "in-octets" ;;
             b <~ Dict.int_item (prev_stats self) "in-octets" ;;
             in_bps <~ Snmp.bps (a - b) dt ;;
             let rate := Dict.set rate "in-bps" (Py.VStr in_bps) in
             c <~ Dict.int_item stats "out-octets" ;;
             d <~ Dict.int_item (prev_stats self) "out-octets" ;;
             out_bps <~ Snmp.bps (c - d) dt ;;
             let rate := Dict.set rate "out-bps" (Py.VStr out_bps) in
             Py.Ok rate
           else Py.Ok rate
         else Py.Ok rate
     | None => Py.Ok rate
     end) ;;
  Py.Ok (rate, {| prev_stats := Dict.copy stats; prev_time := Some now |}).

(** The dictionary written by [monitor] in a cycle. *)
Definition output (ts : Py.time) (stats rate : stats_dict) : Py.result Json.t :=
  model <~ Dict.item stats "model" ;;
  Py.Ok (Json.JObj [
    ("timestamp", Json.JInt (Py.nanos ts));
    ("interface", Json.JStr interface);
    ("model", Json.of_value model);
    ("stats", Json.of_stats stats);
    ("rate", Json.of_stats rate)]).

(** One pass through the body of the [while True] loop of [monitor]; [ts] and
    [now] are the two readings of the clock in the pass, the second one taken
    by [calculate_traffic_rate]. *)
Definition monitor_cycle (ts now : Py.time) (self : poll_state) (f : file)
  : Eff.M log (poll_state * file) :=
  stats <- get_interface_stats ;;
  rs <- Eff.lift (calculate_traffic_rate self stats (Py.seconds now)) ;;
  let '(rate, self) := rs in
  out <- Eff.lift (output ts stats rate) ;;
  Eff.ret (self, dump_line f out).

End Monitor.

(** The [while True] loop of [monitor], run until it ends: each tick gives
    what the manager answers during one pass and the two readings of the
    clock in it. An exception raised in a pass ends the run; the file then
    holds what the earlier passes wrote. *)
Fixpoint monitor_loop (interface : string) (ticks : list (manager * Py.time * Py.time))
    (self : poll_state) (f : file) (l : log) : Eff.run poll_state file log :=
  match ticks with
  | [] => {| Eff.run_end := Eff.Interrupted; Eff.run_state := self;
             Eff.run_file := f; Eff.run_world := l |}
  | (mgr, ts, now) :: rest =>
      match monitor_cycle mgr interface ts now self f l with
      | (Py.Ok (self', f'), l') => monitor_loop interface rest self' f' l'
      | (Py.Raise e, l') =>
          {| Eff.run_end := Eff.Raised e; Eff.run_state := self;
             Eff.run_file := f; Eff.run_world := l' |}
      end
  end.

Definition monitor (ticks : list (manager * Py.time * Py.time))
  : Eff.run poll_state file log :=
  monitor_loop INTERFACE_NAME ticks initial_state [] [].

End NetconfV2.

(** ** [if-stats-netconf.py] *)

Module Netconf.

Import Nc.

Definition HOST : string := "172.100.100.7".
Definition PORT : Z := 830.

Section Monitor.

(** [self.manager], [self.interface], the outcome of writing the debug copy
    of a reply to the named file, and [dt.strftime(...)] on the datetime of a
    timestamp. *)
Variable mgr : manager.
Variable interface : string.
Variable write_debug_file : string -> Py.result unit.
Variable strftime : Py.time -> string.

(** [get_element_text]: the value of the first child of the first matching
    element, or [""]. *)
Definition get_element_text (parent : Xml.node) (ns tag_name : string) : Py.value :=
  match Xml.getElementsByTagNameNS parent ns tag_name with
  | e :: _ =>
      match Xml.firstChild e with
      | Some c => Xml.nodeValue c
      | None => Py.VStr ""
      end
  | [] => Py.VStr ""
  end.

(** [v or default], for a value [v] that is a string or [None]. *)
Definition or_else (v : Py.value) (default : string) : string :=
  match v with
  | Py.VStr EmptyString => default
  | Py.VStr s => s
  | Py.VNone => default
  end.

Definition text_or (parent : Xml.node) (ns tag default : string) : Py.value :=
  Py.VStr (or_else (get_element_text parent ns tag) default).

Definition sum3 (stats : stats_dict) (a b c : string) : Py.result Z :=
  x <~ Dict.int_item stats a ;;
  y <~ Dict.int_item stats b ;;
  z <~ Dict.int_item stats c ;;
  Py.Ok (x + y + z).

(** The inner [try] that computes both totals, with its bare [except]. *)
Definition with_totals (stats : stats_dict) : stats_dict :=
  match
    (in_total <~ sum3 stats "in-unicast-pkts" "in-multicast-pkts" "in-broadcast-pkts" ;;
     out_total <~ sum3 stats "out-unicast-pkts" "out-multicast-pkts" "out-broadcast-pkts" ;;
     Py.Ok (in_total, out_total))
  with
  | Py.Ok (in_total, out_total) =>
      Dict.set (Dict.set stats "in-packets" (Py.VStr (Py.str in_total)))
               "out-packets" (Py.VStr (Py.str out_total))
  | Py.Raise _ =>
      Dict.set (Dict.set stats "in-packets" (Py.VStr "0"))
               "out-packets" (Py.VStr "0")
  end.

Definition parse_openconfig_stats (xml_data : Xml.text) : option stats_dict :=
  or_none
    (if Xml.has_empty_data xml_data then Py.Ok None else
     dom <~ Xml.parseString xml_data ;;
     let ns := OC_NS in
     match Xml.doc_getElementsByTagNameNS dom ns "interface" with
     | [] => Py.Ok None
     | iface :: _ =>
         match Xml.getElementsByTagNameNS iface ns "name" with
         | [] => Py.Ok None
         | name_elem :: _ =>
             match Xml.firstChild name_elem with
             | None => Py.Ok None
             | Some name_text =>
                 match Xml.getElementsByTagNameNS iface ns "counters" with
                 | [] => Py.Ok None
                 | counter :: _ =>
                     let stats := Dict.literal [
                       ("interface-name", Xml.nodeValue name_text);
                       ("model", Py.VStr "openconfig");
                       ("in-octets", text_or counter ns "in-octets" "0");
                       ("out-octets", text_or counter ns "out-octets" "0");
                       ("in-unicast-pkts", text_or counter ns "in-unicast-pkts" "0");
                       ("out-unicast-pkts", text_or counter ns "out-unicast-pkts" "0");
                       ("in-broadcast-pkts", text_or counter ns "in-broadcast-pkts" "0");
                       ("out-broadcast-pkts", text_or counter ns "out-broadcast-pkts" "0");
                       ("in-multicast-pkts", text_or counter ns "in-multicast-pkts" "0");
                       ("out-multicast-pkts", text_or counter ns "out-multicast-pkts" "0");
                       ("in-discards", text_or counter ns "in-discards" "0");
                       ("out-discards", text_or counter ns "out-discards" "0");
                       ("in-errors", text_or counter ns "in-errors" "0");
                       ("out-errors", text_or counter ns "out-errors" "0")] in
                     Py.Ok (Some (with_totals stats))
                 end
             end
         end
     end).

Definition parse_ietf_stats (xml_data : Xml.text) : option stats_dict :=
  or_none
    (dom <~ Xml.parseString xml_data ;;
     let ns := IETF_NS in
     match Xml.doc_getElementsByTagNameNS dom ns "interface" with
     | [] => Py.Ok None
     | iface :: _ =>
         let stats := Dict.literal [
           ("interface-name", text_or iface ns "name" interface);
           ("model", Py.VStr "ietf");
           ("oper-status", text_or iface ns "oper-status" "unknown");
           ("in-octets", text_or iface ns "in-octets" "0");
           ("out-octets", text_or iface ns "out-octets" "0");
           ("in-unicast-pkts", text_or iface ns "in-unicast-pkts" "0");
           ("out-unicast-pkts", text_or iface ns "out-unicast-pkts" "0");
           ("in-multicast-pkts", text_or iface ns "in-multicast-pkts" "0");
           ("out-multicast-pkts", text_or iface ns "out-multicast-pkts" "0");
           ("in-broadcast-pkts", text_or iface ns "in-broadcast-pkts" "0");
           ("out-broadcast-pkts", text_or iface ns "out-broadcast-pkts" "0");
           ("in-discards", text_or iface ns "in-discards" "0");
           ("out-discards", text_or iface ns "out-discards" "0");
           ("in-errors", text_or iface ns "in-errors" "0");
           ("out-errors", text_or iface ns "out-errors" "0")] in
         Py.Ok (Some (with_totals stats))
     end).

Definition get_interface_stats_openconfig : Eff.M log (option stats_dict) :=
  Eff.try_except
    (reply <- manager_get mgr {| rpc_model := OpenConfig; rpc_interface := interface |} ;;
     _ <- Eff.lift (write_debug_file ("arista_" ++ interface ++ "_openconfig.xml")) ;;
     Eff.ret (parse_openconfig_stats reply))
    (fun _ => Eff.ret None).

Definition get_interface_stats_ietf : Eff.M log (option stats_dict) :=
  Eff.try_except
    (reply <- manager_get mgr {| rpc_model := Ietf; rpc_interface := interface |} ;;
     _ <- Eff.lift (write_debug_file ("arista_" ++ interface ++ "_ietf.xml")) ;;
     Eff.ret (parse_ietf_stats reply))
    (fun _ => Eff.ret None).

(** [not stats or int(stats.get('in-octets', 0)) == 0] *)
Definition wants_ietf (stats : option stats_dict) : Py.result bool :=
  match stats with
  | Some d =>
      if Dict.truthy d then
        n <~ Dict.int_get d "in-octets" ;;
        Py.Ok (n =? 0)
      else Py.Ok true
  | None => Py.Ok true
  end.

Definition get_interface_stats : Eff.M log stats_dict :=
  stats <- get_interface_stats_openconfig ;;
  fallback <- Eff.lift (wants_ietf stats) ;;
  stats <- (if fallback then get_interface_stats_ietf else Eff.ret stats) ;;
  match stats with
  | Some d => if Dict.truthy d then Eff.ret d else Eff.ret (no_data interface)
  | None => Eff.ret (no_data interface)
  end.

(** What [except (ValueError, TypeError)] catches. *)
Definition handled (e : Py.exn) : bool :=
  match e with
  | Py.ValueError | Py.TypeError => true
  | _ => false
  end.

(** The inner [try] of [calculate_traffic_rate], with its
    [except (ValueError, TypeError)]: the rate dictionary as the [try] leaves
    it, or the exception that the handler does not catch. Both quotients are
    computed before either is converted, and ['in-bps'] is stored before the
    outbound quotient is converted. *)
Definition rate_body (traffic_rate stats prev : stats_dict) (time_diff : Py.float)
  : Py.result stats_dict :=
  match
    (in_now <~ Dict.int_get stats "in-octets" ;;
     out_now <~ Dict.int_get stats "out-octets" ;;
     in_prev <~ Dict.int_get prev "in-octets" ;;
     out_prev <~ Dict.int_get prev "out-octets" ;;
     in_bps <~ Py.truediv ((in_now - in_prev) * 8) time_diff ;;
     out_bps <~ Py.truediv ((out_now - out_prev) * 8) time_diff ;;
     Py.Ok (in_bps, out_bps))
  with
  | Py.Raise e => if handled e then Py.Ok traffic_rate else Py.Raise e
  | Py.Ok (in_bps, out_bps) =>
      match Py.int_of_float in_bps with
      | Py.Raise e => if handled e then Py.Ok traffic_rate else Py.Raise e
      | Py.Ok n =>
          let traffic_rate := Dict.set traffic_rate "in-bps" (Py.VStr (Py.str n)) in
          match Py.int_of_float out_bps with
          | Py.Raise e => if handled e then Py.Ok traffic_rate else Py.Raise e
          | Py.Ok m => Py.Ok (Dict.set traffic_rate "out-bps" (Py.VStr (Py.str m)))
          end
      end
  end.

(** [calculate_traffic_rate]; [current_time] is read from the clock inside the
    function. An exception that the inner [try] does not catch leaves the
    function before the state is replaced. *)
Definition calculate_traffic_rate (self : poll_state) (stats : stats_dict)
    (current_time : Py.float) : Py.result (stats_dict * poll_state) :=
  let traffic_rate := Snmp.zero_rate in
  traffic_rate <~
    (if Dict.truthy (prev_stats self) && Py.opt_float_truthy (prev_time self)
     then
       match prev_time self with
       | Some pt =>
           let time_diff := Py.sub current_time pt in
           if Py.gt0 time_diff then
             rate_body traffic_rate stats (prev_stats self) time_diff
           else Py.Ok traffic_rate
       | None => Py.Ok traffic_rate
       end
     else Py.Ok traffic_rate) ;;
  Py.Ok (traffic_rate, {| prev_stats := Dict.copy stats;
                          prev_time := Some current_time |}).

(** [stats.get(k, default)] *)
Definition get_or (stats : stats_dict) (k default : string) : Py.value :=
  match Dict.get stats k with
  | Some v => v
  | None => Py.VStr default
  end.

Definition statistics_data (stats : stats_dict) : stats_dict :=
  Dict.literal [
    ("in-octets", get_or stats "in-octets" "0");
    ("out-octets", get_or stats "out-octets" "0");
    ("in-packets", get_or stats "in-packets" "0");
    ("out-packets", get_or stats "out-packets" "0");
    ("in-unicast-packets", get_or stats "in-unicast-pkts" "0");
    ("out-unicast-packets", get_or stats "out-unicast-pkts" "0");
    ("in-multicast-packets", get_or stats "in-multicast-pkts" "0");
    ("out-multicast-packets", get_or stats "out-multicast-pkts" "0");
    ("in-broadcast-packets", get_or stats "in-broadcast-pkts" "0");
    ("out-broadcast-packets", get_or stats "out-broadcast-pkts" "0");
    ("in-error-packets", get_or stats "in-errors" "0");
    ("out-error-packets", get_or stats "out-errors" "0");
    ("in-discarded-packets", get_or stats "in-discards" "0");
    ("out-discarded-packets", get_or stats "out-discards" "0");
    ("oper-status", get_or stats "oper-status" "unknown");
    ("model", get_or stats "model" "unknown")].

Definition format_output (stats traffic_rate : stats_dict) (timestamp : Py.time)
  : Py.result Json.t :=
  let statistics_data := statistics_data stats in
  in_bps <~ Dict.item traffic_rate "in-bps" ;;
  out_bps <~ Dict.item traffic_rate "out-bps" ;;
  let traffic_rate_data := Dict.literal [("in-bps", in_bps); ("out-bps", out_bps)] in
  Py.Ok (Json.JObj [
    ("source", Json.JStr (HOST ++ ":" ++ Py.str PORT));
    ("subscription-name", Json.JStr "netconf-if-stats");
    ("timestamp", Json.JInt (Py.nanos timestamp));
    ("time", Json.JStr (strftime timestamp));
    ("updates", Json.JArr [
       Json.JObj [
         ("Path", Json.JStr ("openconfig-interfaces:interface[name=" ++ interface
                             ++ "]/statistics"));
         ("values", Json.JObj [
            ("openconfig-interfaces:interface/statistics",
             Json.of_stats statistics_data)])];
       Json.JObj [
         ("Path", Json.JStr ("openconfig-interfaces:interface[name=" ++ interface
                             ++ "]/traffic-rate"));
         ("values", Json.JObj [
            ("openconfig-interfaces:interface/traffic-rate",
             Json.of_stats traffic_rate_data)])]])]).

(** One pass through the body of the [while True] loop of [monitor]. The
    [try] encloses the whole loop, so an exception ends the monitoring. *)
Definition monitor_cycle (current_time now : Py.time) (self : poll_state) (f : file)
  : Eff.M log (poll_state * file) :=
  stats <- get_interface_stats ;;
  if Dict.truthy stats then
    rs <- Eff.lift (calculate_traffic_rate self stats (Py.seconds now)) ;;
    let '(traffic_rate, self) := rs in
    out <- Eff.lift (format_output stats traffic_rate current_time) ;;
    Eff.ret (self, dump_line f out)
  else Eff.ret (self, f).

(** The two conversions [int(stats.get('in-octets', 0))] and
    [int(stats.get('out-octets', 0))] made for the console lines of a pass,
    after the record is written. *)
Definition console_octets (stats : stats_dict) : Py.result (Z * Z) :=
  in_octets <~ Dict.int_get stats "in-octets" ;;
  out_octets <~ Dict.int_get stats "out-octets" ;;
  Py.Ok (in_octets, out_octets).

(** What a pass of the loop leaves: how it ended (whether the duration test
    breaks the loop, or the exception raised), the state and the file. *)
Record pass : Type := {
  pass_outcome : Py.result bool;
  pass_state : poll_state;
  pass_file : file
}.

(** One pass through the body of the [while True] loop of [monitor], with the
    console conversions and the duration test: [current_time] is the reading
    of the clock at its start, [now] the one taken by
    [calculate_traffic_rate]. *)
Definition monitor_pass (start_time : Py.time) (duration : option Py.num)
    (current_time now : Py.time) (self : poll_state) (f : file) (l : log)
  : pass * log :=
  match get_interface_stats l with
  | (Py.Raise e, l') =>
      ({| pass_outcome := Py.Raise e; pass_state := self; pass_file := f |}, l')
  | (Py.Ok stats, l') =>
      if Dict.truthy stats then
        match calculate_traffic_rate self stats (Py.seconds now) with
        | Py.Raise e =>
            ({| pass_outcome := Py.Raise e; pass_state := self; pass_file := f |}, l')
        | Py.Ok (traffic_rate, self) =>
            match format_output stats traffic_rate current_time with
            | Py.Raise e =>
                ({| pass_outcome := Py.Raise e; pass_state := self; pass_file := f |},
                 l')
            | Py.Ok output =>
                let f := dump_line f output in
                match console_octets stats with
                | Py.Raise e =>
                    ({| pass_outcome := Py.Raise e; pass_state := self;
                        pass_file := f |}, l')
                | Py.Ok _ =>
                    ({| pass_outcome :=
                          Py.Ok (Eff.due duration (Py.seconds start_time)
                                   (Py.seconds current_time));
                        pass_state := self; pass_file := f |}, l')
                end
            end
        end
      else
        ({| pass_outcome := Py.Ok (Eff.due duration (Py.seconds start_time)
                                     (Py.seconds current_time));
            pass_state := self; pass_file := f |}, l')
  end.

End Monitor.

(** One [interface] element of the reply to the discovery request, in
    [discover_interfaces]: the name appended to the list, if the element has
    one. The console line of the interface calls [if_state.upper()] and
    formats the name with a width, which raises when the state or the name is
    [None]. *)
Definition discovered_name (iface : Xml.node) : Py.result (option string) :=
  let ns := OC_NS in
  match Xml.getElementsByTagNameNS iface ns "name" with
  | name_elem :: _ =>
      match Xml.firstChild name_elem with
      | Some name_text =>
          let if_name := Xml.nodeValue name_text in
          let if_state :=
            match Xml.getElementsByTagNameNS iface ns "state" with
            | state_elem :: _ =>
                match Xml.getElementsByTagNameNS state_elem ns "oper-status" with
                | oper_elem :: _ =>
                    match Xml.firstChild oper_elem with
                    | Some oper_text => Xml.nodeValue oper_text
                    | None => Py.VStr "unknown"
                    end
                | [] => Py.VStr "unknown"
                end
            | [] => Py.VStr "unknown"
            end in
          match if_state, if_name with
          | Py.VNone, _ => Py.Raise Py.OtherError
          | Py.VStr _, Py.VNone => Py.Raise Py.TypeError
          | Py.VStr _, Py.VStr name => Py.Ok (Some name)
          end
      | None => Py.Ok None
      end
  | [] => Py.Ok None
  end.

(** The [for] loop of [discover_interfaces]. *)
Fixpoint interface_list (interfaces : list Xml.node) : Py.result (list string) :=
  match interfaces with
  | [] => Py.Ok []
  | iface :: rest =>
      name <~ discovered_name iface ;;
      names <~ interface_list rest ;;
      Py.Ok (match name with
             | Some n => n :: names
             | None => names
             end)
  end.

(** [discover_interfaces]; [reply] is what [manager.get] does for the
    discovery request. Any exception gives the empty list. *)
Definition discover_interfaces (reply : Py.result Xml.text) : list string :=
  match
    (xml_data <~ reply ;;
     dom <~ Xml.parseString xml_data ;;
     interface_list (Xml.doc_getElementsByTagNameNS dom OC_NS "interface"))
  with
  | Py.Ok names => names
  | Py.Raise _ => []
  end.

(** [if interfaces and self.interface not in interfaces:
       self.interface = interfaces[0]] *)
Definition select_interface (interface : string) (interfaces : list string) : string :=
  match interfaces with
  | first :: _ =>
      if negb (existsb (String.eqb interface) interfaces) then first else interface
  | [] => interface
  end.

(** The [while True] loop of [monitor], run until it ends: each tick gives
    what the manager answers during one pass and the two readings of the
    clock in it. The [try] encloses the loop: an exception raised in a pass
    ends the run, with the state and the file as the pass left them. *)
Fixpoint monitor_loop (interface : string) (write_debug_file : string -> Py.result unit)
    (strftime : Py.time -> string) (start_time : Py.time) (duration : option Py.num)
    (ticks : list (manager * Py.time * Py.time)) (self : poll_state) (f : file) (l : log)
  : Eff.timed_run poll_state file log :=
  match ticks with
  | [] => {| Eff.timed_stop := Eff.Stopped Eff.Interrupted; Eff.timed_state := self;
             Eff.timed_file := f; Eff.timed_world := l |}
  | (mgr, current_time, now) :: rest =>
      let '(p, l') := monitor_pass mgr interface write_debug_file strftime
                        start_time duration current_time now self f l in
      match pass_outcome p with
      | Py.Ok true =>
          {| Eff.timed_stop := Eff.DurationReached; Eff.timed_state := pass_state p;
             Eff.timed_file := pass_file p; Eff.timed_world := l' |}
      | Py.Ok false =>
          monitor_loop interface write_debug_file strftime start_time duration rest
            (pass_state p) (pass_file p) l'
      | Py.Raise e =>
          {| Eff.timed_stop := Eff.Stopped (Eff.Raised e);
             Eff.timed_state := pass_state p; Eff.timed_file := pass_file p;
             Eff.timed_world := l' |}
      end
  end.

(** [monitor], once [connect] has succeeded: [discovery] is what the manager
    does for the discovery request. The capabilities listing is console
    output, and the outcome of [test_connection] is not used. *)
Definition monitor (interface_name : string) (write_debug_file : string -> Py.result unit)
    (strftime : Py.time -> string) (discovery : Py.result Xml.text) (start_time : Py.time)
    (duration : option Py.num) (ticks : list (manager * Py.time * Py.time))
  : Eff.timed_run poll_state file log :=
  let interfaces := discover_interfaces discovery in
  let interface := select_interface interface_name interfaces in
  monitor_loop interface write_debug_file strftime start_time duration ticks
    initial_state [] [].

End Netconf.


(** * Specification-level notions and views of the code *)

(** ** Rates *)

(** The number that a float stands for, when it is finite. *)
Definition float_value (x : Py.float) : option Q :=
  match x with
  | S754_zero _ => Some 0%Q
  | S754_finite s m e =>
      Some (if 0 <=? e then inject_Z (cond_Zopp s (Zpos m * 2 ^ e))
            else Qmake (cond_Zopp s (Zpos m)) (Z.to_pos (2 ^ (- e))))
  | S754_infinity _ => None
  | S754_nan => None
  end.

(** [r] is [x] rounded toward zero. *)
Definition rounds_toward_zero (r : Z) (x : Q) : Prop :=
  ((0 <= x)%Q -> (inject_Z r <= x)%Q /\ (x < inject_Z (r + 1))%Q) /\
  ((x <= 0)%Q -> (inject_Z (r - 1) < x)%Q /\ (x <= inject_Z r)%Q).

(** The rate as the specification words it: [delta * 8 / dt] on the exact
    numbers, rounded toward zero. *)
Definition exact_rate (dt : Q) (delta : Z) : Z :=
  let x := (inject_Z (delta * 8) / dt)%Q in
  Z.quot (Qnum x) (Zpos (Qden x)).

(** The rate dictionary that reports [in_bps] and [out_bps]. *)
Definition rate_dict (in_bps out_bps : Z) : stats_dict :=
  [("in-bps", Py.VStr (Py.str in_bps)); ("out-bps", Py.VStr (Py.str out_bps))].

(** [int((curr - prev) * 8 / dt)], as the interpreter evaluates it: the
    difference is converted to a float, the quotient is rounded to a float,
    and [int] truncates it; [OverflowError] when the difference is too large
    for a float or the quotient is an infinity. *)
Definition rate_of (dt : Py.float) (curr prev : Z) : Py.result Z :=
  x <~ Py.truediv ((curr - prev) * 8) dt ;;
  Py.int_of_float x.

(** What a rate function returns on a call that reaches the two divisions,
    [a], [b] being the current and the previous inbound counter, [c], [d] the
    outbound ones, and [st] the state it leaves: the rate dictionary, or the
    exception of the first division that raises. *)
Definition computed_rate {S : Type} (dt : Py.float) (a b c d : Z) (st : S)
  : Py.result (stats_dict * S) :=
  rin <~ rate_of dt a b ;;
  rout <~ rate_of dt c d ;;
  Py.Ok (rate_dict rin rout, st).

(** [x] is a zero, a finite number or an infinity of sign [s] ([true] is the
    negative sign). *)
Definition signed (s : bool) (x : Py.float) : Prop :=
  match x with
  | S754_zero s' => s' = s
  | S754_finite s' _ _ => s' = s
  | S754_infinity s' => s' = s
  | S754_nan => False
  end.

(** The float [n.0] of a small integer [n], and the reading of the clock
    [n] seconds after the epoch (the epoch itself, should [n] be out of
    range). *)
Definition secs (n : Z) : Py.float := Py.dyadic n 0.

Definition epoch : Py.time := {| Py.seconds := Py.zero; Py.in_range := eq_refl |}.

Definition clock (n : Z) : Py.time :=
  match Py.time_of (secs n) with
  | Some t => t
  | None => epoch
  end.

(** A sample that holds the two octet counters. *)
Definition sample (i o : string) : stats_dict :=
  [("in-octets", Py.VStr i); ("out-octets", Py.VStr o)].

(** ** The SNMP fetch as a function of the session *)

Definition oid_of (idx : Z) (oid_base : string) : string :=
  oid_base ++ "." ++ Py.str idx.

(** The value that [get_snmp_value] of the v2 script returns for an OID
    base. *)
Definition snmp_v2_value (sess : Snmp.session) (idx : Z) (oid_base : string) : string :=
  match sess (oid_of idx oid_base) with
  | Py.Ok (Some v) => if String.eqb v "NOSUCHINSTANCE" then "0" else v
  | _ => "0"
  end.

Definition IF_HC_IN_OCTETS : string := ".1.3.6.1.2.1.31.1.1.1.6".
Definition IF_HC_OUT_OCTETS : string := ".1.3.6.1.2.1.31.1.1.1.10".
Definition IF_IN_OCTETS : string := ".1.3.6.1.2.1.2.2.1.10".
Definition IF_OUT_OCTETS : string := ".1.3.6.1.2.1.2.2.1.16".

(** The OID bases requested on the two branches of [get_interface_stats]. *)
Definition hc_bases : list string :=
  [".1.3.6.1.2.1.31.1.1.1.6"; ".1.3.6.1.2.1.31.1.1.1.10";
   ".1.3.6.1.2.1.31.1.1.1.7"; ".1.3.6.1.2.1.31.1.1.1.8";
   ".1.3.6.1.2.1.31.1.1.1.9"; ".1.3.6.1.2.1.31.1.1.1.11";
   ".1.3.6.1.2.1.31.1.1.1.12"; ".1.3.6.1.2.1.31.1.1.1.13"].

Definition legacy_bases : list string :=
  [".1.3.6.1.2.1.31.1.1.1.6"; ".1.3.6.1.2.1.31.1.1.1.10";
   ".1.3.6.1.2.1.2.2.1.10"; ".1.3.6.1.2.1.2.2.1.16";
   ".1.3.6.1.2.1.2.2.1.11"; ".1.3.6.1.2.1.2.2.1.12";
   ".1.3.6.1.2.1.2.2.1.13"; ".1.3.6.1.2.1.2.2.1.17";
   ".1.3.6.1.2.1.2.2.1.18"; ".1.3.6.1.2.1.2.2.1.19"].

Definition oids_of (idx : Z) (bases : list string) : list string :=
  map (oid_of idx) bases.

Definition hc_both_zero (sess : Snmp.session) (idx : Z) : bool :=
  String.eqb (snmp_v2_value sess idx IF_HC_IN_OCTETS) "0"
  && String.eqb (snmp_v2_value sess idx IF_HC_OUT_OCTETS) "0".

(** ** The NETCONF adapters as functions of the manager *)

Definition oc_rpc (interface : string) : Nc.rpc :=
  {| Nc.rpc_model := Nc.OpenConfig; Nc.rpc_interface := interface |}.
Definition ietf_rpc (interface : string) : Nc.rpc :=
  {| Nc.rpc_model := Nc.Ietf; Nc.rpc_interface := interface |}.

Definition netconf_v2_openconfig (mgr : Nc.manager) (interface : string)
  : option stats_dict :=
  match mgr (oc_rpc interface) with
  | Py.Ok reply => NetconfV2.parse_openconfig_stats interface reply
  | Py.Raise _ => None
  end.

Definition netconf_v2_ietf (mgr : Nc.manager) (interface : string)
  : option stats_dict :=
  match mgr (ietf_rpc interface) with
  | Py.Ok reply => NetconfV2.parse_ietf_stats interface reply
  | Py.Raise _ => None
  end.

Definition netconf_openconfig (mgr : Nc.manager) (interface : string)
    (wdf : string -> Py.result unit) : option stats_dict :=
  match mgr (oc_rpc interface) with
  | Py.Ok reply =>
      match wdf ("arista_" ++ interface ++ "_openconfig.xml") with
      | Py.Ok _ => Netconf.parse_openconfig_stats reply
      | Py.Raise _ => None
      end
  | Py.Raise _ => None
  end.

Definition netconf_ietf (mgr : Nc.manager) (interface : string)
    (wdf : string -> Py.result unit) : option stats_dict :=
  match mgr (ietf_rpc interface) with
  | Py.Ok reply =>
      match wdf ("arista_" ++ interface ++ "_ietf.xml") with
      | Py.Ok _ => Netconf.parse_ietf_stats interface reply
      | Py.Raise _ => None
      end
  | Py.Raise _ => None
  end.

(** What a NETCONF resolver makes of the sample it is left with: the sample
    itself when it is a dictionary that is not empty, the zero-filled sample
    otherwise. *)
Definition or_no_data (interface : string) (s : option stats_dict) : stats_dict :=
  match s with
  | Some d => if Dict.truthy d then d else Nc.no_data interface
  | None => Nc.no_data interface
  end.

(** ** Concrete device replies *)

Definition leaf (ns name text : string) : Xml.node :=
  Xml.Elem ns name [Xml.Text text].

Definition NETCONF_NS : string := "urn:ietf:params:xml:ns:netconf:base:1.0".

(** [<data><interfaces><interface><name/><state><counters>...] *)
Definition openconfig_reply (name : string) (counters : list (string * string))
  : Xml.text :=
  {| Xml.has_empty_data := false;
     Xml.parseString :=
       Py.Ok (Xml.Elem NETCONF_NS "data"
                [Xml.Elem Nc.OC_NS "interfaces"
                   [Xml.Elem Nc.OC_NS "interface"
                      [leaf Nc.OC_NS "name" name;
                       Xml.Elem Nc.OC_NS "state"
                         [Xml.Elem Nc.OC_NS "counters"
                            (map (fun kv => leaf Nc.OC_NS (fst kv) (snd kv))
                                 counters)]]]]) |}.

(** [<data><interfaces-state><interface><name/><statistics>...] *)
Definition ietf_reply (name : string) (counters : list (string * string))
  : Xml.text :=
  {| Xml.has_empty_data := false;
     Xml.parseString :=
       Py.Ok (Xml.Elem NETCONF_NS "data"
                [Xml.Elem Nc.IETF_NS "interfaces-state"
                   [Xml.Elem Nc.IETF_NS "interface"
                      [leaf Nc.IETF_NS "name" name;
                       Xml.Elem Nc.IETF_NS "statistics"
                         (map (fun kv => leaf Nc.IETF_NS (fst kv) (snd kv))
                              counters)]]]) |}.

(** A manager that answers the OpenConfig request with [oc] and the IETF
    request with [ietf]. *)
Definition manager_of (oc ietf : Py.result Xml.text) : Nc.manager :=
  fun r =>
    match Nc.rpc_model r with
    | Nc.OpenConfig => oc
    | Nc.Ietf => ietf
    end.

Definition debug_ok : string -> Py.result unit := fun _ => Py.Ok tt.

Definition packet_counters_example : list (string * string) :=
  [("in-octets", "1000"); ("in-unicast-pkts", "10"); ("in-multicast-pkts", "5");
   ("in-broadcast-pkts", "2"); ("out-octets", "2000"); ("out-unicast-pkts", "7");
   ("out-multicast-pkts", "3"); ("out-broadcast-pkts", "1")].

(** A session that answers every request with the same value. *)
Definition constant_session (v : string) : Snmp.session :=
  fun _ => Py.Ok (Some v).

(** The statistics that the SNMP scripts build when every high-capacity
    counter reads ["1000"]. *)
Definition all_1000_stats : stats_dict :=
  [("in-octets", Py.VStr "1000"); ("out-octets", Py.VStr "1000");
   ("in-unicast-packets", Py.VStr "1000"); ("in-multicast-packets", Py.VStr "1000");
   ("in-broadcast-packets", Py.VStr "1000"); ("out-unicast-packets", Py.VStr "1000");
   ("out-multicast-packets", Py.VStr "1000"); ("out-broadcast-packets", Py.VStr "1000");
   ("in-packets", Py.VStr "3000"); ("out-packets", Py.VStr "3000")].

(** A session whose every request fails with the exception [e]. *)
Definition failing_session (e : Py.exn) : Snmp.session := fun _ => Py.Raise e.

Definition no_time : Py.time -> string := fun _ => EmptyString.

(** ** Reading a telemetry record *)

Definition and_then {A B : Type} (o : option A) (k : A -> option B) : option B :=
  match o with
  | Some a => k a
  | None => None
  end.

(** [record["timestamp"]] *)
Definition record_timestamp (r : Json.t) : option Json.t := Json.field r "timestamp".

(** [record["updates"][0]["Path"]] *)
Definition record_path (r : Json.t) : option Json.t :=
  and_then (Json.field r "updates") (fun us =>
  and_then (Json.index us 0) (fun u => Json.field u "Path")).

(** [record["updates"][0]["values"]["IF-MIB:interface/<block>"][key]] *)
Definition counter_field (r : Json.t) (block key : string) : option Json.t :=
  and_then (Json.field r "updates") (fun us =>
  and_then (Json.index us 0) (fun u =>
  and_then (Json.field u "values") (fun vs =>
  and_then (Json.field vs ("IF-MIB:interface/" ++ block)) (fun d =>
  Json.field d key)))).

(** [record["updates"][0]["values"]["openconfig-interfaces:interface/statistics"][key]] *)
Definition netconf_counter_field (r : Json.t) (key : string) : option Json.t :=
  and_then (Json.field r "updates") (fun us =>
  and_then (Json.index us 0) (fun u =>
  and_then (Json.field u "values") (fun vs =>
  and_then (Json.field vs "openconfig-interfaces:interface/statistics") (fun d =>
  Json.field d key)))).

(** The lines of a run, cycle after cycle: a statistics record, then a
    traffic-rate record of the same reading of the clock. *)
Inductive paired_records (fmt : string -> stats_dict -> Py.time -> Json.t)
  : list Py.time -> list Json.t -> Prop :=
| paired_nil : paired_records fmt [] []
| paired_cons : forall (now : Py.time) (stats rate : stats_dict) (nows : list Py.time)
                       (recs : list Json.t),
    paired_records fmt nows recs ->
    paired_records fmt (now :: nows)
      (fmt "statistics" stats now :: fmt "traffic-rate" rate now :: recs).

(** The record that [monitor] of [if-stats-netconf-v2.py] writes for the
    zero-filled sample. *)
Definition no_data_record (i : string) (ts : Py.time) (rate : stats_dict) : Json.t :=
  Json.JObj [("timestamp", Json.JInt (Py.nanos ts));
             ("interface", Json.JStr i);
             ("model", Json.JStr "no-data");
             ("stats", Json.of_stats (Nc.no_data i));
             ("rate", Json.of_stats rate)].

(** The counters of the envelope of [if-stats-netconf.py]: the name in the
    record, and the key of the sample it is taken from. *)
Definition netconf_counter_names : list (string * string) :=
  [("in-octets", "in-octets"); ("out-octets", "out-octets");
   ("in-packets", "in-packets"); ("out-packets", "out-packets");
   ("in-unicast-packets", "in-unicast-pkts");
   ("out-unicast-packets", "out-unicast-pkts");
   ("in-multicast-packets", "in-multicast-pkts");
   ("out-multicast-packets", "out-multicast-pkts");
   ("in-broadcast-packets", "in-broadcast-pkts");
   ("out-broadcast-packets", "out-broadcast-pkts");
   ("in-error-packets", "in-errors"); ("out-error-packets", "out-errors");
   ("in-discarded-packets", "in-discards");
   ("out-discarded-packets", "out-discards")].

(** The [in-bps] values of the traffic-rate records of an output file, in
    the order they were written. *)
Definition in_bps_written (f : list Json.t) : list Json.t :=
  flat_map (fun r =>
              match counter_field r "traffic-rate" "in-bps" with
              | Some v => [v]
              | None => []
              end) f.

(** ** Notions used to reason on the JSON reader *)

Module JsonSpec.

Import Json.

Definition starts_digit (s : string) : bool :=
  match s with
  | String c _ => is_digit c
  | EmptyString => false
  end.

(** What may follow a value inside a document: nothing, a comma, or a closing
    bracket or brace. *)
Definition delim (s : string) : bool :=
  match s with
  | EmptyString => true
  | String c _ =>
      let n := N_of_ascii c in ((n =? 44) || (n =? 93) || (n =? 125))%N
  end.

(** The characters that the text of a document starts with. *)
Definition value_start (c : ascii) : bool :=
  let n := N_of_ascii c in
  (is_digit c || (n =? 45) || (n =? 34) || (n =? 91) || (n =? 123)
   || (n =? 110) || (n =? 116) || (n =? 102))%N.

(** The text of one member of an object. *)
Definition member_text (ea : bool) (kv : string * t) : string :=
  dumps_string ea (fst kv) ++ ": " ++ dumps ea (snd kv).

(** The reader gets [j] back from its text, whatever follows it. *)
Definition reads_back (ea : bool) (j : t) : Prop :=
  forall (fuel : nat) (rest : string),
    (String.length (dumps ea j) <= fuel)%nat -> delim rest = true ->
    read_value fuel (dumps ea j ++ rest) = Some (j, rest).

Section Induction.

Variable P : t -> Prop.
Hypothesis HNull : P JNull.
Hypothesis HBool : forall b, P (JBool b).
Hypothesis HInt : forall n, P (JInt n).
Hypothesis HStr : forall s, P (JStr s).
Hypothesis HArr : forall l, Forall P l -> P (JArr l).
Hypothesis HObj : forall l, Forall (fun kv => P (snd kv)) l -> P (JObj l).

(** Induction on a document, with the property known of the elements of an
    array and of the values of an object. *)
Fixpoint t_nested_ind (j : t) : P j :=
  match j with
  | JNull => HNull
  | JBool b => HBool b
  | JInt n => HInt n
  | JStr s => HStr s
  | JArr l =>
      HArr l ((fix go (l : list t) : Forall P l :=
                 match l with
                 | [] => Forall_nil P
                 | x :: r => Forall_cons x (t_nested_ind x) (go r)
                 end) l)
  | JObj l =>
      HObj l ((fix go (l : list (string * t)) : Forall (fun kv => P (snd kv)) l :=
                 match l with
                 | [] => Forall_nil _
                 | kv :: r =>
                     Forall_cons (P := fun kv => P (snd kv)) kv
                       (t_nested_ind (snd kv)) (go r)
                 end) l)
  end.

End Induction.

End JsonSpec.

(** ** Notions used in the further properties *)

(** The six packet-class keys of an SNMP sample. *)
Definition packet_classes : list string :=
  ["in-unicast-packets"; "in-multicast-packets"; "in-broadcast-packets";
   "out-unicast-packets"; "out-multicast-packets"; "out-broadcast-packets"].

(** A session whose every answer, for the interface [idx], reads as an
    integer once [get_snmp_value] has turned the failures into ["0"]. *)
Definition numeric_session (idx : Z) (sess : Snmp.session) : Prop :=
  forall oid_base, exists n, Py.int_of_str (snmp_v2_value sess idx oid_base) = Py.Ok n.

(** A polling state against which the rate computation does not raise on a
    conversion of a counter: it has no time yet, or its octet counters are
    integers. *)
Definition integer_state (self : Snmp.poll_state) : Prop :=
  Snmp.prev_timestamp self = None
  \/ exists b d, Dict.int_item (Snmp.prev_stats self) "in-octets" = Py.Ok b
                 /\ Dict.int_item (Snmp.prev_stats self) "out-octets" = Py.Ok d.

(** The two values by which the SNMP library reports a missing object. *)
Definition error_marker (s : string) : bool :=
  String.eqb s "NOSUCHINSTANCE" || String.eqb s "NOSUCHOBJECT".

(** No value of the dictionary is an error marker. *)
Definition marker_free (d : stats_dict) : Prop :=
  Forall (fun kv => match snd kv with
                    | Py.VStr s => error_marker s = false
                    | Py.VNone => True
                    end) d.

(** The sample that [if-stats-snmp-v3.py] builds on a device that answers
    [NOSUCHOBJECT] to every request. *)
Definition no_such_object_sample : stats_dict :=
  Eval vm_compute in
    match fst (SnmpV3.get_interface_stats (constant_session "NOSUCHOBJECT") 2 []) with
    | Py.Ok d => d
    | Py.Raise _ => []
    end.

(** The sample that a pass of [main] of [stats-if-snmp.py] builds. *)
Definition stats_if_snmp_sample (sess : Snmp.session) : stats_dict :=
  let v := snmp_v2_value sess StatsIfSnmp.INTERFACE_INDEX in
  [("in-octets", Py.VStr (v ".1.3.6.1.2.1.31.1.1.1.6"));
   ("out-octets", Py.VStr (v ".1.3.6.1.2.1.31.1.1.1.10"));
   ("in-packets", Py.VStr (v ".1.3.6.1.2.1.31.1.1.1.7"));
   ("out-packets", Py.VStr (v ".1.3.6.1.2.1.31.1.1.1.11"))].

(** A sample one of whose octet counters does not read as an integer. *)
Definition bad_octets (d : stats_dict) : Prop :=
  (exists e, Dict.int_item d "in-octets" = Py.Raise e)
  \/ (exists e, Dict.int_item d "out-octets" = Py.Raise e).

(** [int(d.get(k, 0))] raises. *)
Definition not_integer (d : stats_dict) (k : string) : Prop :=
  exists e, Dict.int_get d k = Py.Raise e.

(** *** Interface discovery of [if-stats-snmp-full.py] *)

Definition IF_DESCR : string := ".1.3.6.1.2.1.2.2.1.2".
Definition IF_NAME : string := ".1.3.6.1.2.1.31.1.1.1.1".
Definition IF_INDEX : string := ".1.3.6.1.2.1.2.2.1.1".

(** The variable [(oid, value)] of a walk names the interface: its value
    contains the name, letter case apart. *)
Definition names_interface (interface_name : string) (item : string * string) : bool :=
  Py.contains (Py.lower interface_name) (Py.lower (snd item)).

(** [oid.split('.')[-1]] *)
Definition last_component (oid : string) : string :=
  last (Py.split "." oid) EmptyString.

(** A walk that fails, or finds no variable naming the interface. *)
Definition finds_nothing (walk : SnmpFull.walker) (name oid : string) : Prop :=
  match walk oid with
  | Py.Ok items => Forall (fun item => names_interface name item = false) items
  | Py.Raise _ => True
  end.

(** A device with three interfaces, in the order of its table. *)
Definition three_interfaces : SnmpFull.walker :=
  fun _ => Py.Ok [(".1.3.6.1.2.1.2.2.1.2.1", "Loopback0");
                  (".1.3.6.1.2.1.2.2.1.2.3", "GigabitEthernet0/10");
                  (".1.3.6.1.2.1.2.2.1.2.2", "Ethernet0/1")].

(** A device whose only interface is a loopback. *)
Definition loopback_only : SnmpFull.walker :=
  fun _ => Py.Ok [(".1.3.6.1.2.1.2.2.1.2.1", "Loopback0")].

(** *** The connection test of [if-stats-snmp-full.py] *)

Definition SYS_DESCR : string := ".1.3.6.1.2.1.1.1.0".
Definition SYS_UPTIME : string := ".1.3.6.1.2.1.1.3.0".
Definition IF_NUMBER : string := ".1.3.6.1.2.1.2.1.0".

(** The session answers the request with a value. *)
Definition answers (sess : Snmp.session) (oid : string) : Prop :=
  exists v, sess oid = Py.Ok (Some v).

(** *** The OpenConfig reply, as [if-stats-netconf-v2.py] reads it *)

(** The [counters] element that the parser reads in a reply, if the reply
    has one. *)
Definition openconfig_counters (reply : Xml.text) : option Xml.node :=
  match Xml.parseString reply with
  | Py.Ok dom =>
      match Xml.doc_getElementsByTagNameNS dom Nc.OC_NS "interface" with
      | iface :: _ =>
          match Xml.getElementsByTagNameNS iface Nc.OC_NS "counters" with
          | counters :: _ => Some counters
          | [] => None
          end
      | [] => None
      end
  | Py.Raise _ => None
  end.

Definition packet_class_leaves : list string :=
  ["in-unicast-pkts"; "in-multicast-pkts"; "in-broadcast-pkts";
   "out-unicast-pkts"; "out-multicast-pkts"; "out-broadcast-pkts"].

(** The sample that the OpenConfig parser of [if-stats-netconf-v2.py] builds
    from the example counters. *)
Definition openconfig_v2_example : stats_dict :=
  Eval vm_compute in
    match NetconfV2.parse_openconfig_stats "Ethernet1"
            (openconfig_reply "Ethernet1" packet_counters_example) with
    | Some d => d
    | None => []
    end.

(** A polling state of the NETCONF scripts whose previous sample, if it has
    a time, holds both octet counters. *)
Definition octets_present (self : Nc.poll_state) : Prop :=
  Nc.prev_time self = None
  \/ (Dict.get (Nc.prev_stats self) "in-octets" <> None
      /\ Dict.get (Nc.prev_stats self) "out-octets" <> None).

(** *** Samples and records of [if-stats-netconf.py] *)

(** A manager whose OpenConfig request is answered with the example
    counters and whose IETF request fails. *)
Definition openconfig_only : Nc.manager :=
  manager_of (Py.Ok (openconfig_reply "Ethernet1" packet_counters_example))
             (Py.Raise Py.OtherError).

Definition openconfig_example : stats_dict :=
  Eval vm_compute in
    match fst (Netconf.get_interface_stats openconfig_only "Ethernet1" debug_ok []) with
    | Py.Ok d => d
    | Py.Raise _ => []
    end.

Definition openconfig_example_record : Json.t :=
  Eval vm_compute in
    match Netconf.format_output "Ethernet1" no_time openconfig_example
            Snmp.zero_rate (clock 10) with
    | Py.Ok j => j
    | Py.Raise _ => Json.JNull
    end.

(** A manager whose OpenConfig request fails and whose IETF request is
    answered with an [in-octets] that is not a number. *)
Definition ietf_not_a_number : Nc.manager :=
  manager_of (Py.Raise Py.OtherError)
             (Py.Ok (ietf_reply "Ethernet1"
                       [("in-octets", "n/a"); ("out-octets", "7")])).

Definition ietf_not_a_number_sample : stats_dict :=
  Eval vm_compute in
    match fst (Netconf.get_interface_stats ietf_not_a_number "Ethernet1" debug_ok [])
    with
    | Py.Ok d => d
    | Py.Raise _ => []
    end.

(** *** The lines of the output file *)

(** The line feed that ends a line. *)
Definition LF : ascii := "010"%char.

(** [c in s], for a character [c]. *)
Fixpoint has_char (c : ascii) (s : string) : bool :=
  match s with
  | EmptyString => false
  | String x r => Ascii.eqb x c || has_char c r
  end.

(** * Facts *)

(** ** [int] and [str] *)

Module PyFacts.

(** The decimal writing of a number has no white space to strip and no
    underscore to drop. *)
Lemma rstrip_uint (d : uint) :
  Py.rstrip_with Py.is_int_space (NilEmpty.string_of_uint d)
  = NilEmpty.string_of_uint d.
Proof.
  induction d; simpl; try reflexivity;
    rewrite IHd; destruct (NilEmpty.string_of_uint d); reflexivity.
Qed.

Lemma lstrip_uint (d : uint) :
  Py.lstrip_with Py.is_int_space (NilEmpty.string_of_uint d)
  = NilEmpty.string_of_uint d.
Proof. destruct d; reflexivity. Qed.

Lemma drop_underscores_uint (d : uint) :
  Py.drop_underscores true (NilEmpty.string_of_uint d)
  = Some (NilEmpty.string_of_uint d).
Proof. induction d; simpl; try reflexivity; rewrite IHd; reflexivity. Qed.

(** Reading the digits of a number gives the number back. *)
Lemma parse_digits_uint (d : uint) :
  d <> Nil ->
  Py.parse_digits (NilEmpty.string_of_uint d) = Some (Z.of_uint d).
Proof.
  intros Hd. unfold Py.parse_digits.
  assert (H : Py.drop_underscores false (NilEmpty.string_of_uint d)
              = Some (NilEmpty.string_of_uint d)).
  { destruct d; try contradiction; simpl; rewrite drop_underscores_uint; reflexivity. }
  rewrite H. unfold NilZero.uint_of_string.
  pose proof (NilEmpty.usu d) as U.
  destruct d; try contradiction; simpl in *; rewrite U; reflexivity.
Qed.

Lemma parse_int_pos (p : positive) :
  Py.parse_int (NilEmpty.string_of_uint (Pos.to_uint p)) = Some (Zpos p).
Proof.
  unfold Py.parse_int, Py.int_strip. rewrite lstrip_uint, rstrip_uint.
  pose proof (DecimalPos.Unsigned.to_uint_nonnil p) as Hnil.
  pose proof (parse_digits_uint (Pos.to_uint p) Hnil) as H.
  assert (Hv : Z.of_uint (Pos.to_uint p) = Zpos p).
  { unfold Z.of_uint. rewrite DecimalPos.Unsigned.of_to. reflexivity. }
  rewrite Hv in H.
  destruct (Pos.to_uint p); try contradiction; exact H.
Qed.

Lemma parse_int_neg (p : positive) :
  Py.parse_int (String "-" (NilEmpty.string_of_uint (Pos.to_uint p))) = Some (Zneg p).
Proof.
  unfold Py.parse_int, Py.int_strip.
  change (Py.lstrip_with Py.is_int_space (String "-" ?s)) with (String "-" s).
  pose proof (DecimalPos.Unsigned.to_uint_nonnil p) as Hnil.
  assert (Hr : Py.rstrip_with Py.is_int_space
                 (String "-" (NilEmpty.string_of_uint (Pos.to_uint p)))
               = String "-" (NilEmpty.string_of_uint (Pos.to_uint p))).
  { simpl. rewrite rstrip_uint.
    destruct (Pos.to_uint p); try contradiction; reflexivity. }
  rewrite Hr. rewrite parse_digits_uint by exact Hnil.
  unfold Z.of_uint. rewrite DecimalPos.Unsigned.of_to. reflexivity.
Qed.

(** The shape of [str(n)] for a positive and for a negative [n]. *)
Lemma str_pos (p : positive) :
  Py.str (Zpos p) = NilEmpty.string_of_uint (Pos.to_uint p).
Proof.
  unfold Py.str. simpl.
  pose proof (DecimalPos.Unsigned.to_uint_nonnil p) as Hnil.
  destruct (Pos.to_uint p); try contradiction; reflexivity.
Qed.

Lemma str_neg (p : positive) :
  Py.str (Zneg p) = String "-" (NilEmpty.string_of_uint (Pos.to_uint p)).
Proof.
  unfold Py.str. simpl.
  pose proof (DecimalPos.Unsigned.to_uint_nonnil p) as Hnil.
  destruct (Pos.to_uint p); try contradiction; reflexivity.
Qed.

(** [int(str(n)) == n], for every integer [n]. *)
Theorem int_of_str_str (n : Z) : Py.int_of_str (Py.str n) = Py.Ok n.
Proof.
  unfold Py.int_of_str. destruct n as [|p|p].
  - reflexivity.
  - rewrite str_pos, parse_int_pos. reflexivity.
  - rewrite str_neg, parse_int_neg. reflexivity.
Qed.

End PyFacts.

(** ** The JSON reader reads back what [json.dumps] writes *)

Module JsonFacts.

Import Json JsonSpec.

(** Two facts on the concatenation of strings. *)
Lemma append_assoc (a b c : string) : (a ++ b) ++ c = a ++ (b ++ c).
Proof. induction a as [|x a IH]; simpl; [reflexivity | now rewrite IH]. Qed.

Lemma length_append (a b : string) :
  String.length (a ++ b) = (String.length a + String.length b)%nat.
Proof. induction a as [|x a IH]; simpl; [reflexivity | now rewrite IH]. Qed.

(** The reader undoes the escape of one character, whichever of the 256 it is
    and whether or not [ensure_ascii] is set. *)
Lemma read_string_escape_char (ea : bool) (c : ascii) (r : string) :
  read_string (escape_char ea c ++ r) = cons_char c (read_string r).
Proof.
  destruct ea; destruct c as [[|] [|] [|] [|] [|] [|] [|] [|]]; reflexivity.
Qed.

(** So it reads an escaped string back, up to the closing quote. *)
Lemma read_string_escape (ea : bool) (s rest : string) :
  read_string (escape ea s ++ String dq rest) = Some (s, rest).
Proof.
  induction s as [|c s IH]; simpl.
  - reflexivity.
  - rewrite append_assoc, read_string_escape_char, IH. reflexivity.
Qed.

Lemma read_string_dumps (ea : bool) (s rest : string) :
  read_string (escape ea s ++ String dq EmptyString ++ rest) = Some (s, rest).
Proof. apply read_string_escape. Qed.


(** *** Numbers *)

(** The digits of a number are read as a whole when no digit follows them. *)
Lemma span_digits_uint (d : uint) (rest : string) :
  starts_digit rest = false ->
  span_digits (NilEmpty.string_of_uint d ++ rest) = (NilEmpty.string_of_uint d, rest).
Proof.
  intros Hr. induction d; simpl;
    try (rewrite IHd; reflexivity).
  destruct rest as [|c r]; simpl in *; [reflexivity | now rewrite Hr].
Qed.

(** A normalised decimal is [0] or does not start with the digit zero. *)
Lemma unorm_head (d : uint) :
  unorm d = D0 Nil \/ (forall d', unorm d <> D0 d') .
Proof.
  unfold unorm.
  induction d; simpl; try (right; intros d'; discriminate).
  - left; reflexivity.
  - exact IHd.
Qed.

Lemma to_uint_unorm (p : positive) : Pos.to_uint p = unorm (Pos.to_uint p).
Proof.
  rewrite <- (DecimalPos.Unsigned.to_of (Pos.to_uint p)).
  rewrite DecimalPos.Unsigned.of_to. reflexivity.
Qed.

(** The writing of a positive number is read back as that number. *)
Lemma read_nat_pos (p : positive) (rest : string) :
  starts_digit rest = false -> starts_fraction rest = false ->
  read_nat (NilEmpty.string_of_uint (Pos.to_uint p) ++ rest) = Some (Zpos p, rest).
Proof.
  intros Hd Hf. unfold read_nat.
  rewrite span_digits_uint by exact Hd. rewrite Hf.
  rewrite NilEmpty.usu.
  assert (Hv : Z.of_uint (Pos.to_uint p) = Zpos p).
  { unfold Z.of_uint. rewrite DecimalPos.Unsigned.of_to. reflexivity. }
  rewrite Hv.
  pose proof (DecimalPos.Unsigned.to_uint_nonnil p) as Hnil.
  pose proof (DecimalPos.Unsigned.to_uint_nonzero p) as Hnz.
  pose proof (to_uint_unorm p) as Hu.
  destruct (unorm_head (Pos.to_uint p)) as [H0|H0].
  - rewrite <- Hu in H0. contradiction.
  - rewrite <- Hu in H0.
    destruct (Pos.to_uint p) as [|d|d|d|d|d|d|d|d|d|d]; try reflexivity.
    + contradiction.
    + exfalso. apply (H0 d). reflexivity.
Qed.

Lemma str_pos_head (p : positive) :
  exists c r, NilEmpty.string_of_uint (Pos.to_uint p) = String c r /\ is_digit c = true.
Proof.
  pose proof (DecimalPos.Unsigned.to_uint_nonnil p) as Hnil.
  destruct (Pos.to_uint p); try contradiction; simpl; eauto.
Qed.

Lemma read_number_digit (c : ascii) (r : string) :
  is_digit c = true -> read_number (String c r) = read_nat (String c r).
Proof.
  destruct c as [[|] [|] [|] [|] [|] [|] [|] [|]]; intros H;
    try discriminate H; reflexivity.
Qed.

(** [str(z)] is read back as [z], when what follows is neither a digit nor the
    start of a fraction or an exponent. *)
Lemma read_number_str (z : Z) (rest : string) :
  starts_digit rest = false -> starts_fraction rest = false ->
  read_number (Py.str z ++ rest) = Some (z, rest).
Proof.
  intros Hd Hf. destruct z as [|p|p].
  - change (Py.str 0) with "0". unfold read_number. simpl append.
    change (read_nat (String "0" rest)) with
      (read_nat (NilEmpty.string_of_uint (D0 Nil) ++ rest)).
    unfold read_nat. rewrite span_digits_uint by exact Hd. rewrite Hf. reflexivity.
  - rewrite PyFacts.str_pos.
    destruct (str_pos_head p) as (c & r & E & Hc).
    rewrite E. simpl append. rewrite read_number_digit by exact Hc.
    change (String c (r ++ rest)) with (String c r ++ rest). rewrite <- E.
    apply read_nat_pos; assumption.
  - rewrite PyFacts.str_neg. unfold read_number. simpl append. cbv iota beta.
    rewrite read_nat_pos by assumption. reflexivity.
Qed.


(** *** Structure *)

(** A property of one character, decided by running through the 256 of them. *)
Ltac by_cases_on_char c :=
  destruct c as [[|] [|] [|] [|] [|] [|] [|] [|]];
  try discriminate; try reflexivity.

Lemma delim_digit (s : string) : delim s = true -> starts_digit s = false.
Proof. destruct s as [|c r]; [reflexivity|]. simpl. by_cases_on_char c. Qed.

Lemma delim_fraction (s : string) : delim s = true -> starts_fraction s = false.
Proof. destruct s as [|c r]; [reflexivity|]. simpl. by_cases_on_char c. Qed.

Lemma str_head (z : Z) :
  exists c r, Py.str z = String c r /\ (is_digit c = true \/ c = "-"%char).
Proof.
  destruct z as [|p|p].
  - exists "0"%char, EmptyString. split; [reflexivity | left; reflexivity].
  - rewrite PyFacts.str_pos. destruct (str_pos_head p) as (c & r & E & Hc).
    exists c, r. split; [exact E | left; exact Hc].
  - rewrite PyFacts.str_neg. eexists _, _. split; [reflexivity | right; reflexivity].
Qed.

Lemma digit_value_start (c : ascii) :
  is_digit c = true \/ c = "-"%char -> value_start c = true.
Proof.
  intros [H| ->]; [|reflexivity]. unfold value_start. now rewrite H.
Qed.

(** The text of a document starts with a character that no closing bracket or
    brace can be taken for. *)
Lemma dumps_head (ea : bool) (j : t) :
  exists c r, dumps ea j = String c r /\ value_start c = true.
Proof.
  destruct j as [| [|] | n | s | l | l]; simpl;
    try (eexists _, _; split; [reflexivity | reflexivity]).
  destruct (str_head n) as (c & r & E & Hc).
  exists c, r. split; [exact E | now apply digit_value_start].
Qed.

Lemma dumps_length_pos (ea : bool) (j : t) : (1 <= String.length (dumps ea j))%nat.
Proof.
  destruct (dumps_head ea j) as (c & r & E & _). rewrite E. simpl. lia.
Qed.

Lemma peek_value_start (n : N) (c : ascii) (r : string) :
  value_start c = true -> n = 93%N \/ n = 125%N -> peek_is n (String c r) = None.
Proof.
  intros H [-> | ->]; revert H; by_cases_on_char c.
Qed.

Lemma peek_comma (x : string) : peek_is 44 (String "," x) = Some x.
Proof. reflexivity. Qed.

Lemma peek_colon (x : string) : peek_is 58 (String ":" x) = Some x.
Proof. reflexivity. Qed.

Lemma peek_quote (x : string) : peek_is 34 (String dq x) = Some x.
Proof. reflexivity. Qed.

Lemma peek_bracket (x : string) :
  peek_is 44 (String "]" x) = None /\ peek_is 93 (String "]" x) = Some x.
Proof. split; reflexivity. Qed.

Lemma peek_brace (x : string) :
  peek_is 44 (String "}" x) = None /\ peek_is 125 (String "}" x) = Some x.
Proof. split; reflexivity. Qed.

(** A space before a value, an element or a member is skipped. *)
Lemma read_value_space (fuel : nat) (s : string) :
  read_value fuel (String " " s) = read_value fuel s.
Proof. destruct fuel; reflexivity. Qed.

Lemma read_elements_space (fuel : nat) (s : string) :
  read_elements fuel (String " " s) = read_elements fuel s.
Proof. destruct fuel as [|[|f]]; reflexivity. Qed.

Lemma read_members_space (fuel : nat) (s : string) :
  read_members fuel (String " " s) = read_members fuel s.
Proof. destruct fuel; reflexivity. Qed.

Lemma read_value_number (fuel : nat) (c : ascii) (r : string) :
  is_digit c = true \/ c = "-"%char ->
  read_value (S fuel) (String c r) =
  match read_number (String c r) with
  | Some (z, rest) => Some (JInt z, rest)
  | None => None
  end.
Proof.
  intros [H | ->]; [|reflexivity]. revert H. by_cases_on_char c.
Qed.

(** The elements of a non-empty array, written with their separators and
    followed by the closing bracket, are read back. *)
Lemma read_elements_join (ea : bool) (l : list t) :
  Forall (reads_back ea) l -> l <> [] ->
  forall (fuel : nat) (rest : string),
    (String.length (join ", " (map (dumps ea) l)) < fuel)%nat ->
    read_elements fuel (join ", " (map (dumps ea) l) ++ String "]" rest)
    = Some (l, rest).
Proof.
  induction 1 as [|v vs Hv Hvs IH]; intros Hne fuel rest Hfuel; [congruence|].
  destruct fuel as [|fuel]; [lia|].
  destruct vs as [|v2 vs].
  - simpl in *. rewrite Hv by (simpl; try lia; reflexivity).
    destruct (peek_bracket rest) as [-> ->]. reflexivity.
  - change (join ", " (map (dumps ea) (v :: v2 :: vs)))
      with (dumps ea v ++ ", " ++ join ", " (map (dumps ea) (v2 :: vs))) in *.
    remember (join ", " (map (dumps ea) (v2 :: vs))) as J eqn:EJ.
    rewrite !length_append in Hfuel. simpl String.length in Hfuel.
    rewrite !append_assoc. cbn [read_elements].
    rewrite Hv by (try lia; reflexivity).
    change (", " ++ J ++ String "]" rest)
      with (String "," (String " " (J ++ String "]" rest))).
    rewrite peek_comma. rewrite read_elements_space.
    rewrite IH by (try congruence; lia). reflexivity.
Qed.


Lemma dumps_obj (ea : bool) (l : list (string * t)) :
  dumps ea (JObj l) = "{" ++ join ", " (map (member_text ea) l) ++ "}".
Proof.
  simpl. do 3 f_equal. apply map_ext. intros [k v]. reflexivity.
Qed.

(** One member of an object is read through its key, the colon and its value. *)
Lemma read_member (ea : bool) (k : string) (v : t) (fuel : nat) (x : string) :
  reads_back ea v -> (String.length (dumps ea v) <= fuel)%nat -> delim x = true ->
  forall (A : Type) (f : string -> t -> string -> option A),
  match peek_is 34 (member_text ea (k, v) ++ x) with
  | Some r =>
      match read_string r with
      | Some (k', r1) =>
          match peek_is 58 r1 with
          | Some r2 =>
              match read_value fuel r2 with
              | Some (v', r3) => f k' v' r3
              | None => None
              end
          | None => None
          end
      | None => None
      end
  | None => None
  end = f k v x.
Proof.
  intros Hv Hfuel Hx A f.
  unfold member_text, dumps_string. simpl fst. simpl snd.
  change (String dq (escape ea k ++ String dq "") ++ ": " ++ dumps ea v)
    with (String dq ((escape ea k ++ String dq "") ++ ": " ++ dumps ea v)).
  change (String dq ((escape ea k ++ String dq "") ++ ": " ++ dumps ea v) ++ x)
    with (String dq (((escape ea k ++ String dq "") ++ ": " ++ dumps ea v) ++ x)).
  rewrite peek_quote. rewrite !append_assoc.
  change (String dq "" ++ ": " ++ dumps ea v ++ x)
    with (String dq (String ":" (String " " (dumps ea v ++ x)))).
  rewrite read_string_escape, peek_colon, read_value_space.
  rewrite Hv by assumption. reflexivity.
Qed.

Lemma member_text_length (ea : bool) (kv : string * t) :
  (String.length (dumps ea (snd kv)) < String.length (member_text ea kv))%nat.
Proof.
  unfold member_text, dumps_string. rewrite !length_append. simpl. lia.
Qed.

(** The members of a non-empty object, written with their separators and
    followed by the closing brace, are read back. *)
Lemma read_members_join (ea : bool) (l : list (string * t)) :
  Forall (fun kv => reads_back ea (snd kv)) l -> l <> [] ->
  forall (fuel : nat) (rest : string),
    (String.length (join ", " (map (member_text ea) l)) < fuel)%nat ->
    read_members fuel (join ", " (map (member_text ea) l) ++ String "}" rest)
    = Some (l, rest).
Proof.
  induction 1 as [|[k v] kvs Hv Hkvs IH]; intros Hne fuel rest Hfuel; [congruence|].
  destruct fuel as [|fuel]; [lia|].
  pose proof (member_text_length ea (k, v)) as Hlen. simpl snd in *.
  destruct kvs as [|kv2 kvs].
  - change (join ", " (map (member_text ea) [(k, v)])) with (member_text ea (k, v)) in *.
    cbn [read_members].
    rewrite (read_member ea k v fuel (String "}" rest) Hv); [| lia | reflexivity].
    destruct (peek_brace rest) as [-> ->]. reflexivity.
  - change (join ", " (map (member_text ea) ((k, v) :: kv2 :: kvs)))
      with (member_text ea (k, v) ++ ", " ++ join ", " (map (member_text ea) (kv2 :: kvs))) in *.
    remember (join ", " (map (member_text ea) (kv2 :: kvs))) as J eqn:EJ.
    rewrite !length_append in Hfuel. change (String.length ", ") with 2%nat in Hfuel.
    rewrite !append_assoc. cbn [read_members].
    change (", " ++ J ++ String "}" rest)
      with (String "," (String " " (J ++ String "}" rest))).
    rewrite (read_member ea k v fuel _ Hv); [| lia | reflexivity].
    rewrite peek_comma, read_members_space.
    rewrite IH by (try congruence; lia). reflexivity.
Qed.

Lemma join_head (ea : bool) (v : t) (vs : list t) :
  exists c r, join ", " (map (dumps ea) (v :: vs)) = String c r /\ value_start c = true.
Proof.
  destruct (dumps_head ea v) as (c & r & E & Hc).
  destruct vs as [|v2 vs].
  - exists c, r. split; [exact E | exact Hc].
  - change (join ", " (map (dumps ea) (v :: v2 :: vs)))
      with (dumps ea v ++ ", " ++ join ", " (map (dumps ea) (v2 :: vs))).
    rewrite E. eexists _, _. split; [reflexivity | exact Hc].
Qed.

Lemma join_members_head (ea : bool) (kv : string * t) (kvs : list (string * t)) :
  exists r, join ", " (map (member_text ea) (kv :: kvs)) = String dq r.
Proof.
  destruct kvs as [|kv2 kvs].
  - eexists. reflexivity.
  - eexists. reflexivity.
Qed.

(** Every document is read back from its text, by induction on the document. *)
Theorem read_value_dumps (ea : bool) (j : t) : reads_back ea j.
Proof.
  induction j as [| b | n | s | l IH | l IH] using t_nested_ind;
    intros fuel rest Hfuel Hrest;
    (destruct fuel as [|fuel];
     [pose proof (dumps_length_pos ea) as Hpos;
      match type of Hfuel with (String.length (dumps ea ?j) <= _)%nat =>
        specialize (Hpos j) end; lia |]).
  - reflexivity.
  - destruct b; reflexivity.
  - simpl dumps. destruct (str_head n) as (c & r & E & Hc).
    rewrite E. simpl append. rewrite read_value_number by exact Hc.
    change (String c (r ++ rest)) with (String c r ++ rest). rewrite <- E.
    rewrite read_number_str by (auto using delim_digit, delim_fraction).
    reflexivity.
  - simpl dumps. unfold dumps_string. simpl append. rewrite append_assoc.
    simpl append. cbn [read_value skip_ws is_ws]. simpl.
    rewrite read_string_escape. reflexivity.
  - destruct l as [|v vs]; [reflexivity|].
    cbn [dumps] in *. remember (join ", " (map (dumps ea) (v :: vs))) as J eqn:EJ.
    rewrite !length_append in Hfuel. simpl String.length in Hfuel.
    rewrite !append_assoc.
    change ("[" ++ J ++ "]" ++ rest) with (String "[" (J ++ String "]" rest)).
    destruct (join_head ea v vs) as (c & r & E & Hc). rewrite <- EJ in E.
    cbn [read_value skip_ws is_ws]. simpl.
    assert (Hp : peek_is 93 (J ++ String "]" rest) = None).
    { rewrite E. simpl append. apply peek_value_start; auto. }
    rewrite Hp. rewrite EJ.
    rewrite read_elements_join; [reflexivity | assumption | congruence |].
    rewrite <- EJ. lia.
  - destruct l as [|kv kvs]; [reflexivity|].
    rewrite dumps_obj in *.
    remember (join ", " (map (member_text ea) (kv :: kvs))) as J eqn:EJ.
    rewrite !length_append in Hfuel. simpl String.length in Hfuel.
    rewrite !append_assoc.
    change ("{" ++ J ++ "}" ++ rest) with (String "{" (J ++ String "}" rest)).
    destruct (join_members_head ea kv kvs) as (r & E). rewrite <- EJ in E.
    cbn [read_value skip_ws is_ws]. simpl.
    assert (Hp : peek_is 125 (J ++ String "}" rest) = None).
    { rewrite E. reflexivity. }
    rewrite Hp. rewrite EJ.
    rewrite read_members_join; [reflexivity | assumption | congruence |].
    rewrite <- EJ. lia.
Qed.

Lemma append_nil_r (s : string) : s ++ "" = s.
Proof. induction s as [|c s IH]; simpl; [reflexivity | now rewrite IH]. Qed.

(** [json.loads(json.dumps(j)) == j]: the fuel that [loads] takes from the
    length of the text is enough. *)
Theorem loads_dumps (ea : bool) (j : t) : loads (dumps ea j) = Some j.
Proof.
  unfold loads.
  pose proof (read_value_dumps ea j (S (String.length (dumps ea j))) "") as H.
  rewrite append_nil_r in H. rewrite H by (auto; reflexivity). reflexivity.
Qed.

End JsonFacts.

(** ** Floats *)

Module FloatFacts.

Lemma iter_pos_invariant {A : Type} (P : A -> Prop) (f : A -> A) :
  (forall x, P x -> P (f x)) -> forall p x, P x -> P (iter_pos f p x).
Proof. intros Hf. induction p; intros x Hx; simpl; auto. Qed.

(** The shifts and the rounding of a mantissa that is not negative give a
    mantissa that is not negative. *)
Lemma shr_1_nonneg (mrs : shr_record) : 0 <= shr_m mrs -> 0 <= shr_m (shr_1 mrs).
Proof. destruct mrs as [[|[p|p|]|p] r s]; simpl; lia. Qed.

Lemma shr_nonneg (mrs : shr_record) (e n : Z) :
  0 <= shr_m mrs -> 0 <= shr_m (fst (shr mrs e n)).
Proof.
  intros H. destruct n as [|p|p]; simpl; try exact H.
  apply iter_pos_invariant; [exact shr_1_nonneg | exact H].
Qed.

Lemma shr_fexp_nonneg (m e : Z) (l : location) :
  0 <= m -> 0 <= shr_m (fst (shr_fexp Py.prec Py.emax m e l)).
Proof.
  intros H. unfold shr_fexp. apply shr_nonneg.
  destruct l as [|[| |]]; exact H.
Qed.

Lemma round_nearest_even_nonneg (m : Z) (l : location) :
  0 <= m -> 0 <= round_nearest_even m l.
Proof.
  intros H. destruct l as [|[| |]]; simpl; try lia.
  destruct (Z.even m); lia.
Qed.

(** So the rounding of [m * 2^e], for [m] not negative, is a zero, a finite
    number or an infinity with the sign asked for: it is not a NaN. *)
Lemma binary_round_aux_signed (s : bool) (m e : Z) (l : location) :
  0 <= m -> signed s (binary_round_aux Py.prec Py.emax s m e l).
Proof.
  intros H. unfold binary_round_aux.
  pose proof (shr_fexp_nonneg m e l H) as H1.
  destruct (shr_fexp Py.prec Py.emax m e l) as [mrs' e'].
  cbn [fst] in H1.
  pose proof (shr_fexp_nonneg
                (round_nearest_even (shr_m mrs') (loc_of_shr_record mrs')) e' loc_Exact
                (round_nearest_even_nonneg _ _ H1)) as H2.
  destruct (shr_fexp Py.prec Py.emax _ e' loc_Exact) as [mrs'' e''].
  cbn [fst] in H2.
  destruct (shr_m mrs'') as [|p|p]; [reflexivity | | lia].
  destruct (e'' <=? Py.emax - Py.prec); reflexivity.
Qed.

Lemma dyadic_signed (n e : Z) : n <> 0 -> signed (n <? 0) (Py.dyadic n e).
Proof.
  intros H. unfold Py.dyadic, binary_normalize, binary_round.
  destruct n as [|p|p]; [contradiction| |];
    destruct (shl_align _ _ _) as [mz ez];
    apply binary_round_aux_signed; lia.
Qed.

(** The conversion of an integer raises [OverflowError] or nothing; the float
    is not an infinity and has the sign of the integer. *)
Lemma float_of_int_zero : Py.float_of_int 0 = Py.Ok Py.zero.
Proof. reflexivity. Qed.

Lemma float_of_int_cases (n : Z) :
  match Py.float_of_int n with
  | Py.Ok y =>
      match y with
      | S754_zero s => s = (n <? 0)
      | S754_finite s _ _ => s = (n <? 0)
      | S754_infinity _ => False
      | S754_nan => False
      end
  | Py.Raise e => e = Py.OverflowError
  end.
Proof.
  destruct (Z.eq_dec n 0) as [->|H]; [reflexivity|].
  pose proof (dyadic_signed n 0 H) as S. unfold Py.float_of_int.
  destruct (Py.dyadic n 0); cbn in *; auto.
Qed.

(** A float that passes the test [x > 0] is a positive number or the
    positive infinity. *)
Lemma gt0_cases (x : Py.float) :
  Py.gt0 x = true ->
  (exists m e, x = S754_finite false m e) \/ x = S754_infinity false.
Proof.
  unfold Py.gt0, SFltb, Py.zero. destruct x as [[|]|[|]| |[|] m e]; cbn;
    try discriminate; intros _; [right; reflexivity | left; eauto].
Qed.

Lemma gt0_not_zero (x : Py.float) : Py.gt0 x = true -> SFeqb x Py.zero = false.
Proof.
  intros H. destruct (gt0_cases x H) as [(m & e & ->) | ->]; reflexivity.
Qed.

Lemma le0_not_gt0 (x : Py.float) : Py.le0 x = true -> Py.gt0 x = false.
Proof.
  unfold Py.le0, Py.gt0, SFleb, SFltb, Py.zero.
  destruct x as [[|]|[|]| |[|] m e]; cbn; congruence.
Qed.

(** The quotient of two mantissas is not negative. *)
Lemma div_core_nonneg (m1 : positive) (e1 : Z) (m2 : positive) (e2 : Z) :
  0 <= fst (fst (SFdiv_core_binary Py.prec Py.emax (Zpos m1) e1 (Zpos m2) e2)).
Proof.
  unfold SFdiv_core_binary.
  set (s := _ - _ - Z.min _ _).
  set (m' := match s with Z0 => Zpos m1 | Zpos _ => Z.shiftl (Zpos m1) s | Zneg _ => 0 end).
  assert (Hm : 0 <= m').
  { unfold m'. destruct s; try lia. apply Z.shiftl_nonneg. lia. }
  pose proof (Z.div_pos m' (Zpos m2) Hm ltac:(lia)) as Hq.
  unfold Z.div in Hq. destruct (Z.div_eucl m' (Zpos m2)) as [q r]. exact Hq.
Qed.

(** Under the guard [dt > 0] the division raises [OverflowError] or nothing,
    and the quotient has the sign of the dividend. *)
Lemma truediv_gt0 (n : Z) (dt : Py.float) :
  Py.gt0 dt = true ->
  match Py.truediv n dt with
  | Py.Ok q => signed (n <? 0) q
  | Py.Raise e => e = Py.OverflowError
  end.
Proof.
  intros G. unfold Py.truediv. rewrite (gt0_not_zero dt G).
  pose proof (float_of_int_cases n) as C.
  destruct (Py.float_of_int n) as [y|e]; cbn [Py.rbind]; [|exact C].
  destruct (gt0_cases dt G) as [(m & e & ->) | ->];
    destruct y as [s|s| |s my ey]; cbn in C |- *; try contradiction;
    try (subst; destruct (n <? 0); reflexivity).
  subst s.
  pose proof (div_core_nonneg my ey m e) as Q.
  destruct (SFdiv_core_binary Py.prec Py.emax (Zpos my) ey (Zpos m) e) as [[mz ez] lz].
  cbn [fst] in Q. rewrite xorb_false_r. apply binary_round_aux_signed. exact Q.
Qed.

Lemma truediv_zero (dt : Py.float) :
  Py.gt0 dt = true -> Py.truediv 0 dt = Py.Ok Py.zero.
Proof.
  intros G. unfold Py.truediv. rewrite (gt0_not_zero dt G).
  destruct (gt0_cases dt G) as [(m & e & ->) | ->]; reflexivity.
Qed.

(** [int(x)] raises [OverflowError] on an infinity; otherwise the integer has
    the sign of [x]. *)
Lemma int_of_float_signed (s : bool) (x : Py.float) :
  signed s x ->
  match Py.int_of_float x with
  | Py.Ok z => if s then z <= 0 else 0 <= z
  | Py.Raise e => e = Py.OverflowError
  end.
Proof.
  destruct x as [s'|s'| |s' m e]; cbn [signed Py.int_of_float];
    try contradiction; intros <-; try reflexivity.
  - destruct s'; lia.
  - destruct (0 <=? e) eqn:E.
    + pose proof (Z.pow_nonneg 2 e ltac:(lia)).
      destruct s'; cbn [cond_Zopp]; nia.
    + apply Z.leb_gt in E.
      assert (P : 0 < 2 ^ (- e)) by (apply Z.pow_pos_nonneg; lia).
      destruct s'; cbn [cond_Zopp].
      * rewrite Z.quot_opp_l by lia.
        pose proof (Z.quot_pos (Zpos m) (2 ^ (- e)) ltac:(lia) ltac:(lia)). lia.
      * apply Z.quot_pos; lia.
Qed.

(** The truncated division of integers rounds the fraction toward zero. *)
Lemma quot_rounds (q : Q) : rounds_toward_zero (Z.quot (Qnum q) (Zpos (Qden q))) q.
Proof.
  destruct q as [n d]. unfold rounds_toward_zero, Qle, Qlt. simpl.
  rewrite !Z.mul_1_r.
  pose proof (Z.quot_rem' n (Zpos d)) as E.
  split; intros Hn.
  - pose proof (Z.rem_bound_pos n (Zpos d) Hn ltac:(lia)) as B. nia.
  - pose proof (Z.rem_bound_pos (- n) (Zpos d) ltac:(lia) ltac:(lia)) as B.
    rewrite Z.rem_opp_l in B by lia. nia.
Qed.

(** [int(x)] is the number that [x] stands for, rounded toward zero. *)
Lemma int_of_float_spec (x : Py.float) (z : Z) :
  Py.int_of_float x = Py.Ok z ->
  exists q, float_value x = Some q /\ rounds_toward_zero z q.
Proof.
  destruct x as [s|s| |s m e]; cbn [Py.int_of_float float_value]; try discriminate;
    intros H; injection H as <-.
  - exists 0%Q. split; [reflexivity|]. exact (quot_rounds 0%Q).
  - destruct (0 <=? e) eqn:E.
    + eexists. split; [reflexivity|].
      pose proof (quot_rounds (inject_Z (cond_Zopp s (Zpos m * 2 ^ e)))) as R.
      cbn [inject_Z Qnum Qden] in R. rewrite Z.quot_1_r in R. exact R.
    + apply Z.leb_gt in E.
      assert (P : 0 < 2 ^ (- e)) by (apply Z.pow_pos_nonneg; lia).
      eexists. split; [reflexivity|].
      pose proof (quot_rounds (Qmake (cond_Zopp s (Zpos m)) (Z.to_pos (2 ^ (- e))))) as R.
      cbn [Qnum Qden] in R. rewrite Z2Pos.id in R by exact P. exact R.
Qed.

(** The count of nanoseconds of a reading is [int(ts * 1e9)]. *)
Lemma nanos_spec (ts : Py.time) :
  Py.int_of_float (Py.mul (Py.seconds ts) Py.e9) = Py.Ok (Py.nanos ts).
Proof.
  unfold Py.nanos. pose proof (Py.in_range ts) as H.
  unfold Py.is_reading in H. apply andb_true_iff in H. destruct H as [_ H].
  destruct (Py.int_of_float (Py.mul (Py.seconds ts) Py.e9)); [reflexivity|discriminate H].
Qed.

End FloatFacts.

(** ** The arithmetic of rates *)

(** The rate string of the SNMP scripts is the decimal writing of
    [int(diff * 8 / dt)]. *)
Lemma bps_rate_of (dt : Py.float) (a b : Z) :
  Snmp.bps (a - b) dt = (z <~ rate_of dt a b ;; Py.Ok (Py.str z)).
Proof.
  unfold Snmp.bps, rate_of. destruct (Py.truediv ((a - b) * 8) dt); reflexivity.
Qed.

(** Under the guard [dt > 0] the rate raises [OverflowError] or nothing, and
    has the sign of the difference of the counters. *)
Lemma rate_of_cases (dt : Py.float) (a b : Z) :
  Py.gt0 dt = true ->
  match rate_of dt a b with
  | Py.Ok z => (b <= a -> 0 <= z) /\ (a <= b -> z <= 0)
  | Py.Raise e => e = Py.OverflowError
  end.
Proof.
  intros G. unfold rate_of.
  destruct (Z.eq_dec a b) as [->|N].
  - rewrite Z.sub_diag. cbn [Z.mul]. rewrite (FloatFacts.truediv_zero dt G).
    cbn. split; intros _; apply Z.le_refl.
  - pose proof (FloatFacts.truediv_gt0 ((a - b) * 8) dt G) as T.
    destruct (Py.truediv ((a - b) * 8) dt) as [q|e]; cbn [Py.rbind]; [|exact T].
    pose proof (FloatFacts.int_of_float_signed _ q T) as I.
    destruct (Py.int_of_float q) as [z|e]; [|exact I].
    destruct ((a - b) * 8 <? 0) eqn:L.
    + apply Z.ltb_lt in L. split; intros; lia.
    + apply Z.ltb_ge in L. split; intros; lia.
Qed.

Lemma rate_of_exn (dt : Py.float) (a b : Z) (e : Py.exn) :
  Py.gt0 dt = true -> rate_of dt a b = Py.Raise e -> e = Py.OverflowError.
Proof.
  intros G H. pose proof (rate_of_cases dt a b G) as C. rewrite H in C. exact C.
Qed.

(** A rate that is computed is the quotient, a float, rounded toward zero. *)
Lemma rate_of_spec (dt : Py.float) (a b z : Z) :
  rate_of dt a b = Py.Ok z ->
  exists x q, Py.truediv ((a - b) * 8) dt = Py.Ok x
              /\ float_value x = Some q /\ rounds_toward_zero z q.
Proof.
  unfold rate_of. destruct (Py.truediv ((a - b) * 8) dt) as [x|e]; [|discriminate].
  cbn [Py.rbind]. intros H.
  destruct (FloatFacts.int_of_float_spec x z H) as (q & Hq & R).
  exists x, q. auto.
Qed.

(** The rate of counters that did not move is zero. *)
Lemma rate_of_same (dt : Py.float) (a : Z) :
  Py.gt0 dt = true -> rate_of dt a a = Py.Ok 0.
Proof.
  intros G. unfold rate_of. rewrite Z.sub_diag. cbn [Z.mul].
  rewrite (FloatFacts.truediv_zero dt G). reflexivity.
Qed.

(** Where [d[k]] is an integer, [d.get(k, 0)] is the same integer. *)
Lemma int_item_get (d : stats_dict) (k : string) (n : Z) :
  Dict.int_item d k = Py.Ok n -> Dict.int_get d k = Py.Ok n.
Proof.
  unfold Dict.int_item, Dict.item, Dict.int_get.
  destruct (Dict.get d k); simpl; [auto | discriminate].
Qed.

(** Both quotients computed, then both converted: the outcome is the one of
    the two rates taken in turn. *)
Lemma quotients_then_conversions {A : Type} (dt : Py.float) (a b c d : Z)
    (k : Z -> Z -> Py.result A) :
  Py.gt0 dt = true ->
  (in_bps <~ Py.truediv ((a - b) * 8) dt ;;
   out_bps <~ Py.truediv ((c - d) * 8) dt ;;
   n <~ Py.int_of_float in_bps ;;
   m <~ Py.int_of_float out_bps ;;
   k n m)
  = (rin <~ rate_of dt a b ;; rout <~ rate_of dt c d ;; k rin rout).
Proof.
  intros G. unfold rate_of.
  pose proof (FloatFacts.truediv_gt0 ((a - b) * 8) dt G) as Ti.
  pose proof (FloatFacts.truediv_gt0 ((c - d) * 8) dt G) as To.
  destruct (Py.truediv ((a - b) * 8) dt) as [qi|ei]; cbn [Py.rbind];
    [|subst; reflexivity].
  pose proof (FloatFacts.int_of_float_signed _ qi Ti) as Ii.
  destruct (Py.truediv ((c - d) * 8) dt) as [qo|eo]; cbn [Py.rbind].
  - destruct (Py.int_of_float qi); reflexivity.
  - destruct (Py.int_of_float qi); cbn [Py.rbind]; subst; reflexivity.
Qed.

(** ** The rate functions, on a call that has a usable predecessor *)

Section RateEngine.

Variables (prev cur : stats_dict) (pt now : Py.float) (a b c d : Z).

Hypothesis prev_nonempty : Dict.truthy prev = true.
Hypothesis pt_nonzero : Py.float_truthy pt = true.
Hypothesis dt_positive : Py.gt0 (Py.sub now pt) = true.
Hypothesis cur_in : Dict.int_item cur "in-octets" = Py.Ok a.
Hypothesis prev_in : Dict.int_item prev "in-octets" = Py.Ok b.
Hypothesis cur_out : Dict.int_item cur "out-octets" = Py.Ok c.
Hypothesis prev_out : Dict.int_item prev "out-octets" = Py.Ok d.

(** The two guards of the rate functions hold, and the four counters are read. *)
Ltac rate_guards :=
  rewrite ?prev_nonempty, ?pt_nonzero, ?dt_positive; cbn [andb].

Ltac rate_reads :=
  rewrite ?cur_in, ?prev_in, ?cur_out, ?prev_out,
    ?(int_item_get _ _ _ cur_in), ?(int_item_get _ _ _ prev_in),
    ?(int_item_get _ _ _ cur_out), ?(int_item_get _ _ _ prev_out);
  cbn [Py.rbind].

Ltac rate_cases :=
  unfold computed_rate;
  repeat match goal with
         | |- context [rate_of ?dt ?x ?y] => destruct (rate_of dt x y); cbn [Py.rbind]
         end;
  try reflexivity.

Lemma snmp_v2_rate_computed :
  SnmpV2.calculate_traffic_rate
    {| Snmp.prev_stats := prev; Snmp.prev_timestamp := Some pt |} cur now
  = computed_rate (Py.sub now pt) a b c d
      {| Snmp.prev_stats := cur; Snmp.prev_timestamp := Some now |}.
Proof.
  unfold SnmpV2.calculate_traffic_rate.
  cbn [Snmp.prev_stats Snmp.prev_timestamp Py.opt_float_truthy].
  rate_guards. rate_reads. rewrite !bps_rate_of. rate_cases.
Qed.

Lemma snmp_v3_rate_computed :
  SnmpV3.calculate_traffic_rate
    {| Snmp.prev_stats := prev; Snmp.prev_timestamp := Some pt |} cur now
  = computed_rate (Py.sub now pt) a b c d
      {| Snmp.prev_stats := cur; Snmp.prev_timestamp := Some now |}.
Proof.
  unfold SnmpV3.calculate_traffic_rate.
  cbn [Snmp.prev_stats Snmp.prev_timestamp Py.opt_float_truthy].
  rate_guards. rate_reads. rewrite !bps_rate_of.
  unfold computed_rate. destruct (rate_of (Py.sub now pt) a b); cbn [Py.rbind];
    [|reflexivity].
  rate_reads. rewrite ?bps_rate_of. rate_cases.
Qed.

Lemma netconf_v2_rate_computed :
  NetconfV2.calculate_traffic_rate
    {| Nc.prev_stats := prev; Nc.prev_time := Some pt |} cur now
  = computed_rate (Py.sub now pt) a b c d
      {| Nc.prev_stats := cur; Nc.prev_time := Some now |}.
Proof.
  unfold NetconfV2.calculate_traffic_rate. cbn [Nc.prev_stats Nc.prev_time].
  rate_guards. rate_reads. rewrite !bps_rate_of.
  unfold computed_rate. destruct (rate_of (Py.sub now pt) a b); cbn [Py.rbind];
    [|reflexivity].
  rate_reads. rewrite ?bps_rate_of. rate_cases.
Qed.

Lemma stats_if_snmp_rate_computed :
  StatsIfSnmp.traffic_of prev (Some pt) cur now
  = (rin <~ rate_of (Py.sub now pt) a b ;;
     rout <~ rate_of (Py.sub now pt) c d ;;
     Py.Ok (rate_dict rin rout)).
Proof.
  unfold StatsIfSnmp.traffic_of. cbn [Py.opt_float_truthy].
  rate_guards. rate_reads.
  rewrite <- (quotients_then_conversions (Py.sub now pt) a b c d
                (fun n m => Py.Ok (rate_dict n m)) dt_positive).
  destruct (Py.truediv ((a - b) * 8) (Py.sub now pt)); cbn [Py.rbind]; [|reflexivity].
  rate_reads. reflexivity.
Qed.

(** The two scripts that catch the exceptions of the computation, where both
    rates are computed. *)
Lemma snmp_full_rate_computed (rin rout : Z) :
  rate_of (Py.sub now pt) a b = Py.Ok rin ->
  rate_of (Py.sub now pt) c d = Py.Ok rout ->
  SnmpFull.calculate_traffic_rate
    {| Snmp.prev_stats := prev; Snmp.prev_timestamp := Some pt |} cur now
  = (rate_dict rin rout,
     {| Snmp.prev_stats := cur; Snmp.prev_timestamp := Some now |}).
Proof.
  unfold rate_of. intros Hi Ho.
  unfold SnmpFull.calculate_traffic_rate, SnmpFull.rate_body.
  cbn [Snmp.prev_stats Snmp.prev_timestamp Py.opt_float_truthy].
  rate_guards. rate_reads.
  destruct (Py.truediv ((a - b) * 8) (Py.sub now pt)) as [qi|]; [|discriminate Hi].
  destruct (Py.truediv ((c - d) * 8) (Py.sub now pt)) as [qo|]; [|discriminate Ho].
  cbn [Py.rbind] in *. rewrite Hi, Ho. reflexivity.
Qed.

Lemma netconf_rate_computed (rin rout : Z) :
  rate_of (Py.sub now pt) a b = Py.Ok rin ->
  rate_of (Py.sub now pt) c d = Py.Ok rout ->
  Netconf.calculate_traffic_rate
    {| Nc.prev_stats := prev; Nc.prev_time := Some pt |} cur now
  = Py.Ok (rate_dict rin rout,
           {| Nc.prev_stats := cur; Nc.prev_time := Some now |}).
Proof.
  unfold rate_of. intros Hi Ho.
  unfold Netconf.calculate_traffic_rate, Netconf.rate_body.
  cbn [Nc.prev_stats Nc.prev_time Py.opt_float_truthy].
  rate_guards. rate_reads.
  destruct (Py.truediv ((a - b) * 8) (Py.sub now pt)) as [qi|]; [|discriminate Hi].
  destruct (Py.truediv ((c - d) * 8) (Py.sub now pt)) as [qo|]; [|discriminate Ho].
  cbn [Py.rbind] in *. rewrite Hi, Ho. reflexivity.
Qed.

End RateEngine.

(** ** The rate functions, on a call without a usable predecessor *)

Lemma snmp_v2_rate_default (self : Snmp.poll_state) (cur : stats_dict) (now : Py.float) :
  (forall pt, Snmp.prev_timestamp self = Some pt -> Py.gt0 (Py.sub now pt) = false) ->
  SnmpV2.calculate_traffic_rate self cur now
  = Py.Ok (Snmp.zero_rate,
           {| Snmp.prev_stats := cur; Snmp.prev_timestamp := Some now |}).
Proof.
  intros H. unfold SnmpV2.calculate_traffic_rate.
  destruct (Snmp.prev_timestamp self) as [pt|]; cbn [Py.opt_float_truthy].
  - rewrite (H pt eq_refl).
    destruct (Dict.truthy (Snmp.prev_stats self) && Py.float_truthy pt); reflexivity.
  - rewrite andb_false_r. reflexivity.
Qed.

Lemma snmp_full_rate_default (self : Snmp.poll_state) (cur : stats_dict) (now : Py.float) :
  (forall pt, Snmp.prev_timestamp self = Some pt -> Py.gt0 (Py.sub now pt) = false) ->
  SnmpFull.calculate_traffic_rate self cur now
  = (Snmp.zero_rate,
     {| Snmp.prev_stats := cur; Snmp.prev_timestamp := Some now |}).
Proof.
  intros H. unfold SnmpFull.calculate_traffic_rate.
  destruct (Snmp.prev_timestamp self) as [pt|]; cbn [Py.opt_float_truthy].
  - rewrite (H pt eq_refl).
    destruct (Dict.truthy (Snmp.prev_stats self) && Py.float_truthy pt); reflexivity.
  - rewrite andb_false_r. reflexivity.
Qed.

Lemma netconf_v2_rate_default (self : Nc.poll_state) (cur : stats_dict) (now : Py.float) :
  (forall pt, Nc.prev_time self = Some pt -> Py.gt0 (Py.sub now pt) = false) ->
  NetconfV2.calculate_traffic_rate self cur now
  = Py.Ok (Snmp.zero_rate, {| Nc.prev_stats := cur; Nc.prev_time := Some now |}).
Proof.
  intros H. unfold NetconfV2.calculate_traffic_rate.
  destruct (Nc.prev_time self) as [pt|].
  - rewrite (H pt eq_refl).
    destruct (Py.float_truthy pt); reflexivity.
  - reflexivity.
Qed.

(** * The claims of the specification, and the facts they rest on *)

(** ** The rate engine *)

(** C1, as stated, fails: with [prev.inOctets = 5000], [curr.inOctets = 100]
    and five seconds between the samples, [calculate_traffic_rate] of
    [if-stats-snmp-v2.py] and of [if-stats-netconf-v2.py] reports
    ["-7840"], not ["0"]. The state afterwards holds the current sample. *)
Lemma regression_rate_is_negative :
  SnmpV2.calculate_traffic_rate
    {| Snmp.prev_stats := sample "5000" "700"; Snmp.prev_timestamp := Some (secs 10) |}
    (sample "100" "700") (secs 15)
  = Py.Ok ([("in-bps", Py.VStr "-7840"); ("out-bps", Py.VStr "0")],
           {| Snmp.prev_stats := sample "100" "700";
              Snmp.prev_timestamp := Some (secs 15) |})
  /\
  NetconfV2.calculate_traffic_rate
    {| Nc.prev_stats := sample "5000" "700"; Nc.prev_time := Some (secs 10) |}
    (sample "100" "700") (secs 15)
  = Py.Ok ([("in-bps", Py.VStr "-7840"); ("out-bps", Py.VStr "0")],
           {| Nc.prev_stats := sample "100" "700"; Nc.prev_time := Some (secs 15) |}).
Proof. split; vm_compute; reflexivity. Qed.

(** C1, amended: on a call where a previous sample exists and [dt > 0], the
    reported rates are [int((curr - prev) * 8 / dt)] for each direction, as
    the interpreter evaluates it: the quotient is a float, rounded toward
    zero. Where the current [in-octets] (or [out-octets]) is smaller than the
    previous one the rate of that direction is never positive, and it is not
    clamped. The state afterwards holds the current sample and time. The call
    raises only when a division overflows ([OverflowError]); the state is
    then not replaced. *)
Theorem regression_rate_not_clamped
    (prev cur : stats_dict) (pt now : Py.float) (a b c d : Z) :
  Dict.truthy prev = true -> Py.float_truthy pt = true ->
  Py.gt0 (Py.sub now pt) = true ->
  Dict.int_item cur "in-octets" = Py.Ok a ->
  Dict.int_item prev "in-octets" = Py.Ok b ->
  Dict.int_item cur "out-octets" = Py.Ok c ->
  Dict.int_item prev "out-octets" = Py.Ok d ->
  let dt := Py.sub now pt in
  SnmpV2.calculate_traffic_rate
    {| Snmp.prev_stats := prev; Snmp.prev_timestamp := Some pt |} cur now
  = computed_rate dt a b c d
      {| Snmp.prev_stats := cur; Snmp.prev_timestamp := Some now |}
  /\
  NetconfV2.calculate_traffic_rate
    {| Nc.prev_stats := prev; Nc.prev_time := Some pt |} cur now
  = computed_rate dt a b c d {| Nc.prev_stats := cur; Nc.prev_time := Some now |}
  /\ (forall r, rate_of dt a b = Py.Ok r ->
        (a < b -> r <= 0)
        /\ exists x q, Py.truediv ((a - b) * 8) dt = Py.Ok x
                       /\ float_value x = Some q /\ rounds_toward_zero r q)
  /\ (forall r, rate_of dt c d = Py.Ok r ->
        (c < d -> r <= 0)
        /\ exists x q, Py.truediv ((c - d) * 8) dt = Py.Ok x
                       /\ float_value x = Some q /\ rounds_toward_zero r q)
  /\ (forall e, rate_of dt a b = Py.Raise e \/ rate_of dt c d = Py.Raise e ->
        e = Py.OverflowError).
Proof.
  intros Hprev Hpt Hdt Ha Hb Hc Hd dt.
  split; [| split; [| split; [| split]]].
  - now apply snmp_v2_rate_computed.
  - now apply netconf_v2_rate_computed.
  - intros r Hr. split; [|exact (rate_of_spec dt a b r Hr)].
    intros Hlt. pose proof (rate_of_cases dt a b Hdt) as C. rewrite Hr in C.
    apply C. lia.
  - intros r Hr. split; [|exact (rate_of_spec dt c d r Hr)].
    intros Hlt. pose proof (rate_of_cases dt c d Hdt) as C. rewrite Hr in C.
    apply C. lia.
  - intros e [H | H]; exact (rate_of_exn dt _ _ e Hdt H).
Qed.

(** The amended C1 at the reset of the specification's example: the rate
    reported is [-7840]. *)
Lemma regression_rate_not_clamped_witness :
  SnmpV2.calculate_traffic_rate
    {| Snmp.prev_stats := sample "5000" "700"; Snmp.prev_timestamp := Some (secs 10) |}
    (sample "100" "700") (secs 15)
  = computed_rate (Py.sub (secs 15) (secs 10)) 100 5000 700 700
      {| Snmp.prev_stats := sample "100" "700"; Snmp.prev_timestamp := Some (secs 15) |}
  /\ rate_of (Py.sub (secs 15) (secs 10)) 100 5000 = Py.Ok (-7840)
  /\ -7840 <= 0.
Proof.
  destruct (regression_rate_not_clamped (sample "5000" "700") (sample "100" "700")
              (secs 10) (secs 15) 100 5000 700 700) as (H1 & _ & H2 & _);
    [reflexivity | reflexivity | reflexivity | reflexivity | reflexivity
    | reflexivity | reflexivity |].
  split; [exact H1|].
  assert (R : rate_of (Py.sub (secs 15) (secs 10)) 100 5000 = Py.Ok (-7840))
    by (vm_compute; reflexivity).
  split; [exact R|]. apply (H2 (-7840) R). lia.
Defined.

(** C2, as stated, fails: with [dt = 0] the call of [if-stats-snmp-v2.py] and
    of [if-stats-snmp-full.py] returns the rate dictionary
    [{'in-bps': '0', 'out-bps': '0'}], and the state afterwards holds the
    current sample, not the previous one. *)
Lemma zero_dt_overwrites_state :
  let self := {| Snmp.prev_stats := sample "1000" "1000";
                 Snmp.prev_timestamp := Some (secs 10) |} in
  let cur := sample "2000" "2000" in
  let after := {| Snmp.prev_stats := cur; Snmp.prev_timestamp := Some (secs 10) |} in
  SnmpV2.calculate_traffic_rate self cur (secs 10) = Py.Ok (Snmp.zero_rate, after)
  /\ SnmpFull.calculate_traffic_rate self cur (secs 10) = (Snmp.zero_rate, after)
  /\ Snmp.prev_stats after <> Snmp.prev_stats self.
Proof. repeat split; try (vm_compute; reflexivity). discriminate. Qed.

(** C2, amended: on a call where a previous sample exists and [dt] is zero or
    negative, [calculate_traffic_rate] returns the default rate
    [{'in-bps': '0', 'out-bps': '0'}] and overwrites the state with the
    current sample and time. *)
Theorem degenerate_dt_returns_zero_rate_and_overwrites
    (self : Snmp.poll_state) (cur : stats_dict) (now pt : Py.float) :
  Snmp.prev_timestamp self = Some pt -> Py.le0 (Py.sub now pt) = true ->
  SnmpV2.calculate_traffic_rate self cur now
  = Py.Ok (Snmp.zero_rate,
           {| Snmp.prev_stats := cur; Snmp.prev_timestamp := Some now |})
  /\
  SnmpFull.calculate_traffic_rate self cur now
  = (Snmp.zero_rate,
     {| Snmp.prev_stats := cur; Snmp.prev_timestamp := Some now |}).
Proof.
  intros Hpt Hdt.
  assert (H : forall pt', Snmp.prev_timestamp self = Some pt' ->
                          Py.gt0 (Py.sub now pt') = false).
  { intros pt' E. rewrite Hpt in E. injection E as <-.
    exact (FloatFacts.le0_not_gt0 _ Hdt). }
  split; [now apply snmp_v2_rate_default | now apply snmp_full_rate_default].
Qed.

(** The amended C2 on a clock that went back by three seconds. *)
Lemma degenerate_dt_witness :
  SnmpV2.calculate_traffic_rate
    {| Snmp.prev_stats := sample "1000" "1000"; Snmp.prev_timestamp := Some (secs 10) |}
    (sample "2000" "2000") (secs 7)
  = Py.Ok (Snmp.zero_rate,
           {| Snmp.prev_stats := sample "2000" "2000";
              Snmp.prev_timestamp := Some (secs 7) |}).
Proof.
  apply (degenerate_dt_returns_zero_rate_and_overwrites
           {| Snmp.prev_stats := sample "1000" "1000";
              Snmp.prev_timestamp := Some (secs 10) |}
           (sample "2000" "2000") (secs 7) (secs 10));
    reflexivity.
Defined.

(** A difference of the readings that is not a number does not pass the test
    [dt > 0] either. *)
Lemma nan_dt_returns_zero_rate (self : Snmp.poll_state) (cur : stats_dict)
    (now pt : Py.float) :
  Snmp.prev_timestamp self = Some pt -> Py.sub now pt = S754_nan ->
  SnmpV2.calculate_traffic_rate self cur now
  = Py.Ok (Snmp.zero_rate,
           {| Snmp.prev_stats := cur; Snmp.prev_timestamp := Some now |}).
Proof.
  intros Hpt Hdt. apply snmp_v2_rate_default.
  intros pt' E. rewrite Hpt in E. injection E as <-. rewrite Hdt. reflexivity.
Qed.

(** The first pass of [monitor], from the state that [__init__] sets: the
    zero rate is written after the sample. *)
Lemma snmp_v2_first_pass (sess : Snmp.session) (target : string) (idx : Z)
    (iso : Py.time -> string) (now : Py.time) (stats : stats_dict) (l l' : Snmp.log)
    (f : Snmp.file) :
  SnmpV2.get_interface_stats sess idx l = (Py.Ok stats, l') ->
  SnmpV2.monitor_cycle sess target idx iso now Snmp.initial_state f l
  = (Py.Ok ({| Snmp.prev_stats := stats; Snmp.prev_timestamp := Some (Py.seconds now) |},
            (f ++ [SnmpV2.format_output target idx iso "statistics" stats now;
                   SnmpV2.format_output target idx iso "traffic-rate" Snmp.zero_rate
                     now])%list), l').
Proof.
  intros H. unfold SnmpV2.monitor_cycle, Eff.bind. rewrite H.
  unfold Eff.lift, Eff.ret, Snmp.dump_line. cbn. rewrite <- List.app_assoc. reflexivity.
Qed.

Lemma netconf_v2_first_pass (mgr : Nc.manager) (i : string) (ts now : Py.time)
    (stats : stats_dict) (l l' : Nc.log) (f : Nc.file) (out : Json.t) :
  NetconfV2.get_interface_stats mgr i l = (Py.Ok stats, l') ->
  NetconfV2.output i ts stats Snmp.zero_rate = Py.Ok out ->
  NetconfV2.monitor_cycle mgr i ts now Nc.initial_state f l
  = (Py.Ok ({| Nc.prev_stats := stats; Nc.prev_time := Some (Py.seconds now) |},
            (f ++ [out])%list), l').
Proof.
  intros H O. unfold NetconfV2.monitor_cycle, Eff.bind. rewrite H.
  unfold Eff.lift. cbn [NetconfV2.calculate_traffic_rate Nc.initial_state Nc.prev_time
                        Py.rbind Dict.copy].
  rewrite O. reflexivity.
Qed.

(** C3, as stated, fails: the very first call returns the rate dictionary
    [{'in-bps': '0', 'out-bps': '0'}], and the first pass of [monitor] writes
    it out as a traffic-rate record. *)
Lemma first_call_returns_zero_rate :
  SnmpV2.calculate_traffic_rate Snmp.initial_state (sample "1000" "1000") (secs 10)
  = Py.Ok ([("in-bps", Py.VStr "0"); ("out-bps", Py.VStr "0")],
           {| Snmp.prev_stats := sample "1000" "1000";
              Snmp.prev_timestamp := Some (secs 10) |})
  /\
  NetconfV2.calculate_traffic_rate Nc.initial_state (sample "1000" "1000") (secs 10)
  = Py.Ok ([("in-bps", Py.VStr "0"); ("out-bps", Py.VStr "0")],
           {| Nc.prev_stats := sample "1000" "1000"; Nc.prev_time := Some (secs 10) |})
  /\
  Eff.run_file (SnmpV2.monitor no_time [(constant_session "1000", clock 10)])
  = [SnmpV2.format_output SnmpV2.TARGET SnmpV2.INTERFACE_INDEX
       no_time "statistics" all_1000_stats (clock 10);
     SnmpV2.format_output SnmpV2.TARGET SnmpV2.INTERFACE_INDEX
       no_time "traffic-rate"
       [("in-bps", Py.VStr "0"); ("out-bps", Py.VStr "0")] (clock 10)].
Proof. repeat split; vm_compute; reflexivity. Qed.

(** C3, amended: the very first call (no previous sample) records the sample
    as state and returns the default rate [{'in-bps': '0', 'out-bps': '0'}],
    and the first pass of [monitor], when its fetch returns a sample, writes
    that rate out as a traffic-rate record after the statistics record. The
    second call, when the first sample is not empty, the first timestamp is
    not zero, [dt > 0] and the octet counters are integers, returns the
    computed rates and records the second sample, unless a division
    overflows: it then raises [OverflowError]. *)
Theorem first_call_zero_rate_second_call_rate
    (cur1 cur2 : stats_dict) (t1 t2 : Py.float) (a b c d : Z) :
  Dict.truthy cur1 = true -> Py.float_truthy t1 = true ->
  Py.gt0 (Py.sub t2 t1) = true ->
  Dict.int_item cur2 "in-octets" = Py.Ok a ->
  Dict.int_item cur1 "in-octets" = Py.Ok b ->
  Dict.int_item cur2 "out-octets" = Py.Ok c ->
  Dict.int_item cur1 "out-octets" = Py.Ok d ->
  let s1 := {| Snmp.prev_stats := cur1; Snmp.prev_timestamp := Some t1 |} in
  let n1 := {| Nc.prev_stats := cur1; Nc.prev_time := Some t1 |} in
  let dt := Py.sub t2 t1 in
  SnmpV2.calculate_traffic_rate Snmp.initial_state cur1 t1
    = Py.Ok (Snmp.zero_rate, s1)
  /\ SnmpV2.calculate_traffic_rate s1 cur2 t2
    = computed_rate dt a b c d
        {| Snmp.prev_stats := cur2; Snmp.prev_timestamp := Some t2 |}
  /\ NetconfV2.calculate_traffic_rate Nc.initial_state cur1 t1
    = Py.Ok (Snmp.zero_rate, n1)
  /\ NetconfV2.calculate_traffic_rate n1 cur2 t2
    = computed_rate dt a b c d {| Nc.prev_stats := cur2; Nc.prev_time := Some t2 |}
  /\ (forall e, rate_of dt a b = Py.Raise e \/ rate_of dt c d = Py.Raise e ->
        e = Py.OverflowError)
  /\ (forall sess target idx iso now stats l',
        SnmpV2.get_interface_stats sess idx [] = (Py.Ok stats, l') ->
        SnmpV2.monitor_loop target idx iso [(sess, now)] Snmp.initial_state [] []
        = {| Eff.run_end := Eff.Interrupted;
             Eff.run_state := {| Snmp.prev_stats := stats;
                                 Snmp.prev_timestamp := Some (Py.seconds now) |};
             Eff.run_file :=
               [SnmpV2.format_output target idx iso "statistics" stats now;
                SnmpV2.format_output target idx iso "traffic-rate" Snmp.zero_rate now];
             Eff.run_world := l' |})
  /\ (forall mgr i ts now stats l' out,
        NetconfV2.get_interface_stats mgr i [] = (Py.Ok stats, l') ->
        NetconfV2.output i ts stats Snmp.zero_rate = Py.Ok out ->
        NetconfV2.monitor_loop i [(mgr, ts, now)] Nc.initial_state [] []
        = {| Eff.run_end := Eff.Interrupted;
             Eff.run_state := {| Nc.prev_stats := stats;
                                 Nc.prev_time := Some (Py.seconds now) |};
             Eff.run_file := [out];
             Eff.run_world := l' |}).
Proof.
  intros Hne Ht1 Hdt Ha Hb Hc Hd s1 n1 dt.
  split; [| split; [| split; [| split; [| split; [| split]]]]].
  - apply snmp_v2_rate_default. intros pt' E. discriminate E.
  - now apply snmp_v2_rate_computed.
  - apply netconf_v2_rate_default. intros pt' E. discriminate E.
  - now apply netconf_v2_rate_computed.
  - intros e [H | H]; exact (rate_of_exn dt _ _ e Hdt H).
  - intros sess target idx iso now stats l' H. cbn [SnmpV2.monitor_loop].
    rewrite (snmp_v2_first_pass sess target idx iso now stats [] l' [] H). reflexivity.
  - intros mgr i ts now stats l' out H O. cbn [NetconfV2.monitor_loop].
    rewrite (netconf_v2_first_pass mgr i ts now stats [] l' [] out H O). reflexivity.
Qed.

(** The amended C3 on the samples [0] and [8000] taken five seconds apart. *)
Lemma first_then_second_call_witness :
  SnmpV2.calculate_traffic_rate
    {| Snmp.prev_stats := sample "0" "0"; Snmp.prev_timestamp := Some (secs 5) |}
    (sample "8000" "0") (secs 10)
  = Py.Ok ([("in-bps", Py.VStr "12800"); ("out-bps", Py.VStr "0")],
           {| Snmp.prev_stats := sample "8000" "0";
              Snmp.prev_timestamp := Some (secs 10) |}).
Proof.
  destruct (first_call_zero_rate_second_call_rate (sample "0" "0") (sample "8000" "0")
              (secs 5) (secs 10) 8000 0 0 0) as (_ & H & _);
    [reflexivity | reflexivity | reflexivity | reflexivity | reflexivity
    | reflexivity | reflexivity |].
  rewrite H. vm_compute. reflexivity.
Defined.

(** C6, as stated, fails: the quotient is a binary64 float, rounded to the
    nearest, before [int] truncates it. With a previous sample of [0] octets,
    a current one of [343408657] and [dt = 5 + 2^-22] seconds (the readings
    [1.0] and [6.000000238418579]), the scripts report [549453825], where
    [delta * 8 / dt] rounded toward zero is [549453824]. *)
Lemma rate_differs_from_exact_quotient :
  let pt := secs 1 in
  let now := Py.dyadic 25165825 (-22) in
  SnmpV2.calculate_traffic_rate
    {| Snmp.prev_stats := sample "0" "0"; Snmp.prev_timestamp := Some pt |}
    (sample "343408657" "0") now
  = Py.Ok ([("in-bps", Py.VStr "549453825"); ("out-bps", Py.VStr "0")],
           {| Snmp.prev_stats := sample "343408657" "0";
              Snmp.prev_timestamp := Some now |})
  /\ StatsIfSnmp.traffic_of (sample "0" "0") (Some pt) (sample "343408657" "0") now
     = Py.Ok [("in-bps", Py.VStr "549453825"); ("out-bps", Py.VStr "0")]
  /\ exists dt, float_value (Py.sub now pt) = Some dt
                /\ (dt == 5 + (1 # 4194304))%Q
                /\ exact_rate dt (343408657 - 0) = 549453824.
Proof.
  split; [vm_compute; reflexivity|]. split; [vm_compute; reflexivity|].
  eexists. split; [vm_compute; reflexivity|].
  split; vm_compute; reflexivity.
Qed.

(** The rate as the specification words it is the exact quotient rounded
    toward zero. *)
Lemma exact_rate_rounds (dt : Q) (delta : Z) :
  rounds_toward_zero (exact_rate dt delta) (inject_Z (delta * 8) / dt).
Proof. unfold exact_rate. apply FloatFacts.quot_rounds. Qed.

(** C6, amended: on a call with a previous sample, [dt > 0] and non-negative
    deltas, the reported rates are [int(delta * 8 / dt)] as the interpreter
    evaluates it, in [if-stats-snmp-v2.py] and in the loop of
    [stats-if-snmp.py]: [delta * 8] is converted to a float, the quotient is
    rounded to a float, and that float is rounded toward zero. The rates are
    not negative. The call raises only when a division overflows. *)
Theorem rate_is_delta_times_eight_over_dt
    (prev cur : stats_dict) (pt now : Py.float) (a b c d : Z) :
  Dict.truthy prev = true -> Py.float_truthy pt = true ->
  Py.gt0 (Py.sub now pt) = true ->
  Dict.int_item cur "in-octets" = Py.Ok a ->
  Dict.int_item prev "in-octets" = Py.Ok b ->
  Dict.int_item cur "out-octets" = Py.Ok c ->
  Dict.int_item prev "out-octets" = Py.Ok d ->
  b <= a -> d <= c ->
  let dt := Py.sub now pt in
  SnmpV2.calculate_traffic_rate
    {| Snmp.prev_stats := prev; Snmp.prev_timestamp := Some pt |} cur now
  = computed_rate dt a b c d
      {| Snmp.prev_stats := cur; Snmp.prev_timestamp := Some now |}
  /\ StatsIfSnmp.traffic_of prev (Some pt) cur now
     = (rin <~ rate_of dt a b ;; rout <~ rate_of dt c d ;; Py.Ok (rate_dict rin rout))
  /\ (forall r, rate_of dt a b = Py.Ok r ->
        0 <= r
        /\ exists x q, Py.truediv ((a - b) * 8) dt = Py.Ok x
                       /\ float_value x = Some q /\ rounds_toward_zero r q)
  /\ (forall r, rate_of dt c d = Py.Ok r ->
        0 <= r
        /\ exists x q, Py.truediv ((c - d) * 8) dt = Py.Ok x
                       /\ float_value x = Some q /\ rounds_toward_zero r q)
  /\ (forall e, rate_of dt a b = Py.Raise e \/ rate_of dt c d = Py.Raise e ->
        e = Py.OverflowError).
Proof.
  intros Hprev Hpt Hdt Ha Hb Hc Hd Hab Hcd dt.
  split; [| split; [| split; [| split]]].
  - now apply snmp_v2_rate_computed.
  - now apply stats_if_snmp_rate_computed.
  - intros r Hr. split; [|exact (rate_of_spec dt a b r Hr)].
    pose proof (rate_of_cases dt a b Hdt) as C. rewrite Hr in C. apply C. exact Hab.
  - intros r Hr. split; [|exact (rate_of_spec dt c d r Hr)].
    pose proof (rate_of_cases dt c d Hdt) as C. rewrite Hr in C. apply C. exact Hcd.
  - intros e [H | H]; exact (rate_of_exn dt _ _ e Hdt H).
Qed.

(** The amended C6 on the specification's example: [prev.inOctets = 1000],
    [curr.inOctets = 2000] and [dt = 5] give [in-bps = 1600]. *)
Lemma rate_1600_witness :
  SnmpV2.calculate_traffic_rate
    {| Snmp.prev_stats := sample "1000" "300"; Snmp.prev_timestamp := Some (secs 10) |}
    (sample "2000" "300") (secs 15)
  = Py.Ok ([("in-bps", Py.VStr "1600"); ("out-bps", Py.VStr "0")],
           {| Snmp.prev_stats := sample "2000" "300";
              Snmp.prev_timestamp := Some (secs 15) |}).
Proof.
  destruct (rate_is_delta_times_eight_over_dt (sample "1000" "300") (sample "2000" "300")
              (secs 10) (secs 15) 2000 1000 300 300) as (H & _);
    [reflexivity | reflexivity | reflexivity | reflexivity | reflexivity
    | reflexivity | reflexivity | lia | lia |].
  rewrite H. vm_compute. reflexivity.
Defined.

(** The test on [self.prev_timestamp] is a test of truth: a previous sample
    taken at the time [0.0] does not count as a predecessor, and the rate of
    the next call is the default one. *)
Lemma zero_timestamp_is_no_predecessor :
  SnmpV2.calculate_traffic_rate
    {| Snmp.prev_stats := sample "0" "0"; Snmp.prev_timestamp := Some (secs 0) |}
    (sample "8000" "0") (secs 5)
  = Py.Ok ([("in-bps", Py.VStr "0"); ("out-bps", Py.VStr "0")],
           {| Snmp.prev_stats := sample "8000" "0";
              Snmp.prev_timestamp := Some (secs 5) |}).
Proof. vm_compute. reflexivity. Qed.

(** Three cycles of [monitor], five seconds apart, on a device whose counters
    read 0, 8000 and 24000: the rates written are 0, 12800 and 25600. *)
Lemma three_cycles_rates :
  in_bps_written
    (Eff.run_file
       (SnmpV2.monitor no_time
          [(constant_session "0", clock 5); (constant_session "8000", clock 10);
           (constant_session "24000", clock 15)]))
  = [Json.JStr "0"; Json.JStr "12800"; Json.JStr "25600"].
Proof. vm_compute. reflexivity. Qed.

(** The timestamp of a record is computed in binary64 too: the reading
    [1700000000.25] is written as [1700000000249999872]. *)
Lemma nanos_are_rounded :
  option_map Py.nanos (Py.time_of (Py.dyadic 6800000001 (-2)))
  = Some 1700000000249999872.
Proof. vm_compute. reflexivity. Qed.

(** ** The fetches, through their views *)

(** [get_snmp_value] of the v2 script never raises: it returns the value of the
    view and logs the request. *)
Lemma snmp_v2_get_value (sess : Snmp.session) (idx : Z) (ob : string) (l : Snmp.log) :
  SnmpV2.get_snmp_value sess idx ob l
  = (Py.Ok (snmp_v2_value sess idx ob), (l ++ [oid_of idx ob])%list).
Proof.
  unfold SnmpV2.get_snmp_value, Eff.try_except, Eff.bind, Snmp.session_get,
    snmp_v2_value, oid_of.
  destruct (sess (ob ++ "." ++ Py.str idx)) as [[v|]|e]; try reflexivity.
  destruct (String.eqb v "NOSUCHINSTANCE"); reflexivity.
Qed.

Lemma snmp_v2_fetch_into (sess : Snmp.session) (idx : Z) (stats : stats_dict)
    (key ob : string) (l : Snmp.log) :
  SnmpV2.fetch_into sess idx stats key ob l
  = (Py.Ok (Dict.set stats key (Py.VStr (snmp_v2_value sess idx ob))),
     (l ++ [oid_of idx ob])%list).
Proof.
  unfold SnmpV2.fetch_into, Eff.bind. rewrite snmp_v2_get_value. reflexivity.
Qed.

(** The requests of one [get_interface_stats], in order. *)
Lemma snmp_v2_stats_log (sess : Snmp.session) (idx : Z) :
  snd (SnmpV2.get_interface_stats sess idx [])
  = oids_of idx (if hc_both_zero sess idx then legacy_bases else hc_bases).
Proof.
  unfold SnmpV2.get_interface_stats, hc_both_zero, IF_HC_IN_OCTETS, IF_HC_OUT_OCTETS.
  unfold Eff.bind at 1. rewrite snmp_v2_get_value.
  unfold Eff.bind at 1. rewrite snmp_v2_get_value.
  destruct (String.eqb (snmp_v2_value sess idx ".1.3.6.1.2.1.31.1.1.1.6") "0");
  destruct (String.eqb (snmp_v2_value sess idx ".1.3.6.1.2.1.31.1.1.1.10") "0");
    cbn [negb orb andb];
    unfold Eff.bind; rewrite !snmp_v2_fetch_into;
    unfold Eff.lift, Eff.ret;
    repeat match goal with
           | |- context [SnmpV2.total ?s ?a ?b ?c] => destruct (SnmpV2.total s a b c)
           end; reflexivity.
Qed.

(** The legacy octet counter is requested exactly when both high-capacity
    octet reads are the string 0. *)
Lemma legacy_oid_requested (sess : Snmp.session) (idx : Z) :
  In (oid_of idx IF_IN_OCTETS) (snd (SnmpV2.get_interface_stats sess idx []))
  <-> hc_both_zero sess idx = true.
Proof.
  rewrite snmp_v2_stats_log. destruct (hc_both_zero sess idx).
  - split; [reflexivity | intros _]. simpl. auto.
  - split; [| discriminate]. unfold oids_of, hc_bases, oid_of, IF_IN_OCTETS. simpl.
    intros H. repeat (destruct H as [H|H]; [discriminate H|]). contradiction.
Qed.

(** Each NETCONF adapter sends one request and returns the value of its view;
    it never raises. *)
Lemma netconf_v2_openconfig_run (mgr : Nc.manager) (i : string) (l : Nc.log) :
  NetconfV2.get_interface_stats_openconfig mgr i l
  = (Py.Ok (netconf_v2_openconfig mgr i), (l ++ [oc_rpc i])%list).
Proof.
  unfold NetconfV2.get_interface_stats_openconfig, Eff.try_except, Eff.bind,
    Nc.manager_get, netconf_v2_openconfig, oc_rpc.
  destruct (mgr _); reflexivity.
Qed.

Lemma netconf_v2_ietf_run (mgr : Nc.manager) (i : string) (l : Nc.log) :
  NetconfV2.get_interface_stats_ietf mgr i l
  = (Py.Ok (netconf_v2_ietf mgr i), (l ++ [ietf_rpc i])%list).
Proof.
  unfold NetconfV2.get_interface_stats_ietf, Eff.try_except, Eff.bind,
    Nc.manager_get, netconf_v2_ietf, ietf_rpc.
  destruct (mgr _); reflexivity.
Qed.

Lemma netconf_openconfig_run (mgr : Nc.manager) (i : string)
    (wdf : string -> Py.result unit) (l : Nc.log) :
  Netconf.get_interface_stats_openconfig mgr i wdf l
  = (Py.Ok (netconf_openconfig mgr i wdf), (l ++ [oc_rpc i])%list).
Proof.
  unfold Netconf.get_interface_stats_openconfig, Eff.try_except, Eff.bind,
    Nc.manager_get, Eff.lift, netconf_openconfig, oc_rpc.
  destruct (mgr _); [|reflexivity]. destruct (wdf _); reflexivity.
Qed.

Lemma netconf_ietf_run (mgr : Nc.manager) (i : string)
    (wdf : string -> Py.result unit) (l : Nc.log) :
  Netconf.get_interface_stats_ietf mgr i wdf l
  = (Py.Ok (netconf_ietf mgr i wdf), (l ++ [ietf_rpc i])%list).
Proof.
  unfold Netconf.get_interface_stats_ietf, Eff.try_except, Eff.bind,
    Nc.manager_get, Eff.lift, netconf_ietf, ietf_rpc.
  destruct (mgr _); [|reflexivity]. destruct (wdf _); reflexivity.
Qed.

(** The resolver of [if-stats-netconf-v2.py]: what it returns and what it
    requests. *)
Lemma netconf_v2_stats_run (mgr : Nc.manager) (i : string) (l : Nc.log) :
  NetconfV2.get_interface_stats mgr i l
  = if Nc.truthy (netconf_v2_openconfig mgr i)
    then (Py.Ok (match netconf_v2_openconfig mgr i with
                 | Some d => d
                 | None => Nc.no_data i
                 end), (l ++ [oc_rpc i])%list)
    else (Py.Ok (if Nc.truthy (netconf_v2_ietf mgr i)
                 then match netconf_v2_ietf mgr i with
                      | Some d => d
                      | None => Nc.no_data i
                      end
                 else Nc.no_data i), (l ++ [oc_rpc i; ietf_rpc i])%list).
Proof.
  assert (A : ((l ++ [oc_rpc i]) ++ [ietf_rpc i] = l ++ [oc_rpc i; ietf_rpc i])%list)
    by (rewrite <- List.app_assoc; reflexivity).
  unfold NetconfV2.get_interface_stats.
  unfold Eff.bind at 1. rewrite netconf_v2_openconfig_run.
  destruct (netconf_v2_openconfig mgr i) as [d|] eqn:E; cbn [Nc.truthy].
  - destruct (Dict.truthy d) eqn:T; cbn [negb].
    + unfold Eff.bind, Eff.ret. rewrite T. reflexivity.
    + unfold Eff.bind. rewrite netconf_v2_ietf_run, A.
      destruct (netconf_v2_ietf mgr i) as [d'|]; cbn [Nc.truthy]; [|reflexivity].
      destruct (Dict.truthy d'); reflexivity.
  - cbn [negb]. unfold Eff.bind. rewrite netconf_v2_ietf_run, A.
    destruct (netconf_v2_ietf mgr i) as [d'|]; cbn [Nc.truthy]; [|reflexivity].
    destruct (Dict.truthy d'); reflexivity.
Qed.

(** The requests of the resolver of [if-stats-netconf.py]. *)
Lemma netconf_stats_log (mgr : Nc.manager) (i : string)
    (wdf : string -> Py.result unit) :
  snd (Netconf.get_interface_stats mgr i wdf [])
  = match Netconf.wants_ietf (netconf_openconfig mgr i wdf) with
    | Py.Ok true => [oc_rpc i; ietf_rpc i]
    | _ => [oc_rpc i]
    end.
Proof.
  unfold Netconf.get_interface_stats.
  unfold Eff.bind at 1. rewrite netconf_openconfig_run.
  unfold Eff.bind at 1. unfold Eff.lift at 1.
  destruct (Netconf.wants_ietf (netconf_openconfig mgr i wdf)) as [[|]|e]; [| |reflexivity].
  - unfold Eff.bind. rewrite netconf_ietf_run.
    destruct (netconf_ietf mgr i wdf) as [d|]; [|reflexivity].
    destruct (Dict.truthy d); reflexivity.
  - unfold Eff.bind, Eff.ret.
    destruct (netconf_openconfig mgr i wdf) as [d|]; [|reflexivity].
    destruct (Dict.truthy d); reflexivity.
Qed.


(** When the guard of the fallback of [if-stats-netconf.py] holds. *)
Lemma wants_ietf_true (s : option stats_dict) :
  Netconf.wants_ietf s = Py.Ok true
  <-> Nc.truthy s = false
      \/ exists d, s = Some d /\ Dict.int_get d "in-octets" = Py.Ok 0.
Proof.
  unfold Netconf.wants_ietf, Nc.truthy. destruct s as [d|].
  - destruct (Dict.truthy d) eqn:T.
    + split.
      * destruct (Dict.int_get d "in-octets") as [n|e] eqn:E; simpl; [|discriminate].
        intros H. injection H as H. apply Z.eqb_eq in H. subst n.
        right. exists d. auto.
      * intros [H | (d' & E & H)]; [discriminate|]. injection E as <-.
        rewrite H. reflexivity.
    + split; auto.
  - split; auto.
Qed.

(** ** The fallback between adapters *)


(** What the resolver of [if-stats-snmp-v2.py] returns, when it returns: the
    octet counters of the sample are the legacy ones when both high-capacity
    reads are ["0"], the high-capacity ones otherwise. *)
Lemma snmp_v2_stats_octets (sess : Snmp.session) (idx : Z) (stats : stats_dict) :
  fst (SnmpV2.get_interface_stats sess idx []) = Py.Ok stats ->
  Dict.get stats "in-octets"
  = Some (Py.VStr (snmp_v2_value sess idx
                     (if hc_both_zero sess idx then IF_IN_OCTETS else IF_HC_IN_OCTETS)))
  /\ Dict.get stats "out-octets"
     = Some (Py.VStr (snmp_v2_value sess idx
                        (if hc_both_zero sess idx then IF_OUT_OCTETS
                         else IF_HC_OUT_OCTETS))).
Proof.
  unfold SnmpV2.get_interface_stats, hc_both_zero, IF_HC_IN_OCTETS, IF_HC_OUT_OCTETS,
    IF_IN_OCTETS, IF_OUT_OCTETS.
  unfold Eff.bind at 1. rewrite snmp_v2_get_value.
  unfold Eff.bind at 1. rewrite snmp_v2_get_value.
  destruct (String.eqb (snmp_v2_value sess idx ".1.3.6.1.2.1.31.1.1.1.6") "0");
  destruct (String.eqb (snmp_v2_value sess idx ".1.3.6.1.2.1.31.1.1.1.10") "0");
    cbn [negb orb andb];
    unfold Eff.bind; rewrite !snmp_v2_fetch_into;
    unfold Eff.lift, Eff.ret;
    repeat match goal with
           | |- context [SnmpV2.total ?s ?a ?b ?c] =>
               destruct (SnmpV2.total s a b c); cbn [fst]; try discriminate
           end;
    intros H; injection H as <-; split; reflexivity.
Qed.

(** What the resolver of [if-stats-netconf.py] returns. *)
Lemma netconf_stats_result (mgr : Nc.manager) (i : string)
    (wdf : string -> Py.result unit) (l : Nc.log) :
  fst (Netconf.get_interface_stats mgr i wdf l)
  = match Netconf.wants_ietf (netconf_openconfig mgr i wdf) with
    | Py.Ok fallback =>
        Py.Ok (or_no_data i (if fallback then netconf_ietf mgr i wdf
                             else netconf_openconfig mgr i wdf))
    | Py.Raise e => Py.Raise e
    end.
Proof.
  unfold Netconf.get_interface_stats, or_no_data.
  unfold Eff.bind at 1. rewrite netconf_openconfig_run.
  unfold Eff.bind at 1. unfold Eff.lift at 1.
  destruct (Netconf.wants_ietf (netconf_openconfig mgr i wdf)) as [[|]|e];
    [| | reflexivity].
  - unfold Eff.bind. rewrite netconf_ietf_run.
    destruct (netconf_ietf mgr i wdf) as [d|]; [|reflexivity].
    destruct (Dict.truthy d); reflexivity.
  - unfold Eff.bind, Eff.ret.
    destruct (netconf_openconfig mgr i wdf) as [d|]; [|reflexivity].
    destruct (Dict.truthy d); reflexivity.
Qed.


(** ** The packet totals *)

(** C5 fails on the IETF adapter of [if-stats-netconf-v2.py]: the device
    reports 10 unicast, 5 multicast and 2 broadcast packets received, and the
    sample carries [in-packets = "10"], the unicast count alone, where the sum
    is 17 (and likewise [out-packets = "7"] for 7 + 3 + 1). *)
Lemma ietf_v2_in_packets_is_unicast_only :
  NetconfV2.get_interface_stats
    (manager_of (Py.Raise Py.OtherError)
                (Py.Ok (ietf_reply "Ethernet1" packet_counters_example)))
    "Ethernet1" []
  = (Py.Ok [("interface-name", Py.VStr "Ethernet1"); ("model", Py.VStr "ietf");
            ("in-octets", Py.VStr "1000"); ("out-octets", Py.VStr "2000");
            ("in-packets", Py.VStr "10"); ("out-packets", Py.VStr "7")],
     [oc_rpc "Ethernet1"; ietf_rpc "Ethernet1"])
  /\ Py.str (10 + 5 + 2) = "17".
Proof. split; vm_compute; reflexivity. Qed.

(** The OpenConfig adapter of the same script, on the same counters, reports
    the sums. *)
Lemma openconfig_v2_same_counters_sum :
  exists d,
    NetconfV2.parse_openconfig_stats "Ethernet1"
      (openconfig_reply "Ethernet1" packet_counters_example) = Some d
    /\ Dict.get d "in-packets" = Some (Py.VStr "17")
    /\ Dict.get d "out-packets" = Some (Py.VStr "11").
Proof. eexists. split; [vm_compute; reflexivity | split; reflexivity]. Qed.

(** So does the IETF adapter of [if-stats-netconf.py]. *)
Lemma ietf_same_counters_sum :
  exists d,
    Netconf.parse_ietf_stats "Ethernet1"
      (ietf_reply "Ethernet1" packet_counters_example) = Some d
    /\ Dict.get d "in-packets" = Some (Py.VStr "17")
    /\ Dict.get d "out-packets" = Some (Py.VStr "11").
Proof. eexists. split; [vm_compute; reflexivity | split; reflexivity]. Qed.

(** X1. Every sample that [get_interface_stats] of [if-stats-snmp-v2.py]
    returns carries, on both branches (high-capacity and 32-bit), the six
    packet-class counters as integers, and its totals [in-packets] and
    [out-packets] are the sums of the three classes of each direction. *)
Theorem snmp_v2_totals (sess : Snmp.session) (idx : Z) (stats : stats_dict) :
  fst (SnmpV2.get_interface_stats sess idx []) = Py.Ok stats ->
  exists u m b u' m' b',
    Dict.int_get stats "in-unicast-packets" = Py.Ok u
    /\ Dict.int_get stats "in-multicast-packets" = Py.Ok m
    /\ Dict.int_get stats "in-broadcast-packets" = Py.Ok b
    /\ Dict.int_get stats "out-unicast-packets" = Py.Ok u'
    /\ Dict.int_get stats "out-multicast-packets" = Py.Ok m'
    /\ Dict.int_get stats "out-broadcast-packets" = Py.Ok b'
    /\ Dict.get stats "in-packets" = Some (Py.VStr (Py.str (u + m + b)))
    /\ Dict.get stats "out-packets" = Some (Py.VStr (Py.str (u' + m' + b'))).
Proof.
  unfold SnmpV2.get_interface_stats.
  unfold Eff.bind at 1. rewrite snmp_v2_get_value.
  unfold Eff.bind at 1. rewrite snmp_v2_get_value.
  set (c := negb _ || negb _).
  destruct c;
    unfold Eff.bind; rewrite !snmp_v2_fetch_into;
    unfold Eff.lift, Eff.ret, SnmpV2.total, Dict.int_get;
    cbn [Dict.set Dict.get Dict.empty String.eqb Ascii.eqb Bool.eqb Py.rbind Py.int];
    repeat match goal with
           | |- context [Py.int_of_str ?s] =>
               let E := fresh "E" in
               destruct (Py.int_of_str s) eqn:E; cbn [Py.rbind fst]; try discriminate
           end;
    intros H; injection H as <-;
    cbn [Dict.set Dict.get Dict.empty String.eqb Ascii.eqb Bool.eqb Py.rbind Py.int];
    rewrite ?E, ?E0, ?E1, ?E2, ?E3, ?E4;
    do 6 eexists; repeat split; reflexivity.
Qed.

(** X12. Every sample that the OpenConfig parser of
    [if-stats-netconf-v2.py] returns carries the six packet-class counters as
    integers, and its totals [in-packets] and [out-packets] are the sums of
    the three classes of each direction. *)
Theorem openconfig_v2_totals (interface : string) (reply : Xml.text) (d : stats_dict) :
  NetconfV2.parse_openconfig_stats interface reply = Some d ->
  exists u m b u' m' b',
    Dict.int_item d "in-unicast-pkts" = Py.Ok u
    /\ Dict.int_item d "in-multicast-pkts" = Py.Ok m
    /\ Dict.int_item d "in-broadcast-pkts" = Py.Ok b
    /\ Dict.int_item d "out-unicast-pkts" = Py.Ok u'
    /\ Dict.int_item d "out-multicast-pkts" = Py.Ok m'
    /\ Dict.int_item d "out-broadcast-pkts" = Py.Ok b'
    /\ Dict.get d "in-packets" = Some (Py.VStr (Py.str (u + m + b)))
    /\ Dict.get d "out-packets" = Some (Py.VStr (Py.str (u' + m' + b'))).
Proof.
  unfold NetconfV2.parse_openconfig_stats, Nc.or_none.
  destruct (Xml.parseString reply) as [dom|e]; [|discriminate].
  cbn [Py.rbind].
  destruct (Xml.first (Xml.doc_getElementsByTagNameNS dom Nc.OC_NS "interface"))
    as [iface|e]; [|discriminate].
  cbn [Py.rbind].
  destruct (Xml.first (Xml.getElementsByTagNameNS iface Nc.OC_NS "counters"))
    as [counters|e]; [|discriminate].
  cbn [Py.rbind].
  unfold NetconfV2.sum3, Dict.int_item, Dict.item, Dict.literal.
  cbn [fold_left fst snd Dict.set Dict.get Dict.empty String.eqb Ascii.eqb Bool.eqb
       Py.rbind].
  repeat match goal with
         | |- context [Py.int ?v] =>
             let E := fresh "E" in
             destruct (Py.int v) eqn:E; cbn [Py.rbind]; try discriminate
         end.
  intros H. injection H as <-.
  cbn [Dict.set Dict.get Dict.empty String.eqb Ascii.eqb Bool.eqb Py.rbind].
  rewrite ?E, ?E0, ?E1, ?E2, ?E3, ?E4.
  do 6 eexists. repeat split; reflexivity.
Qed.

(** The totals at a session that answers ["1000"] to every request. *)
Lemma snmp_v2_totals_witness :
  exists u m b u' m' b',
    Dict.int_get all_1000_stats "in-unicast-packets" = Py.Ok u
    /\ Dict.int_get all_1000_stats "in-multicast-packets" = Py.Ok m
    /\ Dict.int_get all_1000_stats "in-broadcast-packets" = Py.Ok b
    /\ Dict.int_get all_1000_stats "out-unicast-packets" = Py.Ok u'
    /\ Dict.int_get all_1000_stats "out-multicast-packets" = Py.Ok m'
    /\ Dict.int_get all_1000_stats "out-broadcast-packets" = Py.Ok b'
    /\ Dict.get all_1000_stats "in-packets" = Some (Py.VStr (Py.str (u + m + b)))
    /\ Dict.get all_1000_stats "out-packets" = Some (Py.VStr (Py.str (u' + m' + b'))).
Proof.
  apply (snmp_v2_totals (constant_session "1000") 2 all_1000_stats).
  vm_compute. reflexivity.
Defined.

(** ** A cycle in which every adapter declines *)

(** When both adapters decline, the resolver returns the zero-filled sample. *)
Lemma netconf_v2_all_decline (mgr : Nc.manager) (i : string) (l : Nc.log) :
  Nc.truthy (netconf_v2_openconfig mgr i) = false ->
  Nc.truthy (netconf_v2_ietf mgr i) = false ->
  NetconfV2.get_interface_stats mgr i l
  = (Py.Ok (Nc.no_data i), (l ++ [oc_rpc i; ietf_rpc i])%list).
Proof.
  intros Hoc Hietf. rewrite netconf_v2_stats_run, Hoc, Hietf. reflexivity.
Qed.

(** The rate computation of [if-stats-netconf-v2.py] leaves, when it
    returns, the current sample and reading as state. *)
Lemma netconf_v2_rate_state (self : Nc.poll_state) (cur : stats_dict) (now : Py.float)
    (rate : stats_dict) (st : Nc.poll_state) :
  NetconfV2.calculate_traffic_rate self cur now = Py.Ok (rate, st) ->
  st = {| Nc.prev_stats := cur; Nc.prev_time := Some now |}.
Proof.
  unfold NetconfV2.calculate_traffic_rate.
  match goal with
  | |- Py.rbind ?m _ = _ -> _ => destruct m as [r|e]
  end; cbn [Py.rbind]; [|discriminate].
  intros H. injection H as _ <-. reflexivity.
Qed.

(** It returns the zero rate when there is no previous time, and when the
    octet counters did not move. *)
Lemma netconf_v2_rate_zero (self : Nc.poll_state) (cur : stats_dict) (now : Py.float)
    (a c : Z) :
  Nc.prev_time self = None
  \/ (Dict.int_item cur "in-octets" = Py.Ok a
      /\ Dict.int_item (Nc.prev_stats self) "in-octets" = Py.Ok a
      /\ Dict.int_item cur "out-octets" = Py.Ok c
      /\ Dict.int_item (Nc.prev_stats self) "out-octets" = Py.Ok c) ->
  NetconfV2.calculate_traffic_rate self cur now
  = Py.Ok (Snmp.zero_rate, {| Nc.prev_stats := cur; Nc.prev_time := Some now |}).
Proof.
  intros H. destruct self as [prev [pt|]]; cbn [Nc.prev_stats Nc.prev_time] in *.
  - destruct H as [H | (Ha & Hb & Hc & Hd)]; [discriminate H|].
    destruct (Py.gt0 (Py.sub now pt)) eqn:G.
    + destruct (Py.float_truthy pt) eqn:T.
      * rewrite (netconf_v2_rate_computed prev cur pt now a a c c T G Ha Hb Hc Hd).
        unfold computed_rate. rewrite !rate_of_same by exact G. reflexivity.
      * unfold NetconfV2.calculate_traffic_rate. cbn [Nc.prev_time Nc.prev_stats].
        rewrite T. reflexivity.
    + apply netconf_v2_rate_default. cbn [Nc.prev_time].
      intros pt' E. injection E as <-. exact G.
  - apply netconf_v2_rate_default. intros pt' E. discriminate E.
Qed.

(** With integer counters on both sides it raises on an overflow only. *)
Lemma netconf_v2_rate_overflow (self : Nc.poll_state) (cur : stats_dict)
    (now : Py.float) (a b c d : Z) (e : Py.exn) :
  Dict.int_item cur "in-octets" = Py.Ok a ->
  Dict.int_item (Nc.prev_stats self) "in-octets" = Py.Ok b ->
  Dict.int_item cur "out-octets" = Py.Ok c ->
  Dict.int_item (Nc.prev_stats self) "out-octets" = Py.Ok d ->
  NetconfV2.calculate_traffic_rate self cur now = Py.Raise e ->
  e = Py.OverflowError.
Proof.
  intros Ha Hb Hc Hd. destruct self as [prev [pt|]]; cbn [Nc.prev_stats Nc.prev_time] in *.
  - destruct (Py.gt0 (Py.sub now pt)) eqn:G.
    + destruct (Py.float_truthy pt) eqn:T.
      * rewrite (netconf_v2_rate_computed prev cur pt now a b c d T G Ha Hb Hc Hd).
        unfold computed_rate.
        pose proof (rate_of_cases (Py.sub now pt) a b G) as Ci.
        pose proof (rate_of_cases (Py.sub now pt) c d G) as Co.
        destruct (rate_of (Py.sub now pt) a b); cbn [Py.rbind];
          [|intros H; injection H as <-; exact Ci].
        destruct (rate_of (Py.sub now pt) c d); cbn [Py.rbind];
          [discriminate | intros H; injection H as <-; exact Co].
      * unfold NetconfV2.calculate_traffic_rate. cbn [Nc.prev_time Nc.prev_stats].
        rewrite T. discriminate.
    + rewrite netconf_v2_rate_default; [discriminate|]. cbn [Nc.prev_time].
      intros pt' E. injection E as <-. exact G.
  - rewrite netconf_v2_rate_default; [discriminate|]. intros pt' E. discriminate E.
Qed.

(** C7, as stated, fails: both requests fail, yet [get_interface_stats] returns
    a zero-filled sample, the pass writes a record for it (with the rate
    computed against the zeros) and the state is overwritten with the
    zeros. *)
Lemma failed_cycle_emits_zero_filled_record :
  let mgr := manager_of (Py.Raise Py.OtherError) (Py.Raise Py.OtherError) in
  let prev := {| Nc.prev_stats := sample "5000" "700"; Nc.prev_time := Some (secs 10) |} in
  NetconfV2.get_interface_stats mgr "Ethernet1" []
  = (Py.Ok (Nc.no_data "Ethernet1"), [oc_rpc "Ethernet1"; ietf_rpc "Ethernet1"])
  /\ NetconfV2.monitor_cycle mgr "Ethernet1" (clock 15) (clock 15) prev [] []
     = (Py.Ok ({| Nc.prev_stats := Nc.no_data "Ethernet1";
                  Nc.prev_time := Some (secs 15) |},
               [no_data_record "Ethernet1" (clock 15)
                  [("in-bps", Py.VStr "-8000"); ("out-bps", Py.VStr "-1120")]]),
        [oc_rpc "Ethernet1"; ietf_rpc "Ethernet1"]).
Proof. split; vm_compute; reflexivity. Qed.

(** C7, amended: in a cycle in which both adapters decline, the resolver
    returns the zero-filled sample tagged ["no-data"]. When the rate of that
    sample against the previous state is computed, the pass writes one record
    for the sample, overwrites the state with it, and the loop goes on with
    the next cycle; this is so whenever the previous state has no time yet or
    holds zero octet counters (as it does after another such cycle). When the
    rate computation raises, the pass writes nothing, leaves the state, and
    ends [monitor]; with integer counters in the previous state it raises only
    when a division overflows. *)
Theorem all_adapters_decline_zero_filled_sample
    (mgr : Nc.manager) (i : string) (ts now : Py.time) (self : Nc.poll_state)
    (f : Nc.file) (l : Nc.log) (rest : list (Nc.manager * Py.time * Py.time)) :
  Nc.truthy (netconf_v2_openconfig mgr i) = false ->
  Nc.truthy (netconf_v2_ietf mgr i) = false ->
  let l' := (l ++ [oc_rpc i; ietf_rpc i])%list in
  let st := {| Nc.prev_stats := Nc.no_data i; Nc.prev_time := Some (Py.seconds now) |} in
  NetconfV2.get_interface_stats mgr i l = (Py.Ok (Nc.no_data i), l')
  /\ match NetconfV2.calculate_traffic_rate self (Nc.no_data i) (Py.seconds now) with
     | Py.Ok (rate, st') =>
         st' = st
         /\ NetconfV2.monitor_cycle mgr i ts now self f l
            = (Py.Ok (st, (f ++ [no_data_record i ts rate])%list), l')
         /\ NetconfV2.monitor_loop i ((mgr, ts, now) :: rest) self f l
            = NetconfV2.monitor_loop i rest st (f ++ [no_data_record i ts rate])%list l'
     | Py.Raise e =>
         NetconfV2.monitor_cycle mgr i ts now self f l = (Py.Raise e, l')
         /\ NetconfV2.monitor_loop i ((mgr, ts, now) :: rest) self f l
            = {| Eff.run_end := Eff.Raised e; Eff.run_state := self;
                 Eff.run_file := f; Eff.run_world := l' |}
     end
  /\ (Nc.prev_time self = None
      \/ (Dict.int_item (Nc.prev_stats self) "in-octets" = Py.Ok 0
          /\ Dict.int_item (Nc.prev_stats self) "out-octets" = Py.Ok 0) ->
      NetconfV2.calculate_traffic_rate self (Nc.no_data i) (Py.seconds now)
      = Py.Ok (Snmp.zero_rate, st))
  /\ (forall b d e,
        Dict.int_item (Nc.prev_stats self) "in-octets" = Py.Ok b ->
        Dict.int_item (Nc.prev_stats self) "out-octets" = Py.Ok d ->
        NetconfV2.calculate_traffic_rate self (Nc.no_data i) (Py.seconds now)
        = Py.Raise e ->
        e = Py.OverflowError).
Proof.
  intros Hoc Hietf l' st.
  pose proof (netconf_v2_all_decline mgr i l Hoc Hietf) as Hstats.
  split; [exact Hstats|]. split; [| split].
  - destruct (NetconfV2.calculate_traffic_rate self (Nc.no_data i) (Py.seconds now))
      as [[rate st']|e] eqn:Hrate.
    + pose proof (netconf_v2_rate_state _ _ _ _ _ Hrate) as ->.
      assert (Hcycle :
        NetconfV2.monitor_cycle mgr i ts now self f l
        = (Py.Ok (st, (f ++ [no_data_record i ts rate])%list), l')).
      { unfold NetconfV2.monitor_cycle, Eff.bind.
        rewrite Hstats. unfold Eff.lift. rewrite Hrate. reflexivity. }
      split; [reflexivity|]. split; [exact Hcycle|].
      cbn [NetconfV2.monitor_loop]. rewrite Hcycle. reflexivity.
    + assert (Hcycle :
        NetconfV2.monitor_cycle mgr i ts now self f l = (Py.Raise e, l')).
      { unfold NetconfV2.monitor_cycle, Eff.bind.
        rewrite Hstats. unfold Eff.lift. rewrite Hrate. reflexivity. }
      split; [exact Hcycle|].
      cbn [NetconfV2.monitor_loop]. rewrite Hcycle. reflexivity.
  - intros [H | [Hb Hd]].
    + apply (netconf_v2_rate_zero self (Nc.no_data i) (Py.seconds now) 0 0).
      left. exact H.
    + apply (netconf_v2_rate_zero self (Nc.no_data i) (Py.seconds now) 0 0).
      right. repeat split; try assumption; reflexivity.
  - intros b d e Hb Hd.
    apply (netconf_v2_rate_overflow self (Nc.no_data i) (Py.seconds now) 0 b 0 d e);
      try assumption; reflexivity.
Qed.

(** The amended C7 on a manager whose two requests fail, twice in a row: the
    second pass finds the zeros of the first one, writes the record of the
    zero-filled sample with the zero rate, and the loop goes on. *)
Lemma all_adapters_decline_witness :
  let mgr := manager_of (Py.Raise Py.OtherError) (Py.Raise Py.OtherError) in
  let st := {| Nc.prev_stats := Nc.no_data "Ethernet1"; Nc.prev_time := Some (secs 15) |} in
  NetconfV2.monitor_cycle mgr "Ethernet1" (clock 15) (clock 15)
    {| Nc.prev_stats := Nc.no_data "Ethernet1"; Nc.prev_time := Some (secs 10) |} [] []
  = (Py.Ok (st, [no_data_record "Ethernet1" (clock 15) Snmp.zero_rate]),
     [oc_rpc "Ethernet1"; ietf_rpc "Ethernet1"]).
Proof.
  destruct (all_adapters_decline_zero_filled_sample
              (manager_of (Py.Raise Py.OtherError) (Py.Raise Py.OtherError))
              "Ethernet1" (clock 15) (clock 15)
              {| Nc.prev_stats := Nc.no_data "Ethernet1"; Nc.prev_time := Some (secs 10) |}
              [] [] []) as (_ & H & Hz & _);
    [reflexivity | reflexivity |].
  rewrite Hz in H by (right; split; reflexivity).
  destruct H as (_ & H & _). exact H.
Defined.

(** ** Exceptions in the adapters *)

(** C9 fails on the SNMP adapters. [get_snmp_value] of [if-stats-snmp-v3.py]
    handles [EasySNMPError] only: another exception raised by [session.get]
    leaves it and leaves [get_interface_stats]; the same function in
    [if-stats-snmp-v2.py] turns it into ["0"]. And [get_interface_stats] of
    [if-stats-snmp-v2.py] raises [ValueError] when the device answers
    [NOSUCHOBJECT], a value that only the v3 script filters. *)
Lemma snmp_fetch_raises :
  SnmpV3.get_snmp_value (failing_session Py.OtherError) 2 IF_HC_IN_OCTETS []
  = (Py.Raise Py.OtherError, [oid_of 2 IF_HC_IN_OCTETS])
  /\ fst (SnmpV3.get_interface_stats (failing_session Py.OtherError) 2 [])
     = Py.Raise Py.OtherError
  /\ SnmpV2.get_snmp_value (failing_session Py.OtherError) 2 IF_HC_IN_OCTETS []
     = (Py.Ok "0", [oid_of 2 IF_HC_IN_OCTETS])
  /\ fst (SnmpV2.get_interface_stats (constant_session "NOSUCHOBJECT") 2 [])
     = Py.Raise Py.ValueError.
Proof. repeat split; vm_compute; reflexivity. Qed.

(** The error of the SNMP library itself is handled by the v3 script. *)
Lemma snmp_v3_handles_library_error (idx : Z) (oid_base : string) (l : Snmp.log) :
  fst (SnmpV3.get_snmp_value (failing_session Py.EasySNMPError) idx oid_base l)
  = Py.Ok "0".
Proof. reflexivity. Qed.

(** The NETCONF adapters of [if-stats-netconf-v2.py] and the resolver over
    them never raise, whatever the manager does. *)
Theorem netconf_v2_fetch_never_raises (mgr : Nc.manager) (i : string) (l : Nc.log) :
  fst (NetconfV2.get_interface_stats_openconfig mgr i l)
  = Py.Ok (netconf_v2_openconfig mgr i)
  /\ fst (NetconfV2.get_interface_stats_ietf mgr i l) = Py.Ok (netconf_v2_ietf mgr i)
  /\ exists d, fst (NetconfV2.get_interface_stats mgr i l) = Py.Ok d.
Proof.
  rewrite netconf_v2_openconfig_run, netconf_v2_ietf_run, netconf_v2_stats_run.
  repeat split.
  destruct (Nc.truthy (netconf_v2_openconfig mgr i)); eexists; reflexivity.
Qed.

(** ** The records of a cycle *)

(** A pass of the loop that does not raise appends two records to the file. *)
Lemma snmp_v2_cycle_records (sess : Snmp.session) (target : string) (idx : Z)
    (iso : Py.time -> string) (now : Py.time) (self st' : Snmp.poll_state) (f f' : Snmp.file)
    (l : Snmp.log) :
  fst (SnmpV2.monitor_cycle sess target idx iso now self f l) = Py.Ok (st', f') ->
  exists stats rate,
    f' = (f ++ [SnmpV2.format_output target idx iso "statistics" stats now;
                SnmpV2.format_output target idx iso "traffic-rate" rate now])%list.
Proof.
  unfold SnmpV2.monitor_cycle, Eff.bind, Eff.lift, Eff.ret, Snmp.dump_line.
  destruct (SnmpV2.get_interface_stats sess idx l) as [[stats|e] l1]; [|discriminate].
  destruct (SnmpV2.calculate_traffic_rate self stats (Py.seconds now)) as [[rate st]|e];
    [|discriminate].
  cbn [fst]. intros H. injection H as _ <-.
  exists stats, rate. rewrite <- List.app_assoc. reflexivity.
Qed.

Lemma snmp_v3_cycle_records (sess : Snmp.session) (target : string) (idx : Z)
    (iso : Py.time -> string) (now : Py.time) (self st' : Snmp.poll_state) (f f' : Snmp.file)
    (l : Snmp.log) :
  fst (SnmpV3.monitor_cycle sess target idx iso now self f l) = Py.Ok (st', f') ->
  exists stats rate,
    f' = (f ++ [SnmpV3.format_output target idx iso "statistics" stats now;
                SnmpV3.format_output target idx iso "traffic-rate" rate now])%list.
Proof.
  unfold SnmpV3.monitor_cycle, Eff.bind, Eff.lift, Eff.ret, Snmp.dump_line.
  destruct (SnmpV3.get_interface_stats sess idx l) as [[stats|e] l1]; [|discriminate].
  destruct (SnmpV3.calculate_traffic_rate self stats (Py.seconds now)) as [[rate st]|e];
    [|discriminate].
  cbn [fst]. intros H. injection H as _ <-.
  exists stats, rate. rewrite <- List.app_assoc. reflexivity.
Qed.

(** By induction on the run: the records that a run leaves in the file are
    those of its passes that did not raise, two for each, and an interrupted
    run has no other pass. *)
Lemma snmp_v2_loop_records (target : string) (idx : Z) (iso : Py.time -> string)
    (ticks : list (Snmp.session * Py.time)) :
  forall (self : Snmp.poll_state) (f : Snmp.file) (l : Snmp.log),
    let r := SnmpV2.monitor_loop target idx iso ticks self f l in
    exists k recs,
      (k <= length ticks)%nat
      /\ Eff.run_file r = (f ++ recs)%list
      /\ paired_records (SnmpV2.format_output target idx iso)
           (firstn k (map snd ticks)) recs
      /\ (Eff.run_end r = Eff.Interrupted -> k = length ticks)
      /\ (forall e, Eff.run_end r = Eff.Raised e -> (k < length ticks)%nat).
Proof.
  induction ticks as [|[sess now] rest IH]; intros self f l.
  - exists 0%nat, []. cbn. rewrite List.app_nil_r.
    repeat split; [lia | constructor | discriminate].
  - cbn [SnmpV2.monitor_loop].
    destruct (SnmpV2.monitor_cycle sess target idx iso now self f l)
      as [[[st1 f1]|e] l1] eqn:E.
    + destruct (snmp_v2_cycle_records sess target idx iso now self st1 f f1 l)
        as (stats & rate & ->); [rewrite E; reflexivity|].
      destruct (IH st1
                  (f ++ [SnmpV2.format_output target idx iso "statistics" stats now;
                         SnmpV2.format_output target idx iso "traffic-rate" rate now])%list
                  l1) as (k & recs & Hk & Hfile & Hrecs & Hend & Hexn).
      exists (S k). eexists. split; [cbn; lia|]. split; [| split; [| split]].
      * cbv zeta. rewrite Hfile, <- List.app_assoc. reflexivity.
      * cbn [map snd firstn app]. constructor. exact Hrecs.
      * cbv zeta. intros H. cbn [length]. f_equal. exact (Hend H).
      * cbv zeta. intros e0 H. cbn [length]. apply -> Nat.succ_lt_mono.
        exact (Hexn e0 H).
    + exists 0%nat, []. cbn. rewrite List.app_nil_r.
      repeat split; [lia | constructor | discriminate | lia].
Qed.

Lemma snmp_v3_loop_records (target : string) (idx : Z) (iso : Py.time -> string)
    (ticks : list (Snmp.session * Py.time)) :
  forall (self : Snmp.poll_state) (f : Snmp.file) (l : Snmp.log),
    let r := SnmpV3.monitor_loop target idx iso ticks self f l in
    exists k recs,
      (k <= length ticks)%nat
      /\ Eff.run_file r = (f ++ recs)%list
      /\ paired_records (SnmpV3.format_output target idx iso)
           (firstn k (map snd ticks)) recs
      /\ (Eff.run_end r = Eff.Interrupted -> k = length ticks)
      /\ (forall e, Eff.run_end r = Eff.Raised e -> (k < length ticks)%nat).
Proof.
  induction ticks as [|[sess now] rest IH]; intros self f l.
  - exists 0%nat, []. cbn. rewrite List.app_nil_r.
    repeat split; [lia | constructor | discriminate].
  - cbn [SnmpV3.monitor_loop].
    destruct (SnmpV3.monitor_cycle sess target idx iso now self f l)
      as [[[st1 f1]|e] l1] eqn:E.
    + destruct (snmp_v3_cycle_records sess target idx iso now self st1 f f1 l)
        as (stats & rate & ->); [rewrite E; reflexivity|].
      destruct (IH st1
                  (f ++ [SnmpV3.format_output target idx iso "statistics" stats now;
                         SnmpV3.format_output target idx iso "traffic-rate" rate now])%list
                  l1) as (k & recs & Hk & Hfile & Hrecs & Hend & Hexn).
      exists (S k). eexists. split; [cbn; lia|]. split; [| split; [| split]].
      * cbv zeta. rewrite Hfile, <- List.app_assoc. reflexivity.
      * cbn [map snd firstn app]. constructor. exact Hrecs.
      * cbv zeta. intros H. cbn [length]. f_equal. exact (Hend H).
      * cbv zeta. intros e0 H. cbn [length]. apply -> Nat.succ_lt_mono.
        exact (Hexn e0 H).
    + exists 0%nat, []. cbn. rewrite List.app_nil_r.
      repeat split; [lia | constructor | discriminate | lia].
Qed.

(** What a record of the SNMP scripts carries: the timestamp in nanoseconds
    and the path of its block. *)
Lemma snmp_v2_record_header (target : string) (idx : Z) (iso : Py.time -> string)
    (block : string) (data : stats_dict) (now : Py.time) :
  record_timestamp (SnmpV2.format_output target idx iso block data now)
  = Some (Json.JInt (Py.nanos now))
  /\ record_path (SnmpV2.format_output target idx iso block data now)
     = Some (Json.JStr ("IF-MIB:interface[index=" ++ Py.str idx ++ "]/" ++ block)).
Proof. split; reflexivity. Qed.

Lemma snmp_v3_record_header (target : string) (idx : Z) (iso : Py.time -> string)
    (block : string) (data : stats_dict) (now : Py.time) :
  record_timestamp (SnmpV3.format_output target idx iso block data now)
  = Some (Json.JInt (Py.nanos now))
  /\ record_path (SnmpV3.format_output target idx iso block data now)
     = Some (Json.JStr ("IF-MIB:interface[index=" ++ Py.str idx ++ "]/" ++ block)).
Proof. split; reflexivity. Qed.

(** A pass of the loop: the fetch, then the rate, then the two records. A
    pass whose fetch or rate computation raises writes nothing. *)
Lemma snmp_v2_cycle_outcome (sess : Snmp.session) (target : string) (idx : Z)
    (iso : Py.time -> string) (now : Py.time) (self : Snmp.poll_state) (f : Snmp.file)
    (l : Snmp.log) :
  SnmpV2.monitor_cycle sess target idx iso now self f l
  = match SnmpV2.get_interface_stats sess idx l with
    | (Py.Ok stats, l') =>
        match SnmpV2.calculate_traffic_rate self stats (Py.seconds now) with
        | Py.Ok (rate, self') =>
            (Py.Ok (self',
                    (f ++ [SnmpV2.format_output target idx iso "statistics" stats now;
                           SnmpV2.format_output target idx iso "traffic-rate" rate now])%list),
             l')
        | Py.Raise e => (Py.Raise e, l')
        end
    | (Py.Raise e, l') => (Py.Raise e, l')
    end.
Proof.
  unfold SnmpV2.monitor_cycle, Eff.bind, Eff.lift, Eff.ret, Snmp.dump_line.
  destruct (SnmpV2.get_interface_stats sess idx l) as [[stats|e] l1]; [|reflexivity].
  destruct (SnmpV2.calculate_traffic_rate self stats (Py.seconds now)) as [[rate st]|e];
    [|reflexivity].
  rewrite <- List.app_assoc. reflexivity.
Qed.

Lemma snmp_v3_cycle_outcome (sess : Snmp.session) (target : string) (idx : Z)
    (iso : Py.time -> string) (now : Py.time) (self : Snmp.poll_state) (f : Snmp.file)
    (l : Snmp.log) :
  SnmpV3.monitor_cycle sess target idx iso now self f l
  = match SnmpV3.get_interface_stats sess idx l with
    | (Py.Ok stats, l') =>
        match SnmpV3.calculate_traffic_rate self stats (Py.seconds now) with
        | Py.Ok (rate, self') =>
            (Py.Ok (self',
                    (f ++ [SnmpV3.format_output target idx iso "statistics" stats now;
                           SnmpV3.format_output target idx iso "traffic-rate" rate now])%list),
             l')
        | Py.Raise e => (Py.Raise e, l')
        end
    | (Py.Raise e, l') => (Py.Raise e, l')
    end.
Proof.
  unfold SnmpV3.monitor_cycle, Eff.bind, Eff.lift, Eff.ret, Snmp.dump_line.
  destruct (SnmpV3.get_interface_stats sess idx l) as [[stats|e] l1]; [|reflexivity].
  destruct (SnmpV3.calculate_traffic_rate self stats (Py.seconds now)) as [[rate st]|e];
    [|reflexivity].
  rewrite <- List.app_assoc. reflexivity.
Qed.

(** C10, as stated, fails: a cycle whose fetch raises writes no record. On a
    device that answers [NOSUCHOBJECT], the very first cycle of
    [if-stats-snmp-v2.py] raises [ValueError] in [get_interface_stats]: the
    file stays empty and [monitor] ends, whatever the device would answer
    next. So does a cycle of [if-stats-snmp-v3.py] during which the session
    raises an exception that is not an [EasySNMPError]. *)
Lemma raising_cycle_writes_nothing :
  SnmpV2.monitor no_time
    [(constant_session "NOSUCHOBJECT", clock 10); (constant_session "1000", clock 15)]
  = {| Eff.run_end := Eff.Raised Py.ValueError;
       Eff.run_state := Snmp.initial_state;
       Eff.run_file := [];
       Eff.run_world := oids_of 2 hc_bases |}
  /\ SnmpV3.monitor no_time [(failing_session Py.OtherError, clock 10)]
     = {| Eff.run_end := Eff.Raised Py.OtherError;
          Eff.run_state := Snmp.initial_state;
          Eff.run_file := [];
          Eff.run_world := [oid_of 2 IF_HC_IN_OCTETS] |}.
Proof. split; vm_compute; reflexivity. Qed.

(** C10, amended: in a run of the monitor loop of [if-stats-snmp-v2.py] and
    of [if-stats-snmp-v3.py], a cycle whose fetch and rate computation return
    writes exactly two records, the very first cycle as well: a [statistics]
    record that carries the sample fetched, followed by a [traffic-rate]
    record that carries the rate computed, both with the timestamp
    [int(now * 1e9)] of the one reading [now] of the clock taken at the start
    of that cycle. A cycle whose fetch or rate computation raises writes
    nothing and ends the run: the file then holds the pairs of the cycles
    before it. A run that is interrupted has completed all its cycles. *)
Theorem cycle_writes_statistics_then_rate
    (target : string) (idx : Z) (iso : Py.time -> string)
    (ticks : list (Snmp.session * Py.time)) (self : Snmp.poll_state) (f : Snmp.file)
    (l : Snmp.log) :
  let r2 := SnmpV2.monitor_loop target idx iso ticks self f l in
  let r3 := SnmpV3.monitor_loop target idx iso ticks self f l in
  (forall sess now,
      SnmpV2.monitor_cycle sess target idx iso now self f l
      = match SnmpV2.get_interface_stats sess idx l with
        | (Py.Ok stats, l') =>
            match SnmpV2.calculate_traffic_rate self stats (Py.seconds now) with
            | Py.Ok (rate, self') =>
                (Py.Ok (self',
                        (f ++ [SnmpV2.format_output target idx iso "statistics" stats now;
                               SnmpV2.format_output target idx iso "traffic-rate" rate
                                 now])%list), l')
            | Py.Raise e => (Py.Raise e, l')
            end
        | (Py.Raise e, l') => (Py.Raise e, l')
        end)
  /\ (forall sess now,
        SnmpV3.monitor_cycle sess target idx iso now self f l
        = match SnmpV3.get_interface_stats sess idx l with
          | (Py.Ok stats, l') =>
              match SnmpV3.calculate_traffic_rate self stats (Py.seconds now) with
              | Py.Ok (rate, self') =>
                  (Py.Ok (self',
                          (f ++ [SnmpV3.format_output target idx iso "statistics" stats
                                   now;
                                 SnmpV3.format_output target idx iso "traffic-rate" rate
                                   now])%list), l')
              | Py.Raise e => (Py.Raise e, l')
              end
          | (Py.Raise e, l') => (Py.Raise e, l')
          end)
  /\ (forall sess now rest,
        SnmpV2.monitor_loop target idx iso ((sess, now) :: rest) self f l
        = match SnmpV2.monitor_cycle sess target idx iso now self f l with
          | (Py.Ok (self', f'), l') => SnmpV2.monitor_loop target idx iso rest self' f' l'
          | (Py.Raise e, l') =>
              {| Eff.run_end := Eff.Raised e; Eff.run_state := self;
                 Eff.run_file := f; Eff.run_world := l' |}
          end)
  /\ (forall sess now rest,
        SnmpV3.monitor_loop target idx iso ((sess, now) :: rest) self f l
        = match SnmpV3.monitor_cycle sess target idx iso now self f l with
          | (Py.Ok (self', f'), l') => SnmpV3.monitor_loop target idx iso rest self' f' l'
          | (Py.Raise e, l') =>
              {| Eff.run_end := Eff.Raised e; Eff.run_state := self;
                 Eff.run_file := f; Eff.run_world := l' |}
          end)
  /\ (exists k recs,
        (k <= length ticks)%nat
        /\ Eff.run_file r2 = (f ++ recs)%list
        /\ paired_records (SnmpV2.format_output target idx iso)
             (firstn k (map snd ticks)) recs
        /\ (Eff.run_end r2 = Eff.Interrupted -> k = length ticks)
        /\ (forall e, Eff.run_end r2 = Eff.Raised e -> (k < length ticks)%nat))
  /\ (exists k recs,
        (k <= length ticks)%nat
        /\ Eff.run_file r3 = (f ++ recs)%list
        /\ paired_records (SnmpV3.format_output target idx iso)
             (firstn k (map snd ticks)) recs
        /\ (Eff.run_end r3 = Eff.Interrupted -> k = length ticks)
        /\ (forall e, Eff.run_end r3 = Eff.Raised e -> (k < length ticks)%nat))
  /\ (forall block data now,
        record_timestamp (SnmpV2.format_output target idx iso block data now)
        = Some (Json.JInt (Py.nanos now))
        /\ record_path (SnmpV2.format_output target idx iso block data now)
           = Some (Json.JStr ("IF-MIB:interface[index=" ++ Py.str idx ++ "]/" ++ block))
        /\ record_timestamp (SnmpV3.format_output target idx iso block data now)
           = Some (Json.JInt (Py.nanos now))
        /\ record_path (SnmpV3.format_output target idx iso block data now)
           = Some (Json.JStr ("IF-MIB:interface[index=" ++ Py.str idx ++ "]/" ++ block))
        /\ Py.int_of_float (Py.mul (Py.seconds now) Py.e9) = Py.Ok (Py.nanos now)).
Proof.
  intros r2 r3.
  split; [| split; [| split; [| split; [| split; [| split]]]]].
  - intros sess now. apply snmp_v2_cycle_outcome.
  - intros sess now. apply snmp_v3_cycle_outcome.
  - reflexivity.
  - reflexivity.
  - apply snmp_v2_loop_records.
  - apply snmp_v3_loop_records.
  - intros block data now.
    destruct (snmp_v2_record_header target idx iso block data now) as [H1 H2].
    destruct (snmp_v3_record_header target idx iso block data now) as [H3 H4].
    pose proof (FloatFacts.nanos_spec now). auto.
Qed.

(** The amended C10 on the first two cycles of a run, at the times 10 and
    15, against a device whose counters read 1000 and then 2000: the run is
    interrupted after them and has written four records, in two pairs. *)
Lemma first_two_cycles_witness :
  exists recs,
    Eff.run_file
      (SnmpV2.monitor no_time
         [(constant_session "1000", clock 10); (constant_session "2000", clock 15)])
    = recs
    /\ paired_records
         (SnmpV2.format_output SnmpV2.TARGET SnmpV2.INTERFACE_INDEX no_time)
         [clock 10; clock 15] recs
    /\ length recs = 4%nat.
Proof.
  destruct (cycle_writes_statistics_then_rate
              SnmpV2.TARGET SnmpV2.INTERFACE_INDEX no_time
              [(constant_session "1000", clock 10); (constant_session "2000", clock 15)]
              Snmp.initial_state [] [])
    as (_ & _ & _ & _ & (k & recs & Hk & Hfile & Hrecs & Hend & _) & _).
  assert (E : k = 2%nat) by (apply Hend; vm_compute; reflexivity).
  subst k. exists recs. split; [exact Hfile|]. split; [exact Hrecs|].
  cbn [firstn map snd] in Hrecs.
  inversion Hrecs as [|? ? ? ? ? H1]; subst.
  inversion H1 as [|? ? ? ? ? H2]; subst.
  inversion H2; subst. reflexivity.
Defined.

(** ** The envelope, written and read back *)

(** A field of the JSON object of a sample is the value of the sample. *)
Lemma get_of_stats (d : stats_dict) (k : string) :
  Json.field (Json.of_stats d) k = option_map Json.of_value (Dict.get d k).
Proof.
  unfold Json.of_stats, Json.field.
  induction d as [|[k' v] d IH]; cbn [map Dict.get fst snd]; [reflexivity|].
  destruct (String.eqb k' k); [reflexivity | exact IH].
Qed.

Lemma snmp_v2_counter_field (target : string) (idx : Z) (iso : Py.time -> string)
    (block : string) (stats : stats_dict) (ts : Py.time) (k : string) :
  counter_field (SnmpV2.format_output target idx iso block stats ts) block k
  = option_map Json.of_value (Dict.get stats k).
Proof.
  unfold counter_field, SnmpV2.format_output.
  cbn [Json.field Json.index Dict.get String.eqb Ascii.eqb Bool.eqb and_then nth_error].
  rewrite String.eqb_refl. cbn [and_then]. apply get_of_stats.
Qed.

Lemma netconf_counter_field_eq (i : string) (strftime : Py.time -> string)
    (stats rate : stats_dict) (ts : Py.time) (out : Json.t) (name key s : string) :
  Netconf.format_output i strftime stats rate ts = Py.Ok out ->
  In (name, key) netconf_counter_names ->
  Dict.get stats key = Some (Py.VStr s) ->
  netconf_counter_field out name = Some (Json.JStr s).
Proof.
  unfold Netconf.format_output. intros H Hin Hget.
  destruct (Dict.item rate "in-bps") as [x|e]; [|discriminate H].
  destruct (Dict.item rate "out-bps") as [y|e]; [|discriminate H].
  cbn [Py.rbind] in H. injection H as <-.
  unfold netconf_counter_names in Hin. cbn [In] in Hin.
  repeat (destruct Hin as [Hin|Hin];
          [injection Hin as <- <-;
           unfold netconf_counter_field, Netconf.statistics_data, Netconf.get_or;
           rewrite Hget; reflexivity|]).
  contradiction.
Qed.


(** C8 on a 64-bit counter above [2^53]: the line holds the counter between
    quotes, and the reader gets the string back, digit for digit. *)
Lemma counter_above_2_53_round_trip :
  let stats := [("in-octets", Py.VStr "18446744073709551615")] in
  let env := SnmpV2.format_output SnmpV2.TARGET 2 no_time "statistics" stats (clock 10) in
  and_then (Json.loads (Json.dumps true env))
    (fun doc => counter_field doc "statistics" "in-octets")
  = Some (Json.JStr "18446744073709551615")
  /\ Py.int_of_str "18446744073709551615" = Py.Ok (2 ^ 64 - 1)
  /\ 2 ^ 53 < 2 ^ 64 - 1.
Proof. repeat split; vm_compute; reflexivity. Qed.

(** * Further properties of the scripts *)

(** ** Shared facts *)

(** [int(d.get(k, 0))] raises [ValueError] or [TypeError] only. *)
Lemma int_get_exn (d : stats_dict) (k : string) (e : Py.exn) :
  Dict.int_get d k = Py.Raise e -> e = Py.ValueError \/ e = Py.TypeError.
Proof.
  unfold Dict.int_get. destruct (Dict.get d k) as [[s|]|]; cbn.
  - unfold Py.int_of_str. destruct (Py.parse_int s); [discriminate|].
    intros H. injection H as <-. auto.
  - intros H. injection H as <-. auto.
  - discriminate.
Qed.

Lemma set_truthy {V : Type} (d : Dict.t V) (k : string) (v : V) :
  Dict.truthy (Dict.set d k v) = true.
Proof.
  destruct d as [|[k' v'] r]; cbn; [reflexivity|].
  destruct (String.eqb k' k); reflexivity.
Qed.

(** A bind that returns has run its first part, then the second. *)
Lemma bind_ok {W A B : Type} (m : Eff.M W A) (k : A -> Eff.M W B) (w : W) (b : B) :
  fst (Eff.bind m k w) = Py.Ok b ->
  exists a w', m w = (Py.Ok a, w') /\ fst (k a w') = Py.Ok b.
Proof.
  unfold Eff.bind. destruct (m w) as [[a|e] w']; [|discriminate].
  intros H. exists a, w'. split; [reflexivity | exact H].
Qed.

Ltac open_bind H :=
  let a := fresh "a" in
  let w := fresh "w" in
  let Hm := fresh "Hm" in
  apply bind_ok in H; destruct H as (a & w & Hm & H); cbv beta in H.

(** Under the guard [dt > 0] the rate string is computed, or the division
    overflows. *)
Lemma bps_cases (dt : Py.float) (a b : Z) :
  Py.gt0 dt = true ->
  (exists s, Snmp.bps (a - b) dt = Py.Ok s)
  \/ Snmp.bps (a - b) dt = Py.Raise Py.OverflowError.
Proof.
  intros G. rewrite bps_rate_of. pose proof (rate_of_cases dt a b G) as C.
  destruct (rate_of dt a b) as [z|e]; cbn [Py.rbind].
  - left. eexists. reflexivity.
  - right. subst e. reflexivity.
Qed.

(** ** [if-stats-snmp-v2.py]: a run on a device that answers with numbers *)

Lemma snmp_v2_stats_numeric (sess : Snmp.session) (idx : Z) (l : Snmp.log) :
  numeric_session idx sess ->
  exists stats l' a c,
    SnmpV2.get_interface_stats sess idx l = (Py.Ok stats, l')
    /\ Dict.int_item stats "in-octets" = Py.Ok a
    /\ Dict.int_item stats "out-octets" = Py.Ok c.
Proof.
  intros N.
  unfold SnmpV2.get_interface_stats.
  unfold Eff.bind at 1. rewrite snmp_v2_get_value.
  unfold Eff.bind at 1. rewrite snmp_v2_get_value.
  set (c := negb _ || negb _).
  destruct c;
    unfold Eff.bind; rewrite !snmp_v2_fetch_into;
    unfold Eff.lift, Eff.ret, SnmpV2.total, Dict.int_get;
    cbn [Dict.set Dict.get Dict.empty String.eqb Ascii.eqb Bool.eqb Py.rbind Py.int];
    repeat match goal with
           | |- context [Py.int_of_str (snmp_v2_value sess idx ?ob)] =>
               let n := fresh "n" in
               let E := fresh "E" in
               destruct (N ob) as [n E]; rewrite E; cbn [Py.rbind]
           end;
    cbn [fst].
  - destruct (N ".1.3.6.1.2.1.31.1.1.1.6") as [a Ea].
    destruct (N ".1.3.6.1.2.1.31.1.1.1.10") as [c Ec].
    do 2 eexists. exists a, c. split; [reflexivity|].
    unfold Dict.int_item, Dict.item;
      cbn [Dict.set Dict.get Dict.empty String.eqb Ascii.eqb Bool.eqb Py.rbind Py.int].
    rewrite Ea, Ec. split; reflexivity.
  - destruct (N ".1.3.6.1.2.1.2.2.1.10") as [a Ea].
    destruct (N ".1.3.6.1.2.1.2.2.1.16") as [c Ec].
    do 2 eexists. exists a, c. split; [reflexivity|].
    unfold Dict.int_item, Dict.item;
      cbn [Dict.set Dict.get Dict.empty String.eqb Ascii.eqb Bool.eqb Py.rbind Py.int].
    rewrite Ea, Ec. split; reflexivity.
Qed.

(** Against a state whose counters are integers the rate computation
    returns, or a division overflows. *)
Lemma snmp_v2_rate_outcome (self : Snmp.poll_state) (stats : stats_dict)
    (now : Py.float) (a c : Z) :
  integer_state self ->
  Dict.int_item stats "in-octets" = Py.Ok a ->
  Dict.int_item stats "out-octets" = Py.Ok c ->
  (exists rate,
      SnmpV2.calculate_traffic_rate self stats now
      = Py.Ok (rate, {| Snmp.prev_stats := stats; Snmp.prev_timestamp := Some now |}))
  \/ SnmpV2.calculate_traffic_rate self stats now = Py.Raise Py.OverflowError.
Proof.
  intros I Ha Hc. unfold SnmpV2.calculate_traffic_rate.
  destruct (Dict.truthy (Snmp.prev_stats self)
            && Py.opt_float_truthy (Snmp.prev_timestamp self));
    [|left; eexists; reflexivity].
  destruct (Snmp.prev_timestamp self) as [pt|] eqn:P; [|left; eexists; reflexivity].
  destruct (Py.gt0 (Py.sub now pt)) eqn:G; [|left; eexists; reflexivity].
  destruct I as [I | (b & d & Hb & Hd)]; [congruence|].
  rewrite Ha, Hb, Hc, Hd. cbn [Py.rbind].
  destruct (bps_cases (Py.sub now pt) a b G) as [[s ->] | ->]; cbn [Py.rbind];
    [|right; reflexivity].
  destruct (bps_cases (Py.sub now pt) c d G) as [[s' ->] | ->]; cbn [Py.rbind];
    [|right; reflexivity].
  left. eexists. reflexivity.
Qed.

(** The invariant of the loop: the state stays one whose counters are
    integers. *)
Lemma snmp_v2_numeric_loop (target : string) (idx : Z) (iso : Py.time -> string)
    (ticks : list (Snmp.session * Py.time)) :
  forall (self : Snmp.poll_state) (f : Snmp.file) (l : Snmp.log),
    Forall (fun t => numeric_session idx (fst t)) ticks ->
    integer_state self ->
    let r := SnmpV2.monitor_loop target idx iso ticks self f l in
    exists k,
      (k <= length ticks)%nat
      /\ length (Eff.run_file r) = (length f + 2 * k)%nat
      /\ match Eff.run_end r with
         | Eff.Interrupted => k = length ticks
         | Eff.Raised e => e = Py.OverflowError /\ (k < length ticks)%nat
         end.
Proof.
  induction ticks as [|[sess now] rest IH]; intros self f l A I.
  - exists 0%nat. cbn. repeat split; lia.
  - inversion A as [|x xs N A']; subst. cbn [fst] in N.
    cbn [SnmpV2.monitor_loop].
    destruct (snmp_v2_stats_numeric sess idx l N) as (stats & l' & a & c & Hs & Ha & Hc).
    unfold SnmpV2.monitor_cycle, Eff.bind, Eff.lift. rewrite Hs.
    destruct (snmp_v2_rate_outcome self stats (Py.seconds now) a c I Ha Hc)
      as [[rate Hr] | Hr]; rewrite Hr.
    + unfold Eff.ret.
      match goal with
      | |- context [SnmpV2.monitor_loop _ _ _ rest ?s ?f' ?l1] =>
          destruct (IH s f' l1 A') as (k & Hk & Hl & He)
      end.
      { right. exists a, c. split; assumption. }
      exists (S k). cbv zeta in *. split; [cbn [length]; lia|]. split.
      * rewrite Hl. unfold Snmp.dump_line. rewrite !length_app. cbn [length]. lia.
      * destruct (Eff.run_end _) as [|e].
        -- cbn [length]. lia.
        -- destruct He as [He Hlt]. split; [exact He | cbn [length]; lia].
    + exists 0%nat. cbn. repeat split; lia.
Qed.



(** A counter of 310 digits reads as an integer, and is too large for a
    float: the second pass raises [OverflowError]. *)
Lemma snmp_v2_numeric_run_overflows :
  let r := SnmpV2.monitor no_time
             [(constant_session "0", clock 5);
              (constant_session (Py.str (10 ^ 309)), clock 10)] in
  Eff.run_end r = Eff.Raised Py.OverflowError /\ length (Eff.run_file r) = 2%nat.
Proof. split; vm_compute; reflexivity. Qed.

(** ** [if-stats-snmp-v3.py] *)

(** The two rate computations return together, and the same. *)
Lemma snmp_rate_v3_against_v2 (self : Snmp.poll_state) (stats : stats_dict)
    (now : Py.float) :
  match SnmpV2.calculate_traffic_rate self stats now with
  | Py.Ok r => SnmpV3.calculate_traffic_rate self stats now = Py.Ok r
  | Py.Raise _ => exists e, SnmpV3.calculate_traffic_rate self stats now = Py.Raise e
  end.
Proof.
  unfold SnmpV3.calculate_traffic_rate, SnmpV2.calculate_traffic_rate.
  destruct (Dict.truthy (Snmp.prev_stats self)
            && Py.opt_float_truthy (Snmp.prev_timestamp self));
    [|reflexivity].
  destruct (Snmp.prev_timestamp self) as [pt|]; [|reflexivity].
  destruct (Py.gt0 (Py.sub now pt)) eqn:G; [|reflexivity].
  destruct (Dict.int_item stats "in-octets") as [a|e]; cbn [Py.rbind];
    [|eexists; reflexivity].
  destruct (Dict.int_item (Snmp.prev_stats self) "in-octets") as [b|e]; cbn [Py.rbind];
    [|eexists; reflexivity].
  destruct (Dict.int_item stats "out-octets") as [c|e]; cbn [Py.rbind].
  2:{ destruct (Snmp.bps (a - b) (Py.sub now pt)); cbn [Py.rbind]; eexists; reflexivity. }
  destruct (Dict.int_item (Snmp.prev_stats self) "out-octets") as [d|e]; cbn [Py.rbind].
  2:{ destruct (Snmp.bps (a - b) (Py.sub now pt)); cbn [Py.rbind]; eexists; reflexivity. }
  destruct (Snmp.bps (a - b) (Py.sub now pt)); cbn [Py.rbind]; [|eexists; reflexivity].
  destruct (Snmp.bps (c - d) (Py.sub now pt)); cbn [Py.rbind]; [|eexists; reflexivity].
  reflexivity.
Qed.

(** X3. The rate computation of [if-stats-snmp-v3.py] against the one of
    [if-stats-snmp-v2.py], on the same state, sample and reading of the
    clock: one returns exactly when the other does, with the same rate and
    the same new state, and one raises exactly when the other does. They do
    not always raise the same exception, because the v3 script computes the
    inbound rate before it reads the outbound counters: on an inbound counter
    of 310 digits and an outbound counter that is not a number, the v2 script
    raises [ValueError] and the v3 script [OverflowError]. *)
Theorem snmp_rate_v2_v3_agree (self : Snmp.poll_state) (stats : stats_dict)
    (now : Py.float) :
  (forall r, SnmpV3.calculate_traffic_rate self stats now = Py.Ok r
             <-> SnmpV2.calculate_traffic_rate self stats now = Py.Ok r)
  /\ ((exists e, SnmpV3.calculate_traffic_rate self stats now = Py.Raise e)
      <-> (exists e, SnmpV2.calculate_traffic_rate self stats now = Py.Raise e))
  /\ (let self := {| Snmp.prev_stats := sample "0" "0";
                     Snmp.prev_timestamp := Some (secs 1) |} in
      let stats := sample (Py.str (10 ^ 309)) "abc" in
      SnmpV2.calculate_traffic_rate self stats (secs 6) = Py.Raise Py.ValueError
      /\ SnmpV3.calculate_traffic_rate self stats (secs 6) = Py.Raise Py.OverflowError).
Proof.
  pose proof (snmp_rate_v3_against_v2 self stats now) as H.
  split; [| split].
  - intros r. destruct (SnmpV2.calculate_traffic_rate self stats now) as [r2|e2].
    + rewrite H. reflexivity.
    + destruct H as [e3 ->]. split; discriminate.
  - destruct (SnmpV2.calculate_traffic_rate self stats now) as [r2|e2].
    + rewrite H. split; intros [e E]; discriminate E.
    + destruct H as [e3 ->]. split; intros _; eexists; reflexivity.
  - split; vm_compute; reflexivity.
Qed.


(** The decimal writing of an integer is not an error marker. *)
Lemma str_not_marker (n : Z) : error_marker (Py.str n) = false.
Proof.
  unfold error_marker.
  destruct (String.eqb (Py.str n) "NOSUCHINSTANCE") eqn:E1.
  - apply String.eqb_eq in E1. pose proof (PyFacts.int_of_str_str n) as H.
    rewrite E1 in H. vm_compute in H. discriminate H.
  - destruct (String.eqb (Py.str n) "NOSUCHOBJECT") eqn:E2; [|reflexivity].
    apply String.eqb_eq in E2. pose proof (PyFacts.int_of_str_str n) as H.
    rewrite E2 in H. vm_compute in H. discriminate H.
Qed.

Lemma marker_free_set (d : stats_dict) (k v : string) :
  marker_free d -> error_marker v = false -> marker_free (Dict.set d k (Py.VStr v)).
Proof.
  intros Hd Hv. induction Hd as [|[k0 v0] r H0 Hr IH]; cbn [Dict.set].
  - repeat constructor. exact Hv.
  - destruct (String.eqb k0 k).
    + constructor; [exact Hv | exact Hr].
    + constructor; [exact H0 | exact IH].
Qed.

Lemma snmp_v3_value_clean (sess : Snmp.session) (idx : Z) (ob : string)
    (l l' : Snmp.log) (v : string) :
  SnmpV3.get_snmp_value sess idx ob l = (Py.Ok v, l') -> error_marker v = false.
Proof.
  unfold SnmpV3.get_snmp_value, Eff.try_except, Eff.bind, Snmp.session_get.
  destruct (sess _) as [[x|]|e].
  - fold (error_marker x). destruct (error_marker x) eqn:E; cbn [negb];
      intros H; injection H as <- _; [reflexivity | exact E].
  - intros H; injection H as <- _. reflexivity.
  - destruct e; intros H; try discriminate H. injection H as <- _. reflexivity.
Qed.

Lemma snmp_v3_fetch_clean (sess : Snmp.session) (idx : Z) (stats : stats_dict)
    (key ob : string) (l l' : Snmp.log) (stats' : stats_dict) :
  SnmpV3.fetch_into sess idx stats key ob l = (Py.Ok stats', l') ->
  marker_free stats -> marker_free stats'.
Proof.
  unfold SnmpV3.fetch_into, Eff.bind.
  destruct (SnmpV3.get_snmp_value sess idx ob l) as [[v|e] l1] eqn:E; [|discriminate].
  unfold Eff.ret. intros H. injection H as <- _. intros Hs.
  apply marker_free_set; [exact Hs|].
  exact (snmp_v3_value_clean sess idx ob l l1 v E).
Qed.

Ltac fetch_step H C :=
  let a := fresh "a" in
  let w := fresh "w" in
  let Hm := fresh "Hm" in
  apply bind_ok in H; destruct H as (a & w & Hm & H); cbv beta in H;
  apply snmp_v3_fetch_clean in Hm; [| exact C]; clear C; rename Hm into C.

Ltac last_fetch H C :=
  match type of H with
  | fst ?m = Py.Ok ?d =>
      let r := fresh "r" in
      let w := fresh "w" in
      let E := fresh "E" in
      destruct m as [r w] eqn:E; cbn [fst] in H; subst r;
      exact (snmp_v3_fetch_clean _ _ _ _ _ _ _ _ E C)
  end.

(** X4. No value of a sample that [get_interface_stats] of
    [if-stats-snmp-v3.py] returns is [NOSUCHINSTANCE] or [NOSUCHOBJECT]: the
    markers of the SNMP library never reach the output file or the rate
    computation. *)
Theorem snmp_v3_sample_has_no_error_marker
    (sess : Snmp.session) (idx : Z) (l : Snmp.log) (stats : stats_dict) :
  fst (SnmpV3.get_interface_stats sess idx l) = Py.Ok stats ->
  marker_free stats.
Proof.
  unfold SnmpV3.get_interface_stats. intros H.
  open_bind H. pose proof (snmp_v3_value_clean _ _ _ _ _ _ Hm) as C1.
  open_bind H. pose proof (snmp_v3_value_clean _ _ _ _ _ _ Hm0) as C2.
  open_bind H.
  assert (C : marker_free a1).
  { apply (f_equal fst) in Hm1. cbn [fst] in Hm1.
    destruct (negb (String.eqb a "0") || negb (String.eqb a0 "0")).
    - assert (C0 : marker_free (Dict.set (Dict.set Dict.empty "in-octets" (Py.VStr a))
                                  "out-octets" (Py.VStr a0))).
      { apply marker_free_set; [apply marker_free_set; [constructor | exact C1]
                               | exact C2]. }
      do 5 fetch_step Hm1 C0. last_fetch Hm1 C0.
    - assert (C0 : marker_free (Dict.empty : stats_dict)) by constructor.
      do 7 fetch_step Hm1 C0. last_fetch Hm1 C0. }
  do 5 fetch_step H C.
  open_bind H. open_bind H.
  unfold Eff.ret in H. cbn [fst] in H. injection H as <-.
  apply marker_free_set; [apply marker_free_set; [exact C|] |]; apply str_not_marker.
Qed.

(** On a device that answers [NOSUCHOBJECT] to every request the sample
    holds zeros. *)
Lemma snmp_v3_sample_has_no_error_marker_witness :
  marker_free no_such_object_sample.
Proof.
  apply (snmp_v3_sample_has_no_error_marker (constant_session "NOSUCHOBJECT") 2 []
           no_such_object_sample).
  vm_compute. reflexivity.
Defined.

(** ** [if-stats-snmp-full.py] *)

(** [get_snmp_value] is the one of [if-stats-snmp-v2.py]. *)
Lemma snmp_full_get_value (sess : Snmp.session) (idx : Z) (ob : string) (l : Snmp.log) :
  SnmpFull.get_snmp_value sess idx ob l
  = (Py.Ok (snmp_v2_value sess idx ob), (l ++ [oid_of idx ob])%list).
Proof.
  unfold SnmpFull.get_snmp_value, Eff.try_except, Eff.bind, Snmp.session_get,
    snmp_v2_value, oid_of.
  destruct (sess (ob ++ "." ++ Py.str idx)) as [[v|]|e]; try reflexivity.
  destruct (String.eqb v "NOSUCHINSTANCE"); reflexivity.
Qed.

Lemma snmp_full_fetch_into (sess : Snmp.session) (idx : Z) (stats : stats_dict)
    (key ob : string) (l : Snmp.log) :
  SnmpFull.fetch_into sess idx stats key ob l
  = (Py.Ok (Dict.set stats key (Py.VStr (snmp_v2_value sess idx ob))),
     (l ++ [oid_of idx ob])%list).
Proof.
  unfold SnmpFull.fetch_into, Eff.bind. rewrite snmp_full_get_value. reflexivity.
Qed.

Ltac raised_value :=
  unfold Dict.int_get;
  cbn [Dict.set Dict.get Dict.empty String.eqb Ascii.eqb Bool.eqb Py.int];
  unfold Py.int_of_str;
  match goal with
  | H : Py.parse_int ?s = None |- context [Py.parse_int ?s] => rewrite H; reflexivity
  end.


Ltac rate_left_at_zero :=
  split; [reflexivity | split; [reflexivity | intros _; reflexivity]].

Ltac read_counter d k :=
  let v := fresh "v" in
  destruct (Dict.get d k) as [v|]; cbn [Py.rbind]; [|exact I];
  let n := fresh "n" in
  destruct v as [v|]; cbn [Py.int Py.rbind]; [|rate_left_at_zero];
  unfold Py.int_of_str;
  destruct (Py.parse_int v) as [n|]; cbn [Py.rbind]; [|rate_left_at_zero].

(** The two rate computations, case by case of what the v2 script does. *)
Lemma snmp_full_rate_against_v2 (self : Snmp.poll_state) (stats : stats_dict)
    (now : Py.float) :
  let after := {| Snmp.prev_stats := stats; Snmp.prev_timestamp := Some now |} in
  match SnmpV2.calculate_traffic_rate self stats now with
  | Py.Ok r => SnmpFull.calculate_traffic_rate self stats now = r
  | Py.Raise Py.KeyError => True
  | Py.Raise e =>
      snd (SnmpFull.calculate_traffic_rate self stats now) = after
      /\ Dict.get (fst (SnmpFull.calculate_traffic_rate self stats now)) "out-bps"
         = Some (Py.VStr "0")
      /\ (e <> Py.OverflowError ->
          SnmpFull.calculate_traffic_rate self stats now = (Snmp.zero_rate, after))
  end.
Proof.
  cbv zeta.
  unfold SnmpV2.calculate_traffic_rate, SnmpFull.calculate_traffic_rate,
    SnmpFull.rate_body, Snmp.bps.
  destruct (Dict.truthy (Snmp.prev_stats self)
            && Py.opt_float_truthy (Snmp.prev_timestamp self)); [|reflexivity].
  destruct (Snmp.prev_timestamp self) as [pt|]; [|reflexivity].
  destruct (Py.gt0 (Py.sub now pt)) eqn:G; [|reflexivity].
  unfold Dict.int_item, Dict.item, Dict.int_get.
  read_counter stats "in-octets".
  read_counter (Snmp.prev_stats self) "in-octets".
  read_counter stats "out-octets".
  read_counter (Snmp.prev_stats self) "out-octets".
  pose proof (FloatFacts.truediv_gt0 ((n - n0) * 8) (Py.sub now pt) G) as Ti.
  pose proof (FloatFacts.truediv_gt0 ((n1 - n2) * 8) (Py.sub now pt) G) as To.
  destruct (Py.truediv ((n - n0) * 8) (Py.sub now pt)) as [qi|ei]; cbn [Py.rbind].
  2:{ subst ei. split; [reflexivity | split; [reflexivity | intros N; contradiction]]. }
  pose proof (FloatFacts.int_of_float_signed _ qi Ti) as Ii.
  destruct (Py.truediv ((n1 - n2) * 8) (Py.sub now pt)) as [qo|eo]; cbn [Py.rbind].
  2:{ destruct (Py.int_of_float qi) as [zi|e]; cbn [Py.rbind]; subst;
        (split; [reflexivity | split; [reflexivity | intros N; contradiction]]). }
  pose proof (FloatFacts.int_of_float_signed _ qo To) as Io.
  destruct (Py.int_of_float qi) as [zi|e]; cbn [Py.rbind].
  2:{ subst e. split; [reflexivity | split; [reflexivity | intros N; contradiction]]. }
  destruct (Py.int_of_float qo) as [zo|e]; cbn [Py.rbind]; [reflexivity|].
  subst e. split; [reflexivity | split; [reflexivity | intros N; contradiction]].
Qed.

(** X6. The rate computation of [if-stats-snmp-full.py] against the one of
    [if-stats-snmp-v2.py], on the same state, sample and reading of the clock.
    Where the v2 script returns, the full script returns the same rate and
    new state. Where the v2 script raises, on another exception than a
    missing key, the full script still replaces the state with the current
    sample and reading, and its rate reports ['out-bps'] as ["0"]; the rate is
    the zero rate unless the exception is an [OverflowError]. It need not be
    then: when only the outbound quotient is an infinity, the inbound rate
    is already stored (on a sample that grew by 1000 and by [2 * 10^307]
    octets in half a second, the v2 script raises and the full script reports
    ['in-bps'] as ["16000"]). *)
Theorem snmp_full_rate_refines_v2 (self : Snmp.poll_state) (stats : stats_dict)
    (now : Py.float) :
  let after := {| Snmp.prev_stats := stats; Snmp.prev_timestamp := Some now |} in
  (forall r, SnmpV2.calculate_traffic_rate self stats now = Py.Ok r ->
             SnmpFull.calculate_traffic_rate self stats now = r)
  /\ (forall e, SnmpV2.calculate_traffic_rate self stats now = Py.Raise e ->
                e <> Py.KeyError ->
                snd (SnmpFull.calculate_traffic_rate self stats now) = after
                /\ Dict.get (fst (SnmpFull.calculate_traffic_rate self stats now))
                     "out-bps" = Some (Py.VStr "0")
                /\ (e <> Py.OverflowError ->
                    SnmpFull.calculate_traffic_rate self stats now
                    = (Snmp.zero_rate, after)))
  /\ (let self := {| Snmp.prev_stats := sample "0" "0";
                     Snmp.prev_timestamp := Some (secs 1) |} in
      let stats := sample "1000" (Py.str (2 * 10 ^ 307)) in
      let now := Py.dyadic 3 (-1) in
      SnmpV2.calculate_traffic_rate self stats now = Py.Raise Py.OverflowError
      /\ SnmpFull.calculate_traffic_rate self stats now
         = ([("in-bps", Py.VStr "16000"); ("out-bps", Py.VStr "0")],
            {| Snmp.prev_stats := stats; Snmp.prev_timestamp := Some now |})).
Proof.
  pose proof (snmp_full_rate_against_v2 self stats now) as H. cbv zeta in *.
  split; [| split].
  - intros r E. rewrite E in H. exact H.
  - intros e E N. rewrite E in H. destruct e; try exact H. contradiction.
  - split; vm_compute; reflexivity.
Qed.

Lemma snmp_full_stats_run (sess : Snmp.session) (idx : Z) (l : Snmp.log) :
  exists stats l',
    SnmpFull.get_interface_stats sess idx l = (Py.Ok stats, l')
    /\ Dict.truthy stats = true.
Proof.
  unfold SnmpFull.get_interface_stats.
  unfold Eff.bind at 1. rewrite snmp_full_get_value.
  unfold Eff.bind at 1. rewrite snmp_full_get_value.
  set (c := negb _ || negb _).
  destruct c; unfold Eff.bind; rewrite !snmp_full_fetch_into;
    eexists; eexists; (split; [reflexivity | apply set_truthy]).
Qed.

(** A pass of the loop: it never takes the [except Exception] branch. *)
Lemma snmp_full_cycle (sess : Snmp.session) (target : string) (idx : Z)
    (strf : Py.time -> string) (start : Py.time) (dur : option Py.num) (now : Py.time)
    (self : Snmp.poll_state) (f : Snmp.file) (l : Snmp.log) :
  exists stats l',
    SnmpFull.get_interface_stats sess idx l = (Py.Ok stats, l')
    /\ SnmpFull.monitor_cycle sess target idx strf start dur now self f l
       = (Py.Ok (snd (SnmpFull.calculate_traffic_rate self stats (Py.seconds now)),
                 (f ++ [SnmpFull.format_output target idx strf "statistics" stats now;
                        SnmpFull.format_output target idx strf "traffic-rate"
                          (fst (SnmpFull.calculate_traffic_rate self stats
                                  (Py.seconds now))) now])%list,
                 Eff.due dur (Py.seconds start) (Py.seconds now)), l').
Proof.
  destruct (snmp_full_stats_run sess idx l) as (stats & l' & Hs & Ht).
  exists stats, l'. split; [exact Hs|].
  unfold SnmpFull.monitor_cycle, Eff.try_except, Eff.bind. rewrite Hs, Ht.
  destruct (SnmpFull.calculate_traffic_rate self stats (Py.seconds now)) as [rate st'].
  unfold Eff.ret, Snmp.dump_line. cbn [fst snd]. rewrite <- List.app_assoc. reflexivity.
Qed.

(** X7. In every run of the loop of [monitor] of [if-stats-snmp-full.py],
    whatever the session does, each pass writes exactly two records, a
    [statistics] record then a [traffic-rate] record of the same reading of
    the clock, and no pass ends the run by an exception. The run ends by the
    interrupt, after every pass, none of which was due; or by the duration
    test, at the first pass whose reading of the clock is past the duration,
    that pass included. *)
Theorem snmp_full_run_records (target : string) (idx : Z) (strf : Py.time -> string)
    (start : Py.time) (dur : option Py.num)
    (ticks : list (Snmp.session * Py.time)) :
  forall (self : Snmp.poll_state) (f : Snmp.file) (l : Snmp.log),
    let r := SnmpFull.monitor_loop target idx strf start dur ticks self f l in
    exists k recs,
      (k <= length ticks)%nat
      /\ Eff.timed_file r = (f ++ recs)%list
      /\ paired_records (SnmpFull.format_output target idx strf)
           (firstn k (map snd ticks)) recs
      /\ Forall (fun now => Eff.due dur (Py.seconds start) (Py.seconds now) = false)
           (firstn (pred k) (map snd ticks))
      /\ match Eff.timed_stop r with
         | Eff.DurationReached =>
             exists now, nth_error (map snd ticks) (pred k) = Some now
                         /\ (0 < k)%nat /\ Eff.due dur (Py.seconds start) (Py.seconds now) = true
         | Eff.Stopped Eff.Interrupted =>
             k = length ticks
             /\ Forall (fun now => Eff.due dur (Py.seconds start) (Py.seconds now) = false)
                  (map snd ticks)
         | Eff.Stopped (Eff.Raised _) => False
         end.
Proof.
  induction ticks as [|[sess now] rest IH]; intros self f l.
  - exists 0%nat, []. cbn. rewrite List.app_nil_r.
    repeat split; constructor.
  - cbn [SnmpFull.monitor_loop].
    destruct (snmp_full_cycle sess target idx strf start dur now self f l)
      as (stats & l' & _ & ->).
    destruct (Eff.due dur (Py.seconds start) (Py.seconds now)) eqn:D.
    + exists 1%nat. eexists. cbn [Eff.timed_file Eff.timed_stop].
      split; [cbn; lia|]. split; [reflexivity|]. split; [| split].
      * cbn [map snd firstn]. repeat constructor.
      * cbn. constructor.
      * exists now. cbn. repeat split; [lia | exact D].
    + destruct (IH (snd (SnmpFull.calculate_traffic_rate self stats (Py.seconds now)))
                  (f ++ [SnmpFull.format_output target idx strf "statistics" stats now;
                         SnmpFull.format_output target idx strf "traffic-rate"
                           (fst (SnmpFull.calculate_traffic_rate self stats
                                   (Py.seconds now))) now])%list
                  l') as (k & recs & Hk & Hfile & Hrecs & Hpre & Hend).
      exists (S k). eexists. split; [cbn; lia|]. split; [| split; [| split]].
      * cbv zeta. rewrite Hfile, <- List.app_assoc. reflexivity.
      * cbn [map snd firstn app]. constructor. exact Hrecs.
      * cbv zeta in Hend.
        destruct k as [|k'].
        -- cbn. constructor.
        -- cbn [pred map snd firstn]. constructor; [exact D | exact Hpre].
      * cbv zeta in Hend |- *.
        destruct (Eff.timed_stop _) as [|[|e]].
        -- destruct Hend as (t & Hn & Hk0 & Ht). exists t.
           destruct k as [|k']; [lia|]. cbn [pred map snd nth_error] in *.
           repeat split; [exact Hn | lia | exact Ht].
        -- destruct Hend as [-> Hall]. split; [reflexivity|].
           cbn [map snd]. constructor; [exact D | exact Hall].
        -- exact Hend.
Qed.

Lemma snmp_full_value_of (sess : Snmp.session) (oid : string) (l : Snmp.log) :
  SnmpFull.value_of sess oid l
  = (match sess oid with
     | Py.Ok (Some v) => Py.Ok v
     | Py.Ok None => Py.Raise Py.OtherError
     | Py.Raise e => Py.Raise e
     end, (l ++ [oid])%list).
Proof.
  unfold SnmpFull.value_of, Eff.bind, Snmp.session_get.
  destruct (sess oid) as [[v|]|e]; reflexivity.
Qed.

(** X8. [monitor] of [if-stats-snmp-full.py] runs its loop, and opens the
    output file, exactly when the session answers the three requests of
    [test_connection] (system description, up time, number of interfaces)
    with a value; the two reads of the interface name and description that
    follow cannot make the test fail. *)
Theorem snmp_full_monitor_needs_connection
    (strf : Py.time -> string) (idx : Z) (first : Snmp.session) (start : Py.time)
    (dur : option Py.num) (ticks : list (Snmp.session * Py.time)) :
  SnmpFull.monitor strf idx first start dur ticks <> None
  <-> answers first SYS_DESCR /\ answers first SYS_UPTIME /\ answers first IF_NUMBER.
Proof.
  unfold SnmpFull.monitor, SnmpFull.test_connection, Eff.try_except,
    answers, SYS_DESCR, SYS_UPTIME, IF_NUMBER.
  unfold Eff.bind at 1. rewrite snmp_full_value_of.
  destruct (first ".1.3.6.1.2.1.1.1.0") as [[v1|]|e1].
  2,3: split; [intros H; exfalso; apply H; reflexivity
              | intros ([v H] & _); discriminate H].
  unfold Eff.bind at 1. rewrite snmp_full_value_of.
  destruct (first ".1.3.6.1.2.1.1.3.0") as [[v2|]|e2].
  2,3: split; [intros H; exfalso; apply H; reflexivity
              | intros (_ & [v H] & _); discriminate H].
  unfold Eff.bind at 1. rewrite snmp_full_value_of.
  destruct (first ".1.3.6.1.2.1.2.1.0") as [[v3|]|e3].
  2,3: split; [intros H; exfalso; apply H; reflexivity
              | intros (_ & _ & [v H]); discriminate H].
  unfold Eff.bind. rewrite !snmp_full_get_value. unfold Eff.ret.
  split; [intros _; repeat split; eexists; reflexivity | discriminate].
Qed.

(** *** Interface discovery *)

Lemma split_not_empty (sep : ascii) (s : string) : Py.split sep s <> [].
Proof.
  destruct s as [|c r]; cbn; [discriminate|].
  destruct (Ascii.eqb c sep); [discriminate|].
  destruct (Py.split sep r); discriminate.
Qed.

Lemma split_length (sep : ascii) (s : string) :
  (0 <? Z.of_nat (length (Py.split sep s))) = true.
Proof.
  pose proof (split_not_empty sep s) as H.
  destruct (Py.split sep s); [contradiction|]. reflexivity.
Qed.

Lemma search_cons (name : string) (item : string * string)
    (rest : list (string * string)) :
  SnmpFull.search name (item :: rest)
  = if names_interface name item
    then index <~ Py.int_of_str (last_component (fst item)) ;; Py.Ok (Some index)
    else SnmpFull.search name rest.
Proof.
  destruct item as [oid value]. cbn [SnmpFull.search names_interface fst snd].
  rewrite split_length. reflexivity.
Qed.

Lemma search_skips (name : string) (pre rest : list (string * string)) :
  Forall (fun item => names_interface name item = false) pre ->
  SnmpFull.search name (pre ++ rest) = SnmpFull.search name rest.
Proof.
  induction 1 as [|item pre H _ IH]; [reflexivity|].
  rewrite <- List.app_comm_cons, search_cons, H. exact IH.
Qed.

Lemma search_none (name : string) (items : list (string * string)) :
  Forall (fun item => names_interface name item = false) items ->
  SnmpFull.search name items = Py.Ok None.
Proof.
  intros H. rewrite <- (List.app_nil_r items). rewrite search_skips by exact H.
  reflexivity.
Qed.

(** X9. [discover_and_set_interface] of [if-stats-snmp-full.py]: when the
    walk of the descriptions returns, the first variable whose description
    contains the interface name (as a substring, letter case apart) decides;
    if the last component of its OID is an integer, that integer is the
    index, and no other request is sent. *)
Theorem snmp_full_discovery_first_match
    (walk : SnmpFull.walker) (name : string) (input : Py.result string)
    (l : Snmp.log) (pre post : list (string * string)) (item : string * string)
    (n : Z) :
  walk IF_DESCR = Py.Ok (pre ++ item :: post)%list ->
  Forall (fun item => names_interface name item = false) pre ->
  names_interface name item = true ->
  Py.int_of_str (last_component (fst item)) = Py.Ok n ->
  SnmpFull.discover_and_set_interface walk name input l
  = (Py.Ok n, (l ++ [IF_DESCR])%list).
Proof.
  intros W P M I.
  unfold SnmpFull.discover_and_set_interface, Eff.bind, Eff.try_except,
    SnmpFull.session_walk, Eff.lift.
  change ".1.3.6.1.2.1.2.2.1.2" with IF_DESCR. rewrite W.
  rewrite (search_skips name pre (item :: post) P), search_cons, M, I.
  reflexivity.
Qed.

(** The name [Ethernet0/1] on a device whose table lists
    [GigabitEthernet0/10] (index 3) before [Ethernet0/1] (index 2): the
    index found is 3. *)
Lemma snmp_full_discovery_first_match_witness :
  SnmpFull.discover_and_set_interface three_interfaces SnmpFull.INTERFACE_NAME
    (Py.Raise Py.OtherError) []
  = (Py.Ok 3, ([] ++ [IF_DESCR])%list).
Proof.
  apply (snmp_full_discovery_first_match three_interfaces SnmpFull.INTERFACE_NAME
           (Py.Raise Py.OtherError) []
           [(".1.3.6.1.2.1.2.2.1.2.1", "Loopback0")]
           [(".1.3.6.1.2.1.2.2.1.2.2", "Ethernet0/1")]
           (".1.3.6.1.2.1.2.2.1.2.3", "GigabitEthernet0/10") 3).
  - reflexivity.
  - repeat constructor.
  - reflexivity.
  - reflexivity.
Defined.

Ltac default_index :=
  exists 1; eexists;
  split; [reflexivity | split; [left; reflexivity | intros _; reflexivity]].

(** X10. [discover_and_set_interface] when neither walk finds the interface:
    it never raises, and the index it leaves is the number typed at the
    prompt, or 1; it is 1 whenever what is typed (white space stripped) is not
    a digit string, and when nothing can be read. *)
Theorem snmp_full_discovery_manual
    (walk : SnmpFull.walker) (name : string) (input : Py.result string)
    (l : Snmp.log) :
  finds_nothing walk name IF_DESCR ->
  finds_nothing walk name IF_NAME ->
  exists i l',
    SnmpFull.discover_and_set_interface walk name input l = (Py.Ok i, l')
    /\ (i = 1 \/ exists line, input = Py.Ok line
                              /\ Py.isdigit (Py.strip line) = true
                              /\ Py.int_of_str (Py.strip line) = Py.Ok i)
    /\ ((forall line, input = Py.Ok line -> Py.isdigit (Py.strip line) = false) ->
        i = 1).
Proof.
  unfold finds_nothing, IF_DESCR, IF_NAME. intros D N.
  unfold SnmpFull.discover_and_set_interface, Eff.bind, Eff.try_except,
    SnmpFull.session_walk, Eff.lift, Eff.ret.
  destruct (walk ".1.3.6.1.2.1.2.2.1.2") as [descr|e].
  - rewrite (search_none name descr D).
    destruct (walk ".1.3.6.1.2.1.31.1.1.1.1") as [names|e'].
    + rewrite (search_none name names N).
      destruct (walk ".1.3.6.1.2.1.2.2.1.1") as [idx|e'']; [|default_index].
      destruct input as [line|e'']; [|default_index].
      destruct (Py.str_truthy (Py.strip line)); cbn [andb]; [|default_index].
      destruct (Py.isdigit (Py.strip line)) eqn:Dg; [|default_index].
      destruct (Py.int_of_str (Py.strip line)) as [n|e''] eqn:In; [|default_index].
      exists n. eexists. split; [reflexivity|]. split.
      * right. exists line. repeat split; assumption.
      * intros H. specialize (H line eq_refl). congruence.
    + destruct (walk ".1.3.6.1.2.1.2.2.1.1"); default_index.
  - destruct (walk ".1.3.6.1.2.1.31.1.1.1.1") as [names|e'].
    + rewrite (search_none name names N).
      destruct (walk ".1.3.6.1.2.1.2.2.1.1"); default_index.
    + destruct (walk ".1.3.6.1.2.1.2.2.1.1"); default_index.
Qed.

(** On a device whose only interface is a loopback, with [ 7 ] typed at the
    prompt: the index is 7. *)
Lemma snmp_full_discovery_manual_witness :
  exists i l',
    SnmpFull.discover_and_set_interface loopback_only SnmpFull.INTERFACE_NAME
      (Py.Ok " 7 ") [] = (Py.Ok i, l')
    /\ (i = 1 \/ exists line, Py.Ok " 7 " = Py.Ok line
                              /\ Py.isdigit (Py.strip line) = true
                              /\ Py.int_of_str (Py.strip line) = Py.Ok i)
    /\ ((forall line, Py.Ok " 7 " = Py.Ok line -> Py.isdigit (Py.strip line) = false) ->
        i = 1).
Proof.
  apply (snmp_full_discovery_manual loopback_only SnmpFull.INTERFACE_NAME
           (Py.Ok " 7 ") []).
  - repeat constructor.
  - repeat constructor.
Defined.

(** ** [stats-if-snmp.py] *)

Lemma stats_if_snmp_get_value (sess : Snmp.session) (oid : string) (l : Snmp.log) :
  StatsIfSnmp.get_value sess oid l
  = (Py.Ok (snmp_v2_value sess StatsIfSnmp.INTERFACE_INDEX oid),
     (l ++ [oid_of StatsIfSnmp.INTERFACE_INDEX oid])%list).
Proof.
  unfold StatsIfSnmp.get_value, Eff.try_except, Eff.bind, Snmp.session_get,
    snmp_v2_value, oid_of.
  destruct (sess (oid ++ "." ++ Py.str StatsIfSnmp.INTERFACE_INDEX)) as [[v|]|e];
    try reflexivity.
  destruct (String.eqb v "NOSUCHINSTANCE"); reflexivity.
Qed.

(** A pass of [main]: it prints the rate and replaces the state, or, when the
    rate computation raises, prints no rate and keeps the state. *)
Lemma stats_if_snmp_cycle (sess : Snmp.session) (now : Py.float) (self : Snmp.poll_state)
    (l : Snmp.log) :
  exists l',
    StatsIfSnmp.main_cycle sess now self l
    = (Py.Ok (match StatsIfSnmp.traffic_of (Snmp.prev_stats self)
                      (Snmp.prev_timestamp self) (stats_if_snmp_sample sess) now with
              | Py.Ok traffic =>
                  (Some traffic, {| Snmp.prev_stats := stats_if_snmp_sample sess;
                                    Snmp.prev_timestamp := Some now |})
              | Py.Raise _ => (None, self)
              end), l').
Proof.
  unfold StatsIfSnmp.main_cycle, Eff.bind. rewrite !stats_if_snmp_get_value.
  change (Dict.literal _) with (stats_if_snmp_sample sess).
  destruct (StatsIfSnmp.traffic_of _ _ _ _); eexists; reflexivity.
Qed.

Lemma stats_if_snmp_traffic_raises (prev stats : stats_dict) (pt now : Py.float) :
  Dict.truthy prev = true -> Py.float_truthy pt = true ->
  Py.gt0 (Py.sub now pt) = true -> bad_octets prev ->
  exists e, StatsIfSnmp.traffic_of prev (Some pt) stats now = Py.Raise e.
Proof.
  intros T F G B. unfold StatsIfSnmp.traffic_of. cbn [Py.opt_float_truthy].
  rewrite T, F, G. cbn [andb].
  destruct (Dict.int_item stats "in-octets") as [a|e]; [|eexists; reflexivity].
  cbn [Py.rbind].
  destruct (Dict.int_item prev "in-octets") as [b|e] eqn:Eb; [|eexists; reflexivity].
  cbn [Py.rbind].
  destruct (Py.truediv ((a - b) * 8) (Py.sub now pt)) as [q|e]; [|eexists; reflexivity].
  cbn [Py.rbind].
  destruct (Dict.int_item stats "out-octets") as [c|e]; [|eexists; reflexivity].
  cbn [Py.rbind].
  destruct B as [[e B] | [e B]]; [rewrite Eb in B; discriminate B|].
  rewrite B. eexists; reflexivity.
Qed.

(** Once the state holds a sample with an octet counter that is not an
    integer, every later pass raises, and so keeps that state. *)
Lemma stats_if_snmp_stuck (ticks : list (Snmp.session * Py.float)) :
  forall (self : Snmp.poll_state) (pt : Py.float) (l : Snmp.log),
    Dict.truthy (Snmp.prev_stats self) = true ->
    Snmp.prev_timestamp self = Some pt ->
    Py.float_truthy pt = true ->
    bad_octets (Snmp.prev_stats self) ->
    Forall (fun t => Py.gt0 (Py.sub (snd t) pt) = true) ticks ->
    exists l',
      StatsIfSnmp.main_loop ticks self l = (repeat None (length ticks), self, l').
Proof.
  induction ticks as [|[sess now] rest IH]; intros self pt l T P F B A.
  - eexists. reflexivity.
  - cbn [StatsIfSnmp.main_loop].
    destruct (stats_if_snmp_cycle sess now self l) as [l1 ->].
    inversion A as [|x xs G A']; subst. cbn [snd] in G.
    rewrite P.
    destruct (stats_if_snmp_traffic_raises (Snmp.prev_stats self)
                (stats_if_snmp_sample sess) pt now T F G B) as [e ->].
    destruct (IH self pt l1 T P F B A') as [l2 ->].
    eexists. reflexivity.
Qed.

(** X11. In [stats-if-snmp.py], when an octet counter of the very first
    sample is not an integer (the device answers [NOSUCHOBJECT], say), the
    first pass prints the zero rate and keeps that sample as state; every
    later pass then raises on it, prints no rate and leaves the state as it
    is, whatever the device answers afterwards: the loop never recovers. *)
Theorem stats_if_snmp_first_sample_poisons
    (sess0 : Snmp.session) (t0 : Py.float) (ticks : list (Snmp.session * Py.float)) :
  bad_octets (stats_if_snmp_sample sess0) ->
  Py.float_truthy t0 = true ->
  Forall (fun t => Py.gt0 (Py.sub (snd t) t0) = true) ticks ->
  exists l,
    StatsIfSnmp.main ((sess0, t0) :: ticks)
    = (Some Snmp.zero_rate :: repeat None (length ticks),
       {| Snmp.prev_stats := stats_if_snmp_sample sess0;
          Snmp.prev_timestamp := Some t0 |}, l).
Proof.
  intros B F A. unfold StatsIfSnmp.main. cbn [StatsIfSnmp.main_loop].
  destruct (stats_if_snmp_cycle sess0 t0 Snmp.initial_state []) as [l1 ->].
  cbn [Snmp.initial_state Snmp.prev_stats Snmp.prev_timestamp StatsIfSnmp.traffic_of
       Dict.truthy Dict.empty andb].
  destruct (stats_if_snmp_stuck ticks
              {| Snmp.prev_stats := stats_if_snmp_sample sess0;
                 Snmp.prev_timestamp := Some t0 |} t0 l1
              eq_refl eq_refl F B A) as [l2 ->].
  eexists. reflexivity.
Qed.

(** The device answers [NOSUCHOBJECT] at the first pass, then ["1000"] and
    ["9000"]. *)
Lemma stats_if_snmp_first_sample_poisons_witness :
  exists l,
    StatsIfSnmp.main [(constant_session "NOSUCHOBJECT", secs 5);
                      (constant_session "1000", secs 10);
                      (constant_session "9000", secs 15)]
    = (Some Snmp.zero_rate :: repeat None 2,
       {| Snmp.prev_stats := stats_if_snmp_sample (constant_session "NOSUCHOBJECT");
          Snmp.prev_timestamp := Some (secs 5) |}, l).
Proof.
  apply (stats_if_snmp_first_sample_poisons (constant_session "NOSUCHOBJECT") (secs 5)
           [(constant_session "1000", secs 10); (constant_session "9000", secs 15)]).
  - left. exists Py.ValueError. vm_compute. reflexivity.
  - reflexivity.
  - repeat constructor.
Defined.

(** ** [if-stats-netconf-v2.py] *)

(** The totals of the OpenConfig sample built from the example counters. *)
Lemma openconfig_v2_totals_witness :
  exists u m b u' m' b',
    Dict.int_item openconfig_v2_example "in-unicast-pkts" = Py.Ok u
    /\ Dict.int_item openconfig_v2_example "in-multicast-pkts" = Py.Ok m
    /\ Dict.int_item openconfig_v2_example "in-broadcast-pkts" = Py.Ok b
    /\ Dict.int_item openconfig_v2_example "out-unicast-pkts" = Py.Ok u'
    /\ Dict.int_item openconfig_v2_example "out-multicast-pkts" = Py.Ok m'
    /\ Dict.int_item openconfig_v2_example "out-broadcast-pkts" = Py.Ok b'
    /\ Dict.get openconfig_v2_example "in-packets"
       = Some (Py.VStr (Py.str (u + m + b)))
    /\ Dict.get openconfig_v2_example "out-packets"
       = Some (Py.VStr (Py.str (u' + m' + b'))).
Proof.
  apply (openconfig_v2_totals "Ethernet1"
           (openconfig_reply "Ethernet1" packet_counters_example)
           openconfig_v2_example).
  vm_compute. reflexivity.
Defined.

Ltac bad_leaf :=
  match goal with
  | H : Py.int (NetconfV2.val ?c ?ns ?k) = Py.Raise ?e |- _ =>
      exists k; split; [simpl; tauto | exists e; exact H]
  end.


Lemma openconfig_v2_sample (i : string) (reply : Xml.text) (d : stats_dict) :
  NetconfV2.parse_openconfig_stats i reply = Some d ->
  Dict.get d "interface-name" = Some (Py.VStr i)
  /\ Dict.get d "model" = Some (Py.VStr "openconfig")
  /\ Forall (fun k => Dict.get d k <> None)
       ["in-octets"; "out-octets"; "in-packets"; "out-packets"].
Proof.
  unfold NetconfV2.parse_openconfig_stats, Nc.or_none.
  destruct (Xml.parseString reply) as [dom|e]; [|discriminate].
  cbn [Py.rbind].
  destruct (Xml.first (Xml.doc_getElementsByTagNameNS dom Nc.OC_NS "interface"))
    as [iface|e]; [|discriminate].
  cbn [Py.rbind].
  destruct (Xml.first (Xml.getElementsByTagNameNS iface Nc.OC_NS "counters"))
    as [counters|e]; [|discriminate].
  cbn [Py.rbind].
  destruct (NetconfV2.sum3 _ _ _ _) as [a|e]; [|discriminate]. cbn [Py.rbind].
  destruct (NetconfV2.sum3 _ _ _ _) as [b|e]; [|discriminate]. cbn [Py.rbind].
  intros H. injection H as <-.
  repeat split; repeat constructor; discriminate.
Qed.

Lemma ietf_v2_sample (i : string) (reply : Xml.text) (d : stats_dict) :
  NetconfV2.parse_ietf_stats i reply = Some d ->
  Dict.get d "interface-name" = Some (Py.VStr i)
  /\ Dict.get d "model" = Some (Py.VStr "ietf")
  /\ Forall (fun k => Dict.get d k <> None)
       ["in-octets"; "out-octets"; "in-packets"; "out-packets"].
Proof.
  unfold NetconfV2.parse_ietf_stats, Nc.or_none.
  destruct (Xml.parseString reply) as [dom|e]; [|discriminate].
  cbn [Py.rbind].
  destruct (Xml.first (Xml.doc_getElementsByTagNameNS dom Nc.IETF_NS "interface"))
    as [iface|e]; [|discriminate].
  cbn [Py.rbind].
  intros H. injection H as <-.
  repeat split; repeat constructor; discriminate.
Qed.

(** X14. The resolver of [if-stats-netconf-v2.py] never raises, and the
    sample it returns always names the monitored interface, is tagged
    [openconfig], [ietf] or [no-data], and carries the two octet counters and
    the two packet totals; so the record of the pass, which reads
    [stats["model"]], can always be built. *)
Theorem netconf_v2_sample_shape (mgr : Nc.manager) (i : string) (l : Nc.log) :
  exists d,
    fst (NetconfV2.get_interface_stats mgr i l) = Py.Ok d
    /\ Dict.get d "interface-name" = Some (Py.VStr i)
    /\ (exists m, Dict.get d "model" = Some (Py.VStr m)
                  /\ In m ["openconfig"; "ietf"; "no-data"])
    /\ Forall (fun k => Dict.get d k <> None)
         ["in-octets"; "out-octets"; "in-packets"; "out-packets"]
    /\ forall ts rate, exists out, NetconfV2.output i ts d rate = Py.Ok out.
Proof.
  assert (K : forall d m,
             Dict.get d "interface-name" = Some (Py.VStr i)
             /\ Dict.get d "model" = Some (Py.VStr m)
             /\ Forall (fun k => Dict.get d k <> None)
                  ["in-octets"; "out-octets"; "in-packets"; "out-packets"] ->
             In m ["openconfig"; "ietf"; "no-data"] ->
             Dict.get d "interface-name" = Some (Py.VStr i)
             /\ (exists m, Dict.get d "model" = Some (Py.VStr m)
                           /\ In m ["openconfig"; "ietf"; "no-data"])
             /\ Forall (fun k => Dict.get d k <> None)
                  ["in-octets"; "out-octets"; "in-packets"; "out-packets"]
             /\ forall ts rate, exists out, NetconfV2.output i ts d rate = Py.Ok out).
  { intros d m (Hn & Hm & Hk) Hin. split; [exact Hn|].
    split; [exists m; split; assumption|]. split; [exact Hk|].
    intros ts rate. unfold NetconfV2.output, Dict.item. rewrite Hm.
    eexists. reflexivity. }
  assert (Z0 : Dict.get (Nc.no_data i) "interface-name" = Some (Py.VStr i)
               /\ Dict.get (Nc.no_data i) "model" = Some (Py.VStr "no-data")
               /\ Forall (fun k => Dict.get (Nc.no_data i) k <> None)
                    ["in-octets"; "out-octets"; "in-packets"; "out-packets"]).
  { repeat split; repeat constructor; discriminate. }
  rewrite netconf_v2_stats_run.
  destruct (netconf_v2_openconfig mgr i) as [d|] eqn:Eoc; cbn [Nc.truthy].
  - destruct (Dict.truthy d) eqn:T.
    + exists d. split; [reflexivity|].
      apply (K d "openconfig"); [|simpl; tauto].
      unfold netconf_v2_openconfig in Eoc.
      destruct (mgr (oc_rpc i)) as [reply|e]; [|discriminate].
      exact (openconfig_v2_sample i reply d Eoc).
    + cbn [fst].
      destruct (netconf_v2_ietf mgr i) as [d'|] eqn:Ei; cbn [Nc.truthy].
      * destruct (Dict.truthy d') eqn:T'.
        -- exists d'. split; [reflexivity|].
           apply (K d' "ietf"); [|simpl; tauto].
           unfold netconf_v2_ietf in Ei.
           destruct (mgr (ietf_rpc i)) as [reply|e]; [|discriminate].
           exact (ietf_v2_sample i reply d' Ei).
        -- exists (Nc.no_data i). split; [reflexivity|].
           apply (K _ "no-data"); [exact Z0 | simpl; tauto].
      * exists (Nc.no_data i). split; [reflexivity|].
        apply (K _ "no-data"); [exact Z0 | simpl; tauto].
  - cbn [fst].
    destruct (netconf_v2_ietf mgr i) as [d'|] eqn:Ei; cbn [Nc.truthy].
    + destruct (Dict.truthy d') eqn:T'.
      * exists d'. split; [reflexivity|].
        apply (K d' "ietf"); [|simpl; tauto].
        unfold netconf_v2_ietf in Ei.
        destruct (mgr (ietf_rpc i)) as [reply|e]; [|discriminate].
        exact (ietf_v2_sample i reply d' Ei).
      * exists (Nc.no_data i). split; [reflexivity|].
        apply (K _ "no-data"); [exact Z0 | simpl; tauto].
    + exists (Nc.no_data i). split; [reflexivity|].
      apply (K _ "no-data"); [exact Z0 | simpl; tauto].
Qed.

(** The sample of a pass always holds the model tag and both octet
    counters. *)
Lemma netconf_v2_stats_keys (mgr : Nc.manager) (i : string) (l : Nc.log) :
  exists d l',
    NetconfV2.get_interface_stats mgr i l = (Py.Ok d, l')
    /\ Dict.get d "model" <> None
    /\ Dict.get d "in-octets" <> None
    /\ Dict.get d "out-octets" <> None.
Proof.
  assert (P : forall d m,
             Dict.get d "interface-name" = Some (Py.VStr i)
             /\ Dict.get d "model" = Some (Py.VStr m)
             /\ Forall (fun k => Dict.get d k <> None)
                  ["in-octets"; "out-octets"; "in-packets"; "out-packets"] ->
             Dict.get d "model" <> None
             /\ Dict.get d "in-octets" <> None
             /\ Dict.get d "out-octets" <> None).
  { intros d m (_ & Hm & Hk). split; [congruence|].
    inversion Hk as [|? ? H1 Hk1]; subst. inversion Hk1 as [|? ? H2 _]; subst.
    split; assumption. }
  assert (Z0 : Dict.get (Nc.no_data i) "model" <> None
               /\ Dict.get (Nc.no_data i) "in-octets" <> None
               /\ Dict.get (Nc.no_data i) "out-octets" <> None).
  { repeat split; discriminate. }
  rewrite netconf_v2_stats_run.
  destruct (netconf_v2_openconfig mgr i) as [d|] eqn:Eoc; cbn [Nc.truthy].
  - destruct (Dict.truthy d) eqn:T.
    + exists d. eexists. split; [reflexivity|].
      unfold netconf_v2_openconfig in Eoc.
      destruct (mgr (oc_rpc i)) as [reply|e]; [|discriminate].
      exact (P d _ (openconfig_v2_sample i reply d Eoc)).
    + destruct (netconf_v2_ietf mgr i) as [d'|] eqn:Ei; cbn [Nc.truthy].
      * destruct (Dict.truthy d') eqn:T'.
        -- exists d'. eexists. split; [reflexivity|].
           unfold netconf_v2_ietf in Ei.
           destruct (mgr (ietf_rpc i)) as [reply|e]; [|discriminate].
           exact (P d' _ (ietf_v2_sample i reply d' Ei)).
        -- exists (Nc.no_data i). eexists. split; [reflexivity | exact Z0].
      * exists (Nc.no_data i). eexists. split; [reflexivity | exact Z0].
  - destruct (netconf_v2_ietf mgr i) as [d'|] eqn:Ei; cbn [Nc.truthy].
    + destruct (Dict.truthy d') eqn:T'.
      * exists d'. eexists. split; [reflexivity|].
        unfold netconf_v2_ietf in Ei.
        destruct (mgr (ietf_rpc i)) as [reply|e]; [|discriminate].
        exact (P d' _ (ietf_v2_sample i reply d' Ei)).
      * exists (Nc.no_data i). eexists. split; [reflexivity | exact Z0].
    + exists (Nc.no_data i). eexists. split; [reflexivity | exact Z0].
Qed.

Lemma int_item_exn (d : stats_dict) (k : string) (e : Py.exn) :
  Dict.get d k <> None -> Dict.int_item d k = Py.Raise e ->
  e = Py.ValueError \/ e = Py.TypeError.
Proof.
  unfold Dict.int_item, Dict.item. destruct (Dict.get d k) as [[s|]|]; cbn.
  - intros _. unfold Py.int_of_str. destruct (Py.parse_int s); [discriminate|].
    intros H. injection H as <-. auto.
  - intros _ H. injection H as <-. auto.
  - intros H. contradiction.
Qed.

(** With the octet counters present, the rate computation returns, or raises
    on a conversion or on an overflow. *)
Lemma netconf_v2_rate_outcome (self : Nc.poll_state) (stats : stats_dict)
    (now : Py.float) :
  octets_present self ->
  Dict.get stats "in-octets" <> None ->
  Dict.get stats "out-octets" <> None ->
  (exists rate,
      NetconfV2.calculate_traffic_rate self stats now
      = Py.Ok (rate, {| Nc.prev_stats := stats; Nc.prev_time := Some now |}))
  \/ (exists e, NetconfV2.calculate_traffic_rate self stats now = Py.Raise e
                /\ (e = Py.ValueError \/ e = Py.TypeError \/ e = Py.OverflowError)).
Proof.
  intros I Ki Ko. unfold NetconfV2.calculate_traffic_rate.
  destruct (Nc.prev_time self) as [pt|] eqn:P; [|left; eexists; reflexivity].
  destruct I as [I | [Pi Po]]; [congruence|].
  destruct (Py.float_truthy pt); [|left; eexists; reflexivity].
  destruct (Py.gt0 (Py.sub now pt)) eqn:G; [|left; eexists; reflexivity].
  destruct (Dict.int_item stats "in-octets") as [a|e] eqn:Ea.
  2:{ right. exists e. split; [reflexivity|].
      destruct (int_item_exn _ _ _ Ki Ea); auto. }
  destruct (Dict.int_item (Nc.prev_stats self) "in-octets") as [b|e] eqn:Eb.
  2:{ right. exists e. split; [reflexivity|].
      destruct (int_item_exn _ _ _ Pi Eb); auto. }
  cbn [Py.rbind].
  destruct (bps_cases (Py.sub now pt) a b G) as [[s ->] | ->]; cbn [Py.rbind].
  2:{ right. eexists. split; [reflexivity | auto]. }
  destruct (Dict.int_item stats "out-octets") as [c|e] eqn:Ec.
  2:{ right. exists e. split; [reflexivity|].
      destruct (int_item_exn _ _ _ Ko Ec); auto. }
  destruct (Dict.int_item (Nc.prev_stats self) "out-octets") as [d|e] eqn:Ed.
  2:{ right. exists e. split; [reflexivity|].
      destruct (int_item_exn _ _ _ Po Ed); auto. }
  cbn [Py.rbind].
  destruct (bps_cases (Py.sub now pt) c d G) as [[s' ->] | ->]; cbn [Py.rbind].
  2:{ right. eexists. split; [reflexivity | auto]. }
  left. eexists. reflexivity.
Qed.

Lemma netconf_v2_loop_ends (i : string) (ticks : list (Nc.manager * Py.time * Py.time)) :
  forall (self : Nc.poll_state) (f : Nc.file) (l : Nc.log),
    octets_present self ->
    let r := NetconfV2.monitor_loop i ticks self f l in
    exists k,
      (k <= length ticks)%nat
      /\ length (Eff.run_file r) = (length f + k)%nat
      /\ match Eff.run_end r with
         | Eff.Interrupted => k = length ticks
         | Eff.Raised e =>
             (k < length ticks)%nat
             /\ (e = Py.ValueError \/ e = Py.TypeError \/ e = Py.OverflowError)
         end.
Proof.
  induction ticks as [|[[mgr ts] now] rest IH]; intros self f l I.
  - exists 0%nat. cbn. repeat split; lia.
  - cbn [NetconfV2.monitor_loop].
    destruct (netconf_v2_stats_keys mgr i l) as (d & l' & Hs & Km & Ki & Ko).
    unfold NetconfV2.monitor_cycle, Eff.bind, Eff.lift. rewrite Hs.
    destruct (netconf_v2_rate_outcome self d (Py.seconds now) I Ki Ko)
      as [[rate Hr] | (e & Hr & He)]; rewrite Hr.
    + unfold NetconfV2.output, Dict.item.
      destruct (Dict.get d "model") as [m|]; [|contradiction]. cbn [Py.rbind].
      unfold Eff.ret.
      match goal with
      | |- context [NetconfV2.monitor_loop _ rest ?s ?f' ?l1] =>
          destruct (IH s f' l1) as (k & Hk & Hl & Hend)
      end.
      { right. split; assumption. }
      exists (S k). cbv zeta in *. split; [cbn; lia|]. split.
      * rewrite Hl. unfold Nc.dump_line. rewrite length_app. cbn [length]. lia.
      * destruct (Eff.run_end _) as [|e].
        -- cbn [length]. lia.
        -- destruct Hend as [Hlt He]. split; [cbn [length]; lia | exact He].
    + exists 0%nat. cbn. repeat split; [lia | lia | lia | exact He].
Qed.

(** X21. A run of [monitor] of [if-stats-netconf-v2.py] writes one record
    for each pass it completes, and ends by the interrupt, after every pass,
    or by an exception of the rate computation: a [ValueError] or a
    [TypeError] raised when an octet counter is converted, or an
    [OverflowError] raised when a division overflows; the pass that raises
    writes nothing. No other exception ([KeyError] on a missing counter or on
    [stats["model"]], or one of the requests or of the parsing) ends it. *)
Theorem netconf_v2_run_ends (ticks : list (Nc.manager * Py.time * Py.time)) :
  let r := NetconfV2.monitor ticks in
  exists k,
    (k <= length ticks)%nat
    /\ length (Eff.run_file r) = k
    /\ match Eff.run_end r with
       | Eff.Interrupted => k = length ticks
       | Eff.Raised e =>
           (k < length ticks)%nat
           /\ (e = Py.ValueError \/ e = Py.TypeError \/ e = Py.OverflowError)
       end.
Proof.
  unfold NetconfV2.monitor.
  destruct (netconf_v2_loop_ends NetconfV2.INTERFACE_NAME ticks Nc.initial_state [] [])
    as (k & Hk & Hl & Hend).
  - left. reflexivity.
  - exists k. cbv zeta in *. repeat split; assumption.
Qed.

(** The three endings by an exception occur: an octet counter that is not a
    number, one that has no text, and one of 310 digits. *)
Lemma netconf_v2_run_endings :
  let first := manager_of (Py.Ok (openconfig_reply "Ethernet1" packet_counters_example))
                 (Py.Raise Py.OtherError) in
  let second (v : list Xml.node) :=
    manager_of (Py.Raise Py.OtherError)
      (Py.Ok {| Xml.has_empty_data := false;
                Xml.parseString :=
                  Py.Ok (Xml.Elem Nc.IETF_NS "interface"
                           [Xml.Elem Nc.IETF_NS "in-octets" v]) |}) in
  let ending (v : list Xml.node) :=
    Eff.run_end (NetconfV2.monitor [(first, clock 5, clock 5);
                                    (second v, clock 10, clock 10)]) in
  ending [Xml.Text "n/a"] = Eff.Raised Py.ValueError
  /\ ending [Xml.Elem Nc.IETF_NS "x" []] = Eff.Raised Py.TypeError
  /\ ending [Xml.Text (Py.str (10 ^ 309))] = Eff.Raised Py.OverflowError.
Proof. repeat split; vm_compute; reflexivity. Qed.

(** ** [if-stats-netconf.py] *)

(** The rate computation returns a rate with both keys and the new state,
    or a division overflows. *)
Lemma netconf_rate_run (self : Nc.poll_state) (stats : stats_dict) (now : Py.float) :
  (exists in_bps out_bps,
      Netconf.calculate_traffic_rate self stats now
      = Py.Ok ([("in-bps", Py.VStr in_bps); ("out-bps", Py.VStr out_bps)],
               {| Nc.prev_stats := stats; Nc.prev_time := Some now |}))
  \/ Netconf.calculate_traffic_rate self stats now = Py.Raise Py.OverflowError.
Proof.
  unfold Netconf.calculate_traffic_rate.
  destruct (Dict.truthy (Nc.prev_stats self) && Py.opt_float_truthy (Nc.prev_time self));
    [|left; exists "0", "0"; reflexivity].
  destruct (Nc.prev_time self) as [pt|]; [|left; exists "0", "0"; reflexivity].
  destruct (Py.gt0 (Py.sub now pt)) eqn:G; [|left; exists "0", "0"; reflexivity].
  unfold Netconf.rate_body.
  destruct (Dict.int_get stats "in-octets") as [a|e] eqn:Ea.
  2:{ destruct (int_get_exn _ _ _ Ea) as [-> | ->]; left; exists "0", "0"; reflexivity. }
  destruct (Dict.int_get stats "out-octets") as [c|e] eqn:Ec.
  2:{ destruct (int_get_exn _ _ _ Ec) as [-> | ->]; left; exists "0", "0"; reflexivity. }
  destruct (Dict.int_get (Nc.prev_stats self) "in-octets") as [b|e] eqn:Eb.
  2:{ destruct (int_get_exn _ _ _ Eb) as [-> | ->]; left; exists "0", "0"; reflexivity. }
  destruct (Dict.int_get (Nc.prev_stats self) "out-octets") as [d|e] eqn:Ed.
  2:{ destruct (int_get_exn _ _ _ Ed) as [-> | ->]; left; exists "0", "0"; reflexivity. }
  cbn [Py.rbind].
  pose proof (FloatFacts.truediv_gt0 ((a - b) * 8) (Py.sub now pt) G) as Ti.
  pose proof (FloatFacts.truediv_gt0 ((c - d) * 8) (Py.sub now pt) G) as To.
  destruct (Py.truediv ((a - b) * 8) (Py.sub now pt)) as [qi|ei]; cbn [Py.rbind];
    [|subst ei; right; reflexivity].
  pose proof (FloatFacts.int_of_float_signed _ qi Ti) as Ii.
  destruct (Py.truediv ((c - d) * 8) (Py.sub now pt)) as [qo|eo]; cbn [Py.rbind];
    [|subst eo; right; reflexivity].
  pose proof (FloatFacts.int_of_float_signed _ qo To) as Io.
  destruct (Py.int_of_float qi) as [zi|e]; [|subst e; right; reflexivity].
  destruct (Py.int_of_float qo) as [zo|e]; [|subst e; right; reflexivity].
  left. eexists. eexists. reflexivity.
Qed.

(** A counter that is not an integer gives the zero rate. *)
Lemma netconf_rate_not_integer (self : Nc.poll_state) (stats : stats_dict)
    (now : Py.float) :
  not_integer stats "in-octets" \/ not_integer stats "out-octets"
  \/ not_integer (Nc.prev_stats self) "in-octets"
  \/ not_integer (Nc.prev_stats self) "out-octets" ->
  Netconf.calculate_traffic_rate self stats now
  = Py.Ok (Snmp.zero_rate, {| Nc.prev_stats := stats; Nc.prev_time := Some now |}).
Proof.
  unfold Netconf.calculate_traffic_rate, not_integer. intros H.
  destruct (Dict.truthy (Nc.prev_stats self) && Py.opt_float_truthy (Nc.prev_time self));
    [|reflexivity].
  destruct (Nc.prev_time self) as [pt|]; [|reflexivity].
  destruct (Py.gt0 (Py.sub now pt)) eqn:G; [|reflexivity].
  unfold Netconf.rate_body.
  destruct (Dict.int_get stats "in-octets") as [a|e] eqn:Ea.
  2:{ destruct (int_get_exn _ _ _ Ea) as [-> | ->]; reflexivity. }
  destruct (Dict.int_get stats "out-octets") as [c|e] eqn:Ec.
  2:{ destruct (int_get_exn _ _ _ Ec) as [-> | ->]; reflexivity. }
  destruct (Dict.int_get (Nc.prev_stats self) "in-octets") as [b|e] eqn:Eb.
  2:{ destruct (int_get_exn _ _ _ Eb) as [-> | ->]; reflexivity. }
  destruct (Dict.int_get (Nc.prev_stats self) "out-octets") as [d|e] eqn:Ed.
  2:{ destruct (int_get_exn _ _ _ Ed) as [-> | ->]; reflexivity. }
  destruct H as [[e H] | [[e H] | [[e H] | [e H]]]]; discriminate H.
Qed.

(** X15. The rate computation of [if-stats-netconf.py] raises on an overflow
    of a division only ([OverflowError], which its handler of [ValueError] and
    [TypeError] does not catch, and which leaves the state as it was).
    Otherwise it returns a rate with both keys and replaces the state with
    the current sample and reading of the clock; when an octet counter of the
    current or of the previous sample is not an integer, the rate is the zero
    rate. *)
Theorem netconf_rate_raises_on_overflow_only
    (self : Nc.poll_state) (stats : stats_dict) (now : Py.float) :
  let after := {| Nc.prev_stats := stats; Nc.prev_time := Some now |} in
  ((exists in_bps out_bps,
       Netconf.calculate_traffic_rate self stats now
       = Py.Ok ([("in-bps", Py.VStr in_bps); ("out-bps", Py.VStr out_bps)], after))
   \/ Netconf.calculate_traffic_rate self stats now = Py.Raise Py.OverflowError)
  /\ (not_integer stats "in-octets" \/ not_integer stats "out-octets"
      \/ not_integer (Nc.prev_stats self) "in-octets"
      \/ not_integer (Nc.prev_stats self) "out-octets" ->
      Netconf.calculate_traffic_rate self stats now = Py.Ok (Snmp.zero_rate, after))
  /\ Netconf.calculate_traffic_rate
       {| Nc.prev_stats := sample "0" "0"; Nc.prev_time := Some (secs 1) |}
       (sample (Py.str (10 ^ 309)) "0") (secs 6)
     = Py.Raise Py.OverflowError.
Proof.
  cbv zeta. split; [| split].
  - apply netconf_rate_run.
  - apply netconf_rate_not_integer.
  - vm_compute. reflexivity.
Qed.

Lemma netconf_stats_requests (mgr : Nc.manager) (i : string)
    (wdf : string -> Py.result unit) (l : Nc.log) :
  snd (Netconf.get_interface_stats mgr i wdf l)
  = (l ++ match Netconf.wants_ietf (netconf_openconfig mgr i wdf) with
          | Py.Ok true => [oc_rpc i; ietf_rpc i]
          | _ => [oc_rpc i]
          end)%list.
Proof.
  unfold Netconf.get_interface_stats.
  unfold Eff.bind at 1. rewrite netconf_openconfig_run.
  unfold Eff.bind at 1. unfold Eff.lift at 1.
  destruct (Netconf.wants_ietf (netconf_openconfig mgr i wdf)) as [[|]|e];
    [| | reflexivity].
  - unfold Eff.bind. rewrite netconf_ietf_run, <- List.app_assoc.
    destruct (netconf_ietf mgr i wdf) as [d|]; [|reflexivity].
    destruct (Dict.truthy d); reflexivity.
  - unfold Eff.bind, Eff.ret.
    destruct (netconf_openconfig mgr i wdf) as [d|]; [|reflexivity].
    destruct (Dict.truthy d); reflexivity.
Qed.

Lemma netconf_stats_truthy (mgr : Nc.manager) (i : string)
    (wdf : string -> Py.result unit) (l : Nc.log) (stats : stats_dict) :
  fst (Netconf.get_interface_stats mgr i wdf l) = Py.Ok stats ->
  Dict.truthy stats = true.
Proof.
  rewrite netconf_stats_result. unfold or_no_data.
  destruct (Netconf.wants_ietf (netconf_openconfig mgr i wdf)) as [fallback|e];
    [|discriminate].
  destruct (if fallback then netconf_ietf mgr i wdf else netconf_openconfig mgr i wdf)
    as [d|]; [|intros H; injection H as <-; reflexivity].
  destruct (Dict.truthy d) eqn:T; intros H; injection H as <-;
    [exact T | reflexivity].
Qed.

(** X16. The resolver of [if-stats-netconf.py] raises exactly when the
    OpenConfig adapter returns a sample whose [in-octets] is not an integer:
    the test of the fallback converts it outside any [try]. *)
Theorem netconf_resolver_raises_iff
    (mgr : Nc.manager) (i : string) (wdf : string -> Py.result unit) (l : Nc.log) :
  (exists e, fst (Netconf.get_interface_stats mgr i wdf l) = Py.Raise e)
  <-> exists d e, netconf_openconfig mgr i wdf = Some d
                  /\ Dict.truthy d = true
                  /\ Dict.int_get d "in-octets" = Py.Raise e.
Proof.
  unfold Netconf.get_interface_stats.
  unfold Eff.bind at 1. rewrite netconf_openconfig_run.
  unfold Eff.bind at 1. unfold Eff.lift at 1.
  unfold Netconf.wants_ietf.
  destruct (netconf_openconfig mgr i wdf) as [d|].
  - destruct (Dict.truthy d) eqn:T.
    + destruct (Dict.int_get d "in-octets") as [n|e] eqn:E; cbn [Py.rbind].
      * split.
        -- intros [e H]. exfalso. revert H.
           destruct (n =? 0).
           ++ unfold Eff.bind. rewrite netconf_ietf_run.
              destruct (netconf_ietf mgr i wdf) as [d'|]; [|discriminate].
              destruct (Dict.truthy d'); discriminate.
           ++ unfold Eff.bind, Eff.ret. rewrite T. discriminate.
        -- intros (d' & e & H & _ & H'). injection H as <-. rewrite E in H'.
           discriminate H'.
      * split.
        -- intros _. exists d, e. auto.
        -- intros _. exists e. reflexivity.
    + split.
      * intros [e H]. exfalso. revert H.
        unfold Eff.bind. rewrite netconf_ietf_run.
        destruct (netconf_ietf mgr i wdf) as [d'|]; [|discriminate].
        destruct (Dict.truthy d'); discriminate.
      * intros (d' & e & H & T' & _). injection H as <-. rewrite T in T'. discriminate.
  - split.
    + intros [e H]. exfalso. revert H.
      unfold Eff.bind. rewrite netconf_ietf_run.
      destruct (netconf_ietf mgr i wdf) as [d'|]; [|discriminate].
      destruct (Dict.truthy d'); discriminate.
    + intros (d' & e & H & _). discriminate H.
Qed.

(** X17. A pass of the loop of [if-stats-netconf.py] for which the resolver
    returns a sample. When the rate computation returns, the construction of
    the record does not raise, the record is written and the state replaced;
    only then are the octet counters converted for the console, so a sample
    whose [in-octets] or [out-octets] is not an integer ends the monitoring
    after its record has reached the file. Otherwise the pass ends with the
    duration test. The rate computation raises on an overflow of a division
    only: the pass then raises [OverflowError], with nothing written and the
    state as it was. *)
Theorem netconf_pass_writes_before_console
    (mgr : Nc.manager) (i : string) (wdf : string -> Py.result unit)
    (strf : Py.time -> string) (start : Py.time) (dur : option Py.num)
    (ct now : Py.time)
    (self : Nc.poll_state) (f : Nc.file) (l : Nc.log) (stats : stats_dict) :
  fst (Netconf.get_interface_stats mgr i wdf l) = Py.Ok stats ->
  let p := fst (Netconf.monitor_pass mgr i wdf strf start dur ct now self f l) in
  let after := {| Nc.prev_stats := stats; Nc.prev_time := Some (Py.seconds now) |} in
  match Netconf.calculate_traffic_rate self stats (Py.seconds now) with
  | Py.Ok (rate, st) =>
      st = after
      /\ exists record,
          Netconf.format_output i strf stats rate ct = Py.Ok record
          /\ Netconf.pass_file p = (f ++ [record])%list
          /\ Netconf.pass_state p = after
          /\ Netconf.pass_outcome p
             = match Netconf.console_octets stats with
               | Py.Ok _ => Py.Ok (Eff.due dur (Py.seconds start) (Py.seconds ct))
               | Py.Raise e => Py.Raise e
               end
  | Py.Raise e =>
      e = Py.OverflowError
      /\ Netconf.pass_file p = f
      /\ Netconf.pass_state p = self
      /\ Netconf.pass_outcome p = Py.Raise e
  end.
Proof.
  intros Hs. pose proof (netconf_stats_truthy mgr i wdf l stats Hs) as Ht.
  cbv zeta. unfold Netconf.monitor_pass.
  destruct (Netconf.get_interface_stats mgr i wdf l) as [r l']. cbn [fst] in Hs.
  subst r. rewrite Ht.
  destruct (netconf_rate_run self stats (Py.seconds now))
    as [(in_bps & out_bps & ->) | ->].
  - split; [reflexivity|].
    unfold Netconf.format_output at 1 2. cbn [Dict.item Dict.get String.eqb Ascii.eqb
      Bool.eqb Py.rbind].
    eexists. split; [reflexivity|].
    destruct (Netconf.console_octets stats); repeat split; reflexivity.
  - repeat split; reflexivity.
Qed.

(** OpenConfig fails and IETF answers with [in-octets = n/a]: the record is
    written, then the pass raises [ValueError]. *)
Lemma netconf_pass_writes_before_console_witness :
  let p := fst (Netconf.monitor_pass ietf_not_a_number "Ethernet1" debug_ok no_time
                  (clock 0) None (clock 5) (clock 5) Nc.initial_state [] []) in
  exists record,
    Netconf.format_output "Ethernet1" no_time ietf_not_a_number_sample Snmp.zero_rate
      (clock 5) = Py.Ok record
    /\ Netconf.pass_file p = [record]
    /\ Netconf.pass_state p = {| Nc.prev_stats := ietf_not_a_number_sample;
                                 Nc.prev_time := Some (secs 5) |}
    /\ Netconf.pass_outcome p = Py.Raise Py.ValueError.
Proof.
  pose proof (netconf_pass_writes_before_console ietf_not_a_number "Ethernet1" debug_ok
                no_time (clock 0) None (clock 5) (clock 5) Nc.initial_state [] []
                ietf_not_a_number_sample) as H.
  cbv zeta in H.
  assert (R : Netconf.calculate_traffic_rate Nc.initial_state ietf_not_a_number_sample
                (Py.seconds (clock 5))
              = Py.Ok (Snmp.zero_rate,
                       {| Nc.prev_stats := ietf_not_a_number_sample;
                          Nc.prev_time := Some (secs 5) |}))
    by (vm_compute; reflexivity).
  rewrite R in H.
  destruct H as (_ & record & H1 & H2 & H3 & H4); [vm_compute; reflexivity|].
  exists record. split; [exact H1|]. split; [exact H2|]. split; [exact H3|].
  rewrite H4. vm_compute. reflexivity.
Defined.

Ltac totals_cases :=
  unfold Netconf.with_totals;
  match goal with
  | |- context [match ?x with Py.Ok _ => _ | Py.Raise _ => _ end] =>
      destruct x as [[? ?]|?]
  end.

Lemma netconf_openconfig_sample (reply : Xml.text) (d : stats_dict) :
  Netconf.parse_openconfig_stats reply = Some d ->
  Dict.get d "model" = Some (Py.VStr "openconfig")
  /\ Dict.get d "oper-status" = None.
Proof.
  unfold Netconf.parse_openconfig_stats, Nc.or_none.
  destruct (Xml.has_empty_data reply); [discriminate|].
  destruct (Xml.parseString reply) as [dom|e]; [|discriminate]. cbn [Py.rbind].
  destruct (Xml.doc_getElementsByTagNameNS dom Nc.OC_NS "interface") as [|iface ?];
    [discriminate|].
  destruct (Xml.getElementsByTagNameNS iface Nc.OC_NS "name") as [|name_elem ?];
    [discriminate|].
  destruct (Xml.firstChild name_elem) as [name_text|]; [|discriminate].
  destruct (Xml.getElementsByTagNameNS iface Nc.OC_NS "counters") as [|counter ?];
    [discriminate|].
  intros H. injection H as <-.
  totals_cases; split; reflexivity.
Qed.

Lemma netconf_ietf_sample (i : string) (reply : Xml.text) (d : stats_dict) :
  Netconf.parse_ietf_stats i reply = Some d ->
  Dict.get d "model" = Some (Py.VStr "ietf").
Proof.
  unfold Netconf.parse_ietf_stats, Nc.or_none.
  destruct (Xml.parseString reply) as [dom|e]; [|discriminate]. cbn [Py.rbind].
  destruct (Xml.doc_getElementsByTagNameNS dom Nc.IETF_NS "interface") as [|iface ?];
    [discriminate|].
  intros H. injection H as <-.
  totals_cases; reflexivity.
Qed.

Lemma netconf_openconfig_view_sample (mgr : Nc.manager) (i : string)
    (wdf : string -> Py.result unit) (d : stats_dict) :
  netconf_openconfig mgr i wdf = Some d ->
  Dict.get d "model" = Some (Py.VStr "openconfig")
  /\ Dict.get d "oper-status" = None.
Proof.
  unfold netconf_openconfig. destruct (mgr (oc_rpc i)) as [reply|e]; [|discriminate].
  destruct (wdf _); [|discriminate]. apply netconf_openconfig_sample.
Qed.

Lemma netconf_ietf_view_sample (mgr : Nc.manager) (i : string)
    (wdf : string -> Py.result unit) (d : stats_dict) :
  netconf_ietf mgr i wdf = Some d ->
  Dict.get d "model" = Some (Py.VStr "ietf").
Proof.
  unfold netconf_ietf. destruct (mgr (ietf_rpc i)) as [reply|e]; [|discriminate].
  destruct (wdf _); [|discriminate]. apply netconf_ietf_sample.
Qed.

Lemma netconf_record_status (i : string) (strf : Py.time -> string)
    (stats rate : stats_dict) (ts : Py.time) (out : Json.t) :
  Netconf.format_output i strf stats rate ts = Py.Ok out ->
  netconf_counter_field out "oper-status"
  = Some (Json.of_value (Netconf.get_or stats "oper-status" "unknown")).
Proof.
  unfold Netconf.format_output. intros H.
  destruct (Dict.item rate "in-bps") as [x|e]; [|discriminate H].
  destruct (Dict.item rate "out-bps") as [y|e]; [|discriminate H].
  cbn [Py.rbind] in H. injection H as <-. reflexivity.
Qed.

(** X18. In [if-stats-netconf.py] only the IETF parser reads the operational
    status: a sample that the resolver returns and that is not tagged [ietf]
    (an OpenConfig sample, or the zero-filled one) has no [oper-status], and
    its record reports [oper-status] as ["unknown"], whatever the state of the
    interface. *)
Theorem netconf_status_only_from_ietf
    (mgr : Nc.manager) (i : string) (wdf : string -> Py.result unit)
    (strf : Py.time -> string) (l : Nc.log) (stats rate : stats_dict) (ts : Py.time)
    (out : Json.t) :
  fst (Netconf.get_interface_stats mgr i wdf l) = Py.Ok stats ->
  Netconf.format_output i strf stats rate ts = Py.Ok out ->
  Dict.get stats "model" <> Some (Py.VStr "ietf") ->
  Dict.get stats "oper-status" = None
  /\ netconf_counter_field out "oper-status" = Some (Json.JStr "unknown").
Proof.
  intros Hs Hout Hm.
  assert (Hnone : Dict.get stats "oper-status" = None).
  { rewrite netconf_stats_result in Hs. unfold or_no_data in Hs.
    destruct (Netconf.wants_ietf (netconf_openconfig mgr i wdf)) as [[|]|e];
      [| | discriminate Hs]; injection Hs as Hs.
    - destruct (netconf_ietf mgr i wdf) as [d|] eqn:E; [|subst stats; reflexivity].
      destruct (Dict.truthy d); [|subst stats; reflexivity].
      subst d. exfalso. apply Hm. exact (netconf_ietf_view_sample mgr i wdf stats E).
    - destruct (netconf_openconfig mgr i wdf) as [d|] eqn:E; [|subst stats; reflexivity].
      destruct (Dict.truthy d); [|subst stats; reflexivity].
      subst d. exact (proj2 (netconf_openconfig_view_sample mgr i wdf stats E)). }
  split; [exact Hnone|].
  rewrite (netconf_record_status i strf stats rate ts out Hout).
  unfold Netconf.get_or. rewrite Hnone. reflexivity.
Qed.

(** The OpenConfig sample of the example counters and its record. *)
Lemma netconf_status_only_from_ietf_witness :
  Dict.get openconfig_example "oper-status" = None
  /\ netconf_counter_field openconfig_example_record "oper-status"
     = Some (Json.JStr "unknown").
Proof.
  apply (netconf_status_only_from_ietf openconfig_only "Ethernet1" debug_ok no_time
           [] openconfig_example Snmp.zero_rate (clock 10) openconfig_example_record).
  - vm_compute. reflexivity.
  - vm_compute. reflexivity.
  - vm_compute. discriminate.
Defined.

Lemma netconf_pass_requests (mgr : Nc.manager) (i : string)
    (wdf : string -> Py.result unit) (strf : Py.time -> string) (start : Py.time)
    (dur : option Py.num) (ct now : Py.time) (self : Nc.poll_state) (f : Nc.file) (l : Nc.log) :
  snd (Netconf.monitor_pass mgr i wdf strf start dur ct now self f l)
  = snd (Netconf.get_interface_stats mgr i wdf l).
Proof.
  unfold Netconf.monitor_pass.
  destruct (Netconf.get_interface_stats mgr i wdf l) as [[stats|e] l']; [|reflexivity].
  destruct (Dict.truthy stats); [|reflexivity].
  destruct (Netconf.calculate_traffic_rate self stats (Py.seconds now)) as [[rate st]|e];
    [|reflexivity].
  destruct (Netconf.format_output i strf stats rate ct) as [out|e]; [|reflexivity].
  destruct (Netconf.console_octets stats); reflexivity.
Qed.

Lemma netconf_loop_requests (i : string) (wdf : string -> Py.result unit)
    (strf : Py.time -> string) (start : Py.time) (dur : option Py.num)
    (ticks : list (Nc.manager * Py.time * Py.time)) :
  forall (self : Nc.poll_state) (f : Nc.file) (l : Nc.log),
    Forall (fun r => Nc.rpc_interface r = i) l ->
    Forall (fun r => Nc.rpc_interface r = i)
      (Eff.timed_world (Netconf.monitor_loop i wdf strf start dur ticks self f l)).
Proof.
  induction ticks as [|[[mgr ct] now] rest IH]; intros self f l H.
  - exact H.
  - cbn [Netconf.monitor_loop].
    pose proof (netconf_pass_requests mgr i wdf strf start dur ct now self f l) as Hp.
    destruct (Netconf.monitor_pass mgr i wdf strf start dur ct now self f l) as [p l'].
    cbn [snd] in Hp.
    assert (Hl' : Forall (fun r => Nc.rpc_interface r = i) l').
    { rewrite Hp.
      rewrite netconf_stats_requests. apply Forall_app. split; [exact H|].
      destruct (Netconf.wants_ietf (netconf_openconfig mgr i wdf)) as [[|]|e];
        repeat constructor. }
    destruct (Netconf.pass_outcome p) as [[|]|e]; [exact Hl' | | exact Hl'].
    apply IH. exact Hl'.
Qed.

(** X19. [monitor] of [if-stats-netconf.py] polls one interface throughout a
    run, the one selected after discovery: every request of the loop names
    it. It is the configured interface when discovery lists it or lists
    nothing (also when discovery fails), and the first interface of the list
    otherwise. *)
Theorem netconf_run_polls_selected_interface
    (name : string) (wdf : string -> Py.result unit) (strf : Py.time -> string)
    (discovery : Py.result Xml.text) (start : Py.time) (dur : option Py.num)
    (ticks : list (Nc.manager * Py.time * Py.time)) :
  let interfaces := Netconf.discover_interfaces discovery in
  let chosen := Netconf.select_interface name interfaces in
  Forall (fun r => Nc.rpc_interface r = chosen)
    (Eff.timed_world (Netconf.monitor name wdf strf discovery start dur ticks))
  /\ (In name interfaces \/ interfaces = [] -> chosen = name)
  /\ (~ In name interfaces -> forall first rest,
        interfaces = first :: rest -> chosen = first).
Proof.
  cbv zeta. split; [| split].
  - unfold Netconf.monitor. apply netconf_loop_requests. constructor.
  - unfold Netconf.select_interface.
    destruct (Netconf.discover_interfaces discovery) as [|x r]; [reflexivity|].
    intros [H | H]; [|discriminate H].
    assert (E : existsb (String.eqb name) (x :: r) = true).
    { apply existsb_exists. exists name. split; [exact H | apply String.eqb_refl]. }
    rewrite E. reflexivity.
  - intros H first rest E. unfold Netconf.select_interface. rewrite E in *.
    destruct (existsb (String.eqb name) (first :: rest)) eqn:X; cbn [negb].
    + exfalso. apply H. apply existsb_exists in X. destruct X as (y & Hy & Ey).
      apply String.eqb_eq in Ey. subst y. exact Hy.
    + reflexivity.
Qed.

(** A pass writes at most one record, and raises on a conversion or on an
    overflow only. *)
Lemma netconf_pass_outcome (mgr : Nc.manager) (i : string)
    (wdf : string -> Py.result unit) (strf : Py.time -> string) (start : Py.time)
    (dur : option Py.num) (ct now : Py.time) (self : Nc.poll_state) (f : Nc.file)
    (l : Nc.log) :
  let p := fst (Netconf.monitor_pass mgr i wdf strf start dur ct now self f l) in
  (length (Netconf.pass_file p) <= length f + 1)%nat
  /\ (length f <= length (Netconf.pass_file p))%nat
  /\ forall e, Netconf.pass_outcome p = Py.Raise e ->
               e = Py.ValueError \/ e = Py.TypeError \/ e = Py.OverflowError.
Proof.
  cbv zeta. unfold Netconf.monitor_pass.
  pose proof (netconf_stats_result mgr i wdf l) as Hr.
  destruct (Netconf.get_interface_stats mgr i wdf l) as [[stats|e] l']; cbn [fst] in *.
  - destruct (Dict.truthy stats).
    + destruct (netconf_rate_run self stats (Py.seconds now))
        as [(in_bps & out_bps & ->) | ->].
      * unfold Netconf.format_output. cbn [Dict.item Dict.get String.eqb Ascii.eqb
          Bool.eqb Py.rbind].
        destruct (Netconf.console_octets stats) as [[a b]|e] eqn:E; cbn.
        -- unfold Nc.dump_line. rewrite length_app. cbn [length].
           repeat split; try lia. discriminate.
        -- unfold Nc.dump_line. rewrite length_app. cbn [length].
           repeat split; try lia. intros e0 H. injection H as <-.
           unfold Netconf.console_octets in E.
           destruct (Dict.int_get stats "in-octets") as [x|e1] eqn:E1;
             cbn [Py.rbind] in E.
           ++ destruct (Dict.int_get stats "out-octets") as [y|e2] eqn:E2;
                cbn [Py.rbind] in E; [discriminate E|].
              injection E as <-. destruct (int_get_exn _ _ _ E2); auto.
           ++ injection E as <-. destruct (int_get_exn _ _ _ E1); auto.
      * cbn. repeat split; try lia. intros e0 H. injection H as <-. auto.
    + cbn. repeat split; try lia. discriminate.
  - cbn. repeat split; try lia. intros e0 H. injection H as <-.
    unfold Netconf.wants_ietf in Hr.
    destruct (netconf_openconfig mgr i wdf) as [d|]; [|discriminate Hr].
    destruct (Dict.truthy d); [|discriminate Hr].
    destruct (Dict.int_get d "in-octets") as [n|e1] eqn:E1; cbn [Py.rbind] in Hr;
      [discriminate Hr|].
    injection Hr as <-. destruct (int_get_exn _ _ _ E1); auto.
Qed.

Lemma netconf_pass_due (mgr : Nc.manager) (i : string)
    (wdf : string -> Py.result unit) (strf : Py.time -> string) (start : Py.time)
    (dur : option Py.num) (ct now : Py.time) (self : Nc.poll_state) (f : Nc.file) (l : Nc.log) :
  forall b,
    Netconf.pass_outcome
      (fst (Netconf.monitor_pass mgr i wdf strf start dur ct now self f l)) = Py.Ok b ->
    b = Eff.due dur (Py.seconds start) (Py.seconds ct).
Proof.
  intros b. unfold Netconf.monitor_pass.
  destruct (Netconf.get_interface_stats mgr i wdf l) as [[stats|e] l'];
    [|discriminate].
  destruct (Dict.truthy stats).
  - destruct (Netconf.calculate_traffic_rate self stats (Py.seconds now)) as [[rate st]|e];
      [|discriminate].
    destruct (Netconf.format_output i strf stats rate ct) as [out|e]; [|discriminate].
    destruct (Netconf.console_octets stats); [|discriminate].
    cbn. intros H. injection H as <-. reflexivity.
  - cbn. intros H. injection H as <-. reflexivity.
Qed.

(** X22. A run of the loop of [monitor] of [if-stats-netconf.py] writes at
    most one record per pass and never removes one. It ends by the interrupt,
    no pass having been due; by the duration test, at a pass that was due; or
    by an exception: a [ValueError] or a [TypeError] raised when an octet
    counter is converted, or an [OverflowError] raised when a division of the
    rate computation overflows. No failure of a request, of the parsing or of
    the debug copy of a reply ends it. *)
Theorem netconf_run_ends (i : string) (wdf : string -> Py.result unit)
    (strf : Py.time -> string) (start : Py.time) (dur : option Py.num)
    (ticks : list (Nc.manager * Py.time * Py.time)) :
  forall (self : Nc.poll_state) (f : Nc.file) (l : Nc.log),
    let r := Netconf.monitor_loop i wdf strf start dur ticks self f l in
    (length f <= length (Eff.timed_file r) <= length f + length ticks)%nat
    /\ match Eff.timed_stop r with
       | Eff.Stopped (Eff.Raised e) =>
           e = Py.ValueError \/ e = Py.TypeError \/ e = Py.OverflowError
       | Eff.Stopped Eff.Interrupted =>
           Forall (fun t => Eff.due dur (Py.seconds start) (Py.seconds (snd (fst t)))
                            = false) ticks
       | Eff.DurationReached =>
           exists t, In t ticks
                     /\ Eff.due dur (Py.seconds start) (Py.seconds (snd (fst t))) = true
       end.
Proof.
  induction ticks as [|[[mgr ct] now] rest IH]; intros self f l.
  - cbn. split; [lia | constructor].
  - cbn [Netconf.monitor_loop].
    pose proof (netconf_pass_outcome mgr i wdf strf start dur ct now self f l)
      as (Hle & Hge & Hexn).
    pose proof (netconf_pass_due mgr i wdf strf start dur ct now self f l) as Hdue.
    destruct (Netconf.monitor_pass mgr i wdf strf start dur ct now self f l) as [p l'].
    cbn [fst] in *.
    destruct (Netconf.pass_outcome p) as [[|]|e] eqn:O.
    + cbn. split; [lia|]. exists (mgr, ct, now). split; [left; reflexivity|].
      cbn [fst snd]. symmetry. apply Hdue. reflexivity.
    + specialize (IH (Netconf.pass_state p) (Netconf.pass_file p) l').
      cbv zeta in IH |- *. destruct IH as [Hl Hend]. split; [cbn [length]; lia|].
      destruct (Eff.timed_stop _) as [|[|e]].
      * destruct Hend as (t & Hin & Ht). exists t. split; [right; exact Hin | exact Ht].
      * constructor; [|exact Hend]. cbn [fst snd]. symmetry. apply Hdue. reflexivity.
      * exact Hend.
    + cbn. split; [lia|]. apply Hexn. reflexivity.
Qed.

(** ** The lines of the output file *)

Lemma has_char_app (c : ascii) (a b : string) :
  has_char c (a ++ b) = has_char c a || has_char c b.
Proof.
  induction a as [|x a IH]; cbn [append has_char]; [reflexivity|].
  rewrite IH, orb_assoc. reflexivity.
Qed.

Lemma escape_char_no_lf (ea : bool) (c : ascii) :
  has_char LF (Json.escape_char ea c) = false.
Proof.
  destruct ea; destruct c as [[|] [|] [|] [|] [|] [|] [|] [|]]; reflexivity.
Qed.

Lemma escape_no_lf (ea : bool) (s : string) :
  has_char LF (Json.escape ea s) = false.
Proof.
  induction s as [|c r IH]; [reflexivity|].
  cbn [Json.escape]. rewrite has_char_app, escape_char_no_lf, IH. reflexivity.
Qed.

Lemma dumps_string_no_lf (ea : bool) (s : string) :
  has_char LF (Json.dumps_string ea s) = false.
Proof.
  unfold Json.dumps_string. cbn [has_char]. rewrite has_char_app, escape_no_lf.
  reflexivity.
Qed.

Lemma digits_no_lf (d : Decimal.uint) :
  has_char LF (NilEmpty.string_of_uint d) = false.
Proof. unfold LF. induction d; simpl; auto. Qed.

Lemma string_of_uint_no_lf (d : Decimal.uint) :
  has_char LF (NilZero.string_of_uint d) = false.
Proof. destruct d; try apply digits_no_lf. reflexivity. Qed.

Lemma str_no_lf (n : Z) : has_char LF (Py.str n) = false.
Proof.
  unfold Py.str, NilZero.string_of_int.
  destruct (Z.to_int n); cbn [has_char]; rewrite ?string_of_uint_no_lf; reflexivity.
Qed.

Lemma join_no_lf (l : list string) :
  Forall (fun s => has_char LF s = false) l ->
  has_char LF (Json.join ", " l) = false.
Proof.
  induction 1 as [|x r Hx Hr IH]; [reflexivity|].
  destruct r as [|y r']; [exact Hx|].
  change (Json.join ", " (x :: y :: r')) with (x ++ ", " ++ Json.join ", " (y :: r')).
  rewrite !has_char_app, Hx, IH. reflexivity.
Qed.

(** X20. The text that [json.dump] writes for a record holds no line feed,
    whatever the strings in the record (the values come from the device) and
    whatever [ensure_ascii]: with the line feed that every monitor writes
    after it, each record is exactly one line of the output file. *)
Theorem record_is_one_line (ensure_ascii : bool) (j : Json.t) :
  has_char LF (Json.dumps ensure_ascii j) = false.
Proof.
  induction j using JsonSpec.t_nested_ind.
  - reflexivity.
  - destruct b; reflexivity.
  - apply str_no_lf.
  - apply dumps_string_no_lf.
  - cbn [Json.dumps]. rewrite !has_char_app. cbn [has_char].
    rewrite join_no_lf; [reflexivity|].
    apply Forall_map. exact H.
  - cbn [Json.dumps]. rewrite !has_char_app. cbn [has_char].
    rewrite join_no_lf; [reflexivity|].
    apply Forall_map. eapply Forall_impl; [|exact H].
    intros [k v] Hv. cbn [snd] in Hv.
    rewrite !has_char_app, dumps_string_no_lf, Hv. reflexivity.
Qed.
